(** * PartnerBoost transaction reports: a shallow embedding

    The development follows the repository file by file:
    - [Py]: the fragment of Python the scripts rely on (JSON values,
      truthiness, [or], [dict.get], [float()], [int()], [str()],
      exceptions);
    - [Net]: the process environment and the remote API seen through
      [requests.post];
    - [Sqlite]: the [products] table of [products.db];
    - [Console]: the brand table both report scripts print, and what the
      console refuses to show;
    - [Os]: the files the transaction report writes;
    - [daily_transaction_report], [daily_amazon_report], [sync_products],
      [fetch_brands_sample]: the functions of the scripts.

    Of the console output ([print]) the model has the lines of
    [daily_amazon_report.main_for_date], and the lines of
    [daily_transaction_report] that the console can refuse; the progress
    lines of [fetch_transactions] and [sync_products] are left out. *)

From Stdlib Require Import ZArith Bool Lia Ascii.
From Stdlib Require Import PrimFloat SpecFloat FloatOps.
From stdpp Require Import gmap strings list fin_maps pretty sorting.

Local Open Scope string_scope.
Local Open Scope list_scope.
Local Open Scope Z_scope.

(* ===================================================================== *)
(** ** Python values and exceptions                                       *)
(* ===================================================================== *)

Module Py.

(** The exceptions the scripts can raise, directly or through a library. *)
Inductive exn :=
| RuntimeError (msg : string)
| TypeError
| ValueError
| OverflowError
| AttributeError
| HTTPError (status_code : Z)      (* requests: raise_for_status *)
| ConnectionError                  (* requests: no response at all *)
| JSONDecodeError                  (* requests: resp.json() on a non-JSON body *)
| OperationalError                 (* sqlite3: no such table *)
| InterfaceError                   (* sqlite3: parameter of unsupported type *)
| FileNotFoundError                (* open: a directory of the path is missing *)
| FileExistsError                  (* os.makedirs: a file is in the way *)
| UnicodeEncodeError.              (* print: a character the console lacks *)

(** Where the embedding stops: a loop that is given too little fuel, and
    Python behaviour that is left out on purpose (each use says which). *)
Inductive limit := OutOfFuel | NotModelled.

Inductive outcome (A : Type) :=
| Ok (a : A)
| Raise (e : exn)
| Beyond (l : limit).
Arguments Ok {A} a.
Arguments Raise {A} e.
Arguments Beyond {A} l.

Definition bind {A B} (x : outcome A) (k : A -> outcome B) : outcome B :=
  match x with
  | Ok a => k a
  | Raise e => Raise e
  | Beyond l => Beyond l
  end.

(** What [json.loads] produces.  An object is kept as the list of its items;
    its keys are strings. *)
#[warnings="-register-all"]
Inductive pyval :=
| PNone
| PBool (b : bool)
| PInt (z : Z)
| PFloat (f : float)
| PStr (s : string)
| PList (l : list pyval)
| PDict (d : list (string * pyval)).

Abbreviation dict := (list (string * pyval)).

(** [d[k]] for a key that is present: the item of [d] under [k]. *)
Fixpoint dict_lookup (d : dict) (k : string) : option pyval :=
  match d with
  | [] => None
  | (k', v) :: d' => if String.eqb k' k then Some v else dict_lookup d' k
  end.

(** [d.get(k, dflt)] *)
Definition dict_get (d : dict) (k : string) (dflt : pyval) : pyval :=
  default dflt (dict_lookup d k).

(** [v.get(k, dflt)] on a value that need not be a dict. *)
Definition py_get (v : pyval) (k : string) (dflt : pyval) : outcome pyval :=
  match v with
  | PDict d => Ok (dict_get d k dflt)
  | _ => Raise AttributeError
  end.

(** [bool(v)] *)
Definition truthy (v : pyval) : bool :=
  match v with
  | PNone => false
  | PBool b => b
  | PInt z => negb (z =? 0)
  | PFloat f => negb (PrimFloat.eqb f 0%float)
  | PStr s => negb (String.eqb s "")
  | PList l => match l with [] => false | _ => true end
  | PDict d => match d with [] => false | _ => true end
  end.

(** [a or b] *)
Definition py_or (a b : pyval) : pyval := if truthy a then a else b.

(** [v != 0] *)
Definition ne_zero (v : pyval) : bool :=
  match v with
  | PInt z => negb (z =? 0)
  | PBool b => b
  | PFloat f => negb (PrimFloat.eqb f 0%float)
  | _ => true
  end.

(** [v == "0"] *)
Definition eq_str (v : pyval) (s : string) : bool :=
  match v with
  | PStr s' => String.eqb s' s
  | _ => false
  end.

(** [v > 0]; comparing a string, a list, a dict or [None] with an int is a
    [TypeError]. *)
Definition gt_zero (v : pyval) : outcome bool :=
  match v with
  | PInt z => Ok (0 <? z)
  | PBool b => Ok b
  | PFloat f => Ok (PrimFloat.ltb 0%float f)
  | _ => Raise TypeError
  end.

(** The items [list.extend(v)] appends.  A number, a boolean or [None] is
    not iterable.  A string would contribute its characters and a dict its
    keys; these two are left out. *)
Definition py_iter (v : pyval) : outcome (list pyval) :=
  match v with
  | PList l => Ok l
  | PNone | PBool _ | PInt _ | PFloat _ => Raise TypeError
  | PStr _ | PDict _ => Beyond NotModelled
  end.

(** [float(z)] for an int: the nearest binary64 (ties to even), or
    [OverflowError] when that is not finite. *)
Definition float_of_Z (z : Z) : outcome float :=
  match binary_normalize FloatOps.prec FloatOps.emax z 0 false with
  | S754_infinity _ => Raise OverflowError
  | sf => Ok (SF2Prim sf)
  end.

(** [int(f)] for a float: truncation towards zero. *)
Definition Z_of_float (f : float) : outcome Z :=
  match Prim2SF f with
  | S754_zero _ => Ok 0
  | S754_finite s m e =>
      let a := if 0 <=? e then Z.pos m * 2 ^ e else Z.pos m / 2 ^ (- e) in
      Ok (if s then - a else a)
  | S754_infinity _ => Raise OverflowError
  | S754_nan => Raise ValueError
  end.

(** The parts of CPython that are taken as given: the parsers behind
    [float(str)] and [int(str)] ([None] is their [ValueError]), the text
    [str()] gives for floats, lists and dicts, [str.strip] and
    [str.lower]. *)
Class Runtime := {
  float_of_str : string -> option float;
  int_of_str : string -> option Z;
  repr : pyval -> string;
  str_strip : string -> string;
  str_lower : string -> string
}.

Section WithRuntime.
Context {rt : Runtime}.

(** [float(v)] *)
Definition py_float (v : pyval) : outcome float :=
  match v with
  | PFloat f => Ok f
  | PInt z => float_of_Z z
  | PBool b => Ok (if b then 1%float else 0%float)
  | PStr s => match float_of_str s with
              | Some f => Ok f
              | None => Raise ValueError
              end
  | PNone | PList _ | PDict _ => Raise TypeError
  end.

(** [int(v)] *)
Definition py_int (v : pyval) : outcome Z :=
  match v with
  | PInt z => Ok z
  | PBool b => Ok (if b then 1 else 0)
  | PFloat f => Z_of_float f
  | PStr s => match int_of_str s with
              | Some z => Ok z
              | None => Raise ValueError
              end
  | PNone | PList _ | PDict _ => Raise TypeError
  end.

(** [str(v)], as an f-string field renders [v]. *)
Definition py_str (v : pyval) : string :=
  match v with
  | PNone => "None"
  | PBool true => "True"
  | PBool false => "False"
  | PInt z => pretty z
  | PStr s => s
  | PFloat _ | PList _ | PDict _ => repr v
  end.

End WithRuntime.

(** The key under which a brand is filed in the result dict.  Lists and
    dicts are unhashable.  Numbers and booleans are legal keys in Python;
    the result map of this embedding is keyed by strings, so those are
    left out. *)
Definition brand_key (v : pyval) : outcome string :=
  match v with
  | PStr s => Ok s
  | PList _ | PDict _ => Raise TypeError
  | PNone | PBool _ | PInt _ | PFloat _ => Beyond NotModelled
  end.

(** A runtime that reads unsigned decimal digit strings and nothing else;
    it serves to run the definitions on concrete inputs. *)
Fixpoint digits (s : string) (acc : Z) : option Z :=
  match s with
  | EmptyString => Some acc
  | String c s' =>
      let n := Z.of_N (Ascii.N_of_ascii c) in
      if (48 <=? n) && (n <=? 57) then digits s' (10 * acc + (n - 48)) else None
  end.

Definition digits_int (s : string) : option Z :=
  match s with
  | EmptyString => None
  | _ => digits s 0
  end.

Definition digits_float (s : string) : option float :=
  match digits_int s with
  | Some z => match float_of_Z z with Ok f => Some f | _ => None end
  | None => None
  end.

Definition digits_runtime : Runtime := {|
  float_of_str := digits_float;
  int_of_str := digits_int;
  repr := fun _ => "?";
  str_strip := fun s => s;
  str_lower := fun s => s
|}.

(** [os.path.join(a, b)] on POSIX. *)
Definition starts_with_sep (s : string) : bool :=
  match s with
  | String "/"%char _ => true
  | _ => false
  end.

Fixpoint ends_with_sep (s : string) : bool :=
  match s with
  | EmptyString => false
  | String c EmptyString => Ascii.eqb c "/"%char
  | String _ s' => ends_with_sep s'
  end.

Definition os_path_join (a b : string) : string :=
  if starts_with_sep b then b
  else if String.eqb a "" || ends_with_sep a then a +:+ b
  else a +:+ "/" +:+ b.

End Py.

Import Py.

Notation "x <- c1 ;; c2" := (Py.bind c1 (fun x => c2))
  (at level 100, c1 at next level, right associativity).

(** One brand's running totals: [{"orders": 0, "sales": 0.0, "commission": 0.0}]. *)
Record stats := { orders : Z; sales : float; commission : float }.

Definition default_stats : stats :=
  {| orders := 0; sales := 0%float; commission := 0%float |}.

(** [result[brand]] of the [defaultdict]: the stored totals, or fresh ones. *)
Definition entry (result : gmap string stats) (brand : string) : stats :=
  default default_stats (result !! brand).

(* ===================================================================== *)
(** ** The brand table on the console                                     *)
(* ===================================================================== *)

Module Console.

(** [f"{x:.2f}"] is taken as given. *)
Class Format := { fixed2 : float -> string }.

(** [sorted(agg.items(), key=lambda x: x[0])]: strings are compared by code
    point, which on UTF-8 text is the order of the bytes.  The keys of a
    dict are distinct, so the order of the items before the sort plays no
    part. *)
Definition by_brand (a b : string * stats) : Prop := String.le a.1 b.1.

#[global] Instance by_brand_dec : RelDecision by_brand.
Proof. intros a b. unfold by_brand. apply _. Defined.

Definition sorted_items (agg : gmap string stats) : list (string * stats) :=
  merge_sort by_brand (map_to_list agg).

(** What [sys.stdout] can show.  The fixed parts of the lines, the numbers
    and the dates are ASCII, which every console encoding has.  A text that
    comes from the data (a brand name, a path) may hold a character the
    console cannot encode: then [print] raises [UnicodeEncodeError] and
    nothing of the line is shown.  Which texts can be encoded is taken as
    given. *)
Class Stdout := { encodable : string -> bool }.

Section WithFormat.
Context {fmt : Format} {con : Stdout}.

(** [f"{brand}, {int(stats['orders'])}, {stats['sales']:.2f},
    {stats['commission']:.2f}"] *)
Definition brand_line (item : string * stats) : string :=
  item.1 +:+ ", " +:+ pretty (orders item.2) +:+ ", "
    +:+ fixed2 (sales item.2) +:+ ", " +:+ fixed2 (commission item.2).

(** The lines of the [for brand, stats in sorted(...)] loop of both report
    scripts. *)
Definition brand_lines (agg : gmap string stats) : list string :=
  brand_line <$> sorted_items agg.

(** The loop itself, on the console [out]: one [print] per item, in the
    order of the items, until one is refused. *)
Fixpoint print_rows (items : list (string * stats)) (out : list string)
  : outcome unit * list string :=
  match items with
  | [] => (Ok tt, out)
  | item :: rest =>
      if encodable item.1 then print_rows rest (out ++ [brand_line item])
      else (Raise UnicodeEncodeError, out)
  end.

End WithFormat.
End Console.

Import Console.

(* ===================================================================== *)
(** ** The process environment and the remote API                         *)
(* ===================================================================== *)

Module Net.

(** What one [requests.post] call meets: no response at all, or an HTTP
    response with its status code and, when the body is JSON, its value. *)
Inductive response :=
| NoResponse
| HttpResponse (status_code : Z) (json : option pyval).

(** A request as the scripts build it: [params=], and [data=] or [json=]. *)
Record request := {
  url : string;
  params : dict;
  payload : dict;
  as_json : bool
}.

(** The remote side: the responses it will give, in order, and the
    requests received so far. *)
Record world := { pending : list response; sent : list request }.

(** [requests.post(...)]: the request goes out and the next response, if
    there is one, comes back. *)
Definition post (rq : request) (w : world) : response * world :=
  match pending w with
  | [] => (NoResponse, {| pending := []; sent := sent w ++ [rq] |})
  | r :: rest => (r, {| pending := rest; sent := sent w ++ [rq] |})
  end.

(** [resp.raise_for_status(); resp.json()] *)
Definition json_of (r : response) : outcome pyval :=
  match r with
  | NoResponse => Raise ConnectionError
  | HttpResponse sc body =>
      if (400 <=? sc) && (sc <? 600) then Raise (HTTPError sc)
      else match body with
           | Some v => Ok v
           | None => Raise JSONDecodeError
           end
  end.

Definition TOKEN_ENV_NAME : string := "PARTNERBOOST_TOKEN".

(** [os.getenv(TOKEN_ENV_NAME)] followed by [if not token: raise]. *)
Definition token_missing : exn :=
  RuntimeError ("请先在环境变量 " +:+ TOKEN_ENV_NAME +:+ " 中配置 PartnerBoost token").

Definition get_token (env : gmap string string) : outcome string :=
  match env !! TOKEN_ENV_NAME with
  | Some token => if String.eqb token "" then Raise token_missing else Ok token
  | None => Raise token_missing
  end.

(** How a [while True] body ends: [break] or the next iteration, either way
    with the items accumulated so far. *)
Inductive ctl := Break (items : list pyval) | Continue (items : list pyval).

End Net.

Import Net.

(* ===================================================================== *)
(** ** The [products] table of products.db                                *)
(* ===================================================================== *)

Module Sqlite.

(** Every column of [products] is declared [TEXT]: a stored value is
    [NULL] or a text. *)
Inductive cell := Null | Text (s : string).

Record product_row := {
  asin : cell;
  brand_id : cell;
  brand_name : cell;
  title : cell;
  country_code : cell
}.

(** The database file: the rows of [products], or [None] while the table
    has not been created. *)
Record database := { products : option (list product_row) }.

(** The text SQLite stores for a float bound to a [TEXT] column (or [Null]
    for a NaN) is taken as given. *)
Class Engine := { text_of_real : float -> cell }.

(** A Python value bound to a [?] that meets a [TEXT] column: [None] is
    [NULL], a number is converted to its text, an int outside 64 bits and a
    list or dict cannot be bound. *)
Definition bind_text {eng : Engine} (v : pyval) : outcome cell :=
  match v with
  | PNone => Ok Null
  | PStr s => Ok (Text s)
  | PBool b => Ok (Text (if b then "1" else "0"))
  | PInt z =>
      if (- 2 ^ 63 <=? z) && (z <? 2 ^ 63) then Ok (Text (pretty z))
      else Raise OverflowError
  | PFloat f => Ok (text_of_real f)
  | PList _ | PDict _ => Raise InterfaceError
  end.

(** [a = b] in SQL: never true on [NULL]. *)
Definition cell_eqb (a b : cell) : bool :=
  match a, b with
  | Text s, Text s' => String.eqb s s'
  | _, _ => false
  end.

(** [SELECT ... FROM products WHERE asin = ?] then [fetchone()]. *)
Definition select_one (tbl : list product_row) (key : cell) : option product_row :=
  List.find (fun r => cell_eqb (asin r) key) tbl.

(** [SELECT COUNT( * ) FROM products WHERE asin = ?] *)
Definition count_rows (tbl : list product_row) (key : cell) : nat :=
  length (List.filter (fun r => cell_eqb (asin r) key) tbl).

(** [INSERT INTO products ... ON CONFLICT(asin) DO UPDATE SET
    brand_id=excluded.brand_id, brand_name=excluded.brand_name,
    title=excluded.title, country_code=excluded.country_code] *)
Fixpoint insert_or_update (new : product_row) (tbl : list product_row)
  : list product_row :=
  match tbl with
  | [] => [new]
  | r :: tbl' =>
      if cell_eqb (asin r) (asin new)
      then {| asin := asin r;
              brand_id := brand_id new;
              brand_name := brand_name new;
              title := title new;
              country_code := country_code new |} :: tbl'
      else r :: insert_or_update new tbl'
  end.

(** [asin TEXT PRIMARY KEY]: no two rows share a text key. *)
Fixpoint primary_key_ok (tbl : list product_row) : bool :=
  match tbl with
  | [] => true
  | r :: tbl' =>
      negb (existsb (fun r' => cell_eqb (asin r') (asin r)) tbl')
      && primary_key_ok tbl'
  end.

(** [SELECT COUNT(DISTINCT col) FROM products]: the distinct values of the
    column, [NULL] left out. *)
Definition texts (cells : list cell) : list string :=
  omap (fun c => match c with Text s => Some s | Null => None end) cells.

Definition count_distinct (cells : list cell) : nat :=
  length (remove_dups (texts cells)).

End Sqlite.

Import Sqlite.

(* ===================================================================== *)
(** ** The files                                                          *)
(* ===================================================================== *)

Module Os.

(** The file system holds the regular files, by path, with their text.
    Which calls it refuses is taken as given.  [makedirs_error d fs] is the
    exception [os.makedirs(d, exist_ok=True)] raises, if it raises.
    [open_error p fs] is the exception [open(p, "w", encoding="utf-8")]
    raises after that, if it raises: a directory of [p] is missing, [p] is
    a directory, the directory may not be written to.  [write_error p s fs]
    is the exception [f.write(s)] or the closing of the file raises, if one
    does, with the text the file is left with. *)
Class Disk := {
  makedirs_error : string -> gmap string string -> option exn;
  open_error : string -> gmap string string -> option exn;
  write_error : string -> string -> gmap string string -> option (exn * string)
}.

(** [with open(p, "w", encoding="utf-8") as f: f.write(s)]: a refused
    [open] leaves the files as they were; once the file is open it has lost
    its old text. *)
Definition write_text {disk : Disk} (p s : string) (fs : gmap string string)
  : outcome unit * gmap string string :=
  match open_error p fs with
  | Some e => (Raise e, fs)
  | None =>
      match write_error p s fs with
      | Some (e, remains) => (Raise e, <[p := remains]> fs)
      | None => (Ok tt, <[p := s]> fs)
      end
  end.

End Os.

Import Os.

(* ===================================================================== *)
(** ** daily_transaction_report.py                                        *)
(* ===================================================================== *)

Module daily_transaction_report.

(** Dates are day numbers.  [strftime d] is [d.strftime("%Y-%m-%d")] and
    [strptime s] is [datetime.strptime(s, "%Y-%m-%d").date()], [None]
    being its [ValueError]. *)
Class Calendar := {
  strftime : Z -> string;
  strptime : string -> option Z
}.

(** The page the f-string of [write_html_report] produces (totals, table
    rows and styling), as a function of the range label and the aggregate. *)
Class Template := { html_document : string -> gmap string stats -> string }.

Section WithRuntime.
Context {rt : Runtime} {cal : Calendar} {tpl : Template}.
Context {disk : Disk} {con : Stdout}.

Definition API_URL : string := "https://app.partnerboost.com/api.php".

(** The [params] and [data] of the request for one page. *)
Definition page_request (token begin_date end_date : string) (page limit : Z)
  : request :=
  {| url := API_URL;
     params := [("mod", PStr "medium"); ("op", PStr "transaction")];
     payload := [("token", PStr token); ("type", PStr "json");
                 ("begin_date", PStr begin_date); ("end_date", PStr end_date);
                 ("page", PInt page); ("limit", PInt limit)];
     as_json := false |}.

(** One turn of the [while True] loop, from the response on. *)
Definition page_step (resp : response) (page : Z) (all_items : list pyval)
  : outcome ctl :=
  result <- json_of resp ;;
  status <- py_get result "status" (PDict []) ;;
  code <- py_get status "code" PNone ;;
  if ne_zero code then
    msg <- py_get status "msg" PNone ;;
    Raise (RuntimeError ("API error " +:+ py_str code +:+ ": " +:+ py_str msg))
  else
    data_block <- py_get result "data" (PDict []) ;;
    items <- py_get data_block "list" (PList []) ;;
    if negb (truthy items) then Ok (Break all_items)
    else
      new_items <- py_iter items ;;
      let all_items := all_items ++ new_items in
      declared <- py_get data_block "total_page" (PInt 1) ;;
      total_page <- py_int declared ;;
      if total_page <=? page then Ok (Break all_items)
      else Ok (Continue all_items).

Fixpoint fetch_pages (fuel : nat) (token begin_date end_date : string)
    (limit page : Z) (all_items : list pyval) (w : world)
  : outcome (list pyval) * world :=
  match fuel with
  | O => (Beyond OutOfFuel, w)
  | S fuel' =>
      let (resp, w') := post (page_request token begin_date end_date page limit) w in
      match page_step resp page all_items with
      | Ok (Break items) => (Ok items, w')
      | Ok (Continue items) =>
          fetch_pages fuel' token begin_date end_date limit (page + 1) items w'
      | Raise e => (Raise e, w')
      | Beyond l => (Beyond l, w')
      end
  end.

Definition fetch_transactions (fuel : nat) (env : gmap string string)
    (begin_date end_date : string) (limit : Z) (w : world)
  : outcome (list pyval) * world :=
  match get_token env with
  | Ok token => fetch_pages fuel token begin_date end_date limit 1 [] w
  | Raise e => (Raise e, w)
  | Beyond l => (Beyond l, w)
  end.

(** [try: float(t.get(k, 0) or 0)  except (TypeError, ValueError): 0.0] *)
Definition amount (t : dict) (k : string) : outcome float :=
  match py_float (py_or (dict_get t k (PInt 0)) (PInt 0)) with
  | Raise TypeError | Raise ValueError => Ok 0%float
  | r => r
  end.

(** The body of the [for t in transactions] loop. *)
Definition add_row (result : gmap string stats) (t : dict)
  : outcome (gmap string stats) :=
  let brand_name := py_or (dict_get t "merchant_name" PNone) (PStr "Unknown") in
  sale_amount <- amount t "sale_amount" ;;
  sale_comm <- amount t "sale_comm" ;;
  brand <- brand_key brand_name ;;
  let s := entry result brand in
  Ok (<[brand := {| orders := orders s + 1;
                    sales := PrimFloat.add (sales s) sale_amount;
                    commission := PrimFloat.add (commission s) sale_comm |}]> result).

Fixpoint aggregate_from (result : gmap string stats) (transactions : list dict)
  : outcome (gmap string stats) :=
  match transactions with
  | [] => Ok result
  | t :: rest => result' <- add_row result t ;; aggregate_from result' rest
  end.

Definition aggregate_by_brand (transactions : list dict)
  : outcome (gmap string stats) :=
  aggregate_from ∅ transactions.

(** The name of the report file. *)
Definition report_filename (range_key begin_date end_date : string) : string :=
  if String.eqb begin_date end_date
  then "transaction_report_" +:+ end_date +:+ ".html"
  else "transaction_report_" +:+ begin_date +:+ "_to_" +:+ end_date
         +:+ "_" +:+ range_key +:+ ".html".

(** The range shown in the title and the date pill. *)
Definition range_label (range_key begin_date end_date : string) : string :=
  if String.eqb begin_date end_date then
    if String.eqb range_key "today" then end_date +:+ " · Today"
    else if String.eqb range_key "yesterday" then end_date +:+ " · Yesterday"
    else end_date
  else
    let human :=
      if String.eqb range_key "last7" then "Last 7 days"
      else if String.eqb range_key "last14" then "Last 14 days"
      else "" in
    let label := begin_date +:+ " → " +:+ end_date in
    if String.eqb human "" then label else label +:+ " · " +:+ human.

(** [module_dir] is [os.path.dirname(__file__)]; [fs] holds the files, by
    path.  The result is the returned path, or the exception that escapes,
    and the files afterwards.  The last statement before [return] prints
    the path. *)
Definition write_html_report (module_dir : string)
    (range_key begin_date end_date : string) (agg : gmap string stats)
    (fs : gmap string string) : outcome string * gmap string string :=
  let docs_dir := os_path_join module_dir "docs" in
  match makedirs_error docs_dir fs with
  | Some e => (Raise e, fs)
  | None =>
      let filename := report_filename range_key begin_date end_date in
      let filepath := os_path_join docs_dir filename in
      let html := html_document (range_label range_key begin_date end_date) agg in
      match write_text filepath html fs with
      | (Ok _, fs') =>
          if encodable filepath then (Ok filepath, fs')
          else (Raise UnicodeEncodeError, fs')
      | (Raise e, fs') => (Raise e, fs')
      | (Beyond l, fs') => (Beyond l, fs')
      end
  end.

(** [today] is [date.today()]. *)
Definition parse_range_arg (today : Z) (argv : list string)
  : outcome (string * string * string) :=
  match argv with
  | _ :: a :: _ =>
      let arg := str_lower (str_strip a) in
      if String.eqb arg "today" then
        let d_str := strftime today in Ok (d_str, d_str, "today")
      else if String.eqb arg "yesterday" then
        let d_str := strftime (today - 1) in Ok (d_str, d_str, "yesterday")
      else if String.eqb arg "last7" then
        Ok (strftime (today - 6), strftime today, "last7")
      else if String.eqb arg "last14" then
        Ok (strftime (today - 13), strftime today, "last14")
      else
        match strptime arg with
        | Some d => let d_str := strftime d in Ok (d_str, d_str, "single")
        | None => Raise ValueError
        end
  | _ =>
      let d_str := strftime (today - 1) in Ok (d_str, d_str, "yesterday")
  end.

End WithRuntime.

Section Main.
Context {rt : Runtime} {cal : Calendar} {tpl : Template}.
Context {disk : Disk} {con : Stdout} {fmt : Format}.

(** [aggregate_by_brand] on what [fetch_transactions] returned: an item
    that is not an object has no [get]. *)
Fixpoint aggregate_fetched (result : gmap string stats) (items : list pyval)
  : outcome (gmap string stats) :=
  match items with
  | [] => Ok result
  | PDict t :: rest =>
      result' <- add_row result t ;; aggregate_fetched result' rest
  | _ :: _ => Raise AttributeError
  end.

(** [total_orders] of [write_html_report], the figure of its first tile:
    [for stats in agg.values(): total_orders += int(stats["orders"])]. *)
Definition total_orders (agg : gmap string stats) : Z :=
  map_fold (fun _ s acc => acc + orders s) 0 agg.

(** [main()], with [sys.argv], [date.today()], the environment, the
    directory of the script, the remote side and the files.  What the
    console shows is not kept; a brand line it refuses ends the run before
    the report is written. *)
Definition main (fuel : nat) (today : Z) (argv : list string)
    (env : gmap string string) (module_dir : string) (w : world)
    (fs : gmap string string) : outcome unit * world * gmap string string :=
  match parse_range_arg today argv with
  | Ok (begin_str, end_str, range_key) =>
      match fetch_transactions fuel env begin_str end_str 1000 w with
      | (Ok txs, w') =>
          match aggregate_fetched ∅ txs with
          | Ok agg =>
              match (print_rows (sorted_items agg) []).1 with
              | Ok _ =>
                  let (written, fs') :=
                    write_html_report
                      module_dir range_key begin_str end_str agg fs in
                  match written with
                  | Ok _ => (Ok tt, w', fs')
                  | Raise e => (Raise e, w', fs')
                  | Beyond l => (Beyond l, w', fs')
                  end
              | Raise e => (Raise e, w', fs)
              | Beyond l => (Beyond l, w', fs)
              end
          | Raise e => (Raise e, w', fs)
          | Beyond l => (Beyond l, w', fs)
          end
      | (Raise e, w') => (Raise e, w', fs)
      | (Beyond l, w') => (Beyond l, w', fs)
      end
  | Raise e => (Raise e, w, fs)
  | Beyond l => (Beyond l, w, fs)
  end.

End Main.
End daily_transaction_report.


(* ===================================================================== *)
(** ** sync_products.py                                                   *)
(* ===================================================================== *)

Module sync_products.
Section WithRuntime.
Context {rt : Runtime} {eng : Engine}.

Definition API_URL : string :=
  "https://app.partnerboost.com/api/datafeed/get_fba_products".

(** [CREATE TABLE IF NOT EXISTS products (...)] *)
Definition init_db (db : database) : database :=
  match products db with
  | Some _ => db
  | None => {| products := Some [] |}
  end.

Definition upsert_product (db : database) (product : dict) : outcome database :=
  let asin := dict_get product "asin" PNone in
  if negb (truthy asin) then Ok db
  else
    let brand_id := dict_get product "brand_id" PNone in
    let brand_name :=
      py_or (dict_get product "brand_name" PNone) (dict_get product "brand" PNone) in
    let title :=
      py_or (dict_get product "title" PNone) (dict_get product "name" PNone) in
    let country_code := dict_get product "country_code" PNone in
    match products db with
    | None => Raise OperationalError
    | Some tbl =>
        c_asin <- bind_text asin ;;
        c_brand_id <- bind_text brand_id ;;
        c_brand_name <- bind_text brand_name ;;
        c_title <- bind_text title ;;
        c_country_code <- bind_text country_code ;;
        Ok {| products :=
                Some (insert_or_update
                        {| Sqlite.asin := c_asin;
                           Sqlite.brand_id := c_brand_id;
                           Sqlite.brand_name := c_brand_name;
                           Sqlite.title := c_title;
                           Sqlite.country_code := c_country_code |} tbl) |}
    end.

Definition page_request (token : string) (page page_size : Z) : request :=
  {| url := API_URL;
     params := [];
     payload := [("token", PStr token); ("page_size", PInt page_size);
                 ("page", PInt page); ("default_filter", PInt 1);
                 ("country_code", PStr ""); ("brand_id", PNone);
                 ("sort", PStr ""); ("asins", PStr "");
                 ("relationship", PInt 1); ("is_original_currency", PInt 0);
                 ("has_promo_code", PInt 0); ("has_acc", PInt 0);
                 ("filter_sexual_wellness", PInt 0)];
     as_json := true |}.

(** From the response on: the envelope check, then [return data]. *)
Definition check_envelope (resp : response) : outcome pyval :=
  data <- json_of resp ;;
  status <- py_get data "status" (PDict []) ;;
  code <- py_get status "code" PNone ;;
  if negb (negb (ne_zero code) || eq_str code "0") then
    msg <- py_get status "msg" PNone ;;
    Raise (RuntimeError ("API error: code=" +:+ py_str code +:+ ", msg=" +:+ py_str msg))
  else Ok data.

Definition fetch_fba_products_page (env : gmap string string)
    (page page_size : Z) (w : world) : outcome pyval * world :=
  match get_token env with
  | Ok token =>
      let (resp, w') := post (page_request token page page_size) w in
      (check_envelope resp, w')
  | Raise e => (Raise e, w)
  | Beyond l => (Beyond l, w)
  end.

(** [has_more is False] *)
Definition is_False (v : pyval) : bool :=
  match v with
  | PBool false => true
  | _ => false
  end.

(** The records the [for p in product_list] loop meets, for a
    [product_list] that passed [if not product_list].  [len] of a number is
    a [TypeError]; the elements of a string are strings and those of a dict
    its keys, and [upsert_product] calls [get] on the first of them. *)
Definition records_of (product_list : pyval) : outcome (list pyval) :=
  match product_list with
  | PList l => Ok l
  | PStr s => if String.eqb s "" then Ok [] else Raise AttributeError
  | PDict d => match d with [] => Ok [] | _ => Raise AttributeError end
  | PNone | PBool _ | PInt _ | PFloat _ => Raise TypeError
  end.

(** [for p in product_list: upsert_product(conn, p); total_count += 1] *)
Fixpoint upsert_all (db : database) (records : list pyval) (total_count : Z)
  : outcome (database * Z) :=
  match records with
  | [] => Ok (db, total_count)
  | PDict p :: rest =>
      db' <- upsert_product db p ;; upsert_all db' rest (total_count + 1)
  | _ :: _ => Raise AttributeError
  end.

(** How one turn of the loop of [sync_products] ends. *)
Inductive sync_ctl := Stop | Next.

(** One turn of the [while True] loop, from the returned [data] on.  The
    database is the committed one: the rows written between [BEGIN] and
    [COMMIT] reach it only when [COMMIT] is executed, so a turn that raises
    leaves it as it was. *)
Definition store_page (data : pyval) (page_size : Z) (db : database)
    (total_count : Z) : outcome (sync_ctl * database * Z) :=
  data_block <- py_get data "data" (PDict []) ;;
  by_list <- py_get data_block "list" PNone ;;
  by_rows <- py_get data_block "rows" PNone ;;
  let product_list := py_or (py_or by_list by_rows) (PList []) in
  if negb (truthy product_list) then Ok (Stop, db, total_count)
  else
    records <- records_of product_list ;;
    stored <- upsert_all db records total_count ;;
    let '(db', total_count') := stored in
    has_more <- py_get data_block "has_more" PNone ;;
    if is_False has_more || (Z.of_nat (length records) <? page_size)
    then Ok (Stop, db', total_count')
    else Ok (Next, db', total_count').

(** The loop: the number of records processed, the committed database and
    the remote side when the loop ends or an exception escapes. *)
Fixpoint sync_pages (fuel : nat) (env : gmap string string)
    (page_size page total_count : Z) (db : database) (w : world)
  : outcome Z * database * world :=
  match fuel with
  | O => (Beyond OutOfFuel, db, w)
  | S fuel' =>
      let (fetched, w') := fetch_fba_products_page env page page_size w in
      match (data <- fetched ;; store_page data page_size db total_count) with
      | Ok (Stop, db', total_count') => (Ok total_count', db', w')
      | Ok (Next, db', total_count') =>
          sync_pages fuel' env page_size (page + 1) total_count' db' w'
      | Raise e => (Raise e, db, w')
      | Beyond l => (Beyond l, db, w')
      end
  end.

(** The numbers of the two closing lines of [sync_products]. *)
Record sync_summary := {
  processed : Z;
  db_total : Z;
  distinct_brand_id : Z;
  distinct_brand_name : Z
}.

Definition sync_products (fuel : nat) (env : gmap string string)
    (page_size : Z) (db : database) (w : world)
  : outcome sync_summary * database * world :=
  let db := init_db db in
  match sync_pages fuel env page_size 1 0 db w with
  | (Ok total_count, db', w') =>
      match products db' with
      | Some tbl =>
          (Ok {| processed := total_count;
                 db_total := Z.of_nat (length tbl);
                 distinct_brand_id :=
                   Z.of_nat (count_distinct (Sqlite.brand_id <$> tbl));
                 distinct_brand_name :=
                   Z.of_nat (count_distinct (Sqlite.brand_name <$> tbl)) |},
           db', w')
      | None => (Raise OperationalError, db', w')
      end
  | (Raise e, db', w') => (Raise e, db', w')
  | (Beyond l, db', w') => (Beyond l, db', w')
  end.

End WithRuntime.
End sync_products.

(* ===================================================================== *)
(** ** daily_amazon_report.py                                             *)
(* ===================================================================== *)

Module daily_amazon_report.
Section WithRuntime.
Context {rt : Runtime} {eng : Engine}.

Definition API_URL : string :=
  "https://app.partnerboost.com/api/datafeed/get_amazon_report".

Definition get_brand_name_from_db (db : database) (asin : pyval) : outcome string :=
  match products db with
  | None => Raise OperationalError
  | Some tbl =>
      key <- bind_text asin ;;
      match select_one tbl key with
      | Some row =>
          match brand_name row with
          | Text s => if String.eqb s "" then Ok "Unknown" else Ok s
          | Null => Ok "Unknown"
          end
      | None => Ok "Unknown"
      end
  end.

Definition page_request (token start_date end_date : string) (page page_size : Z)
  : request :=
  {| url := API_URL;
     params := [];
     payload := [("token", PStr token); ("page_size", PInt page_size);
                 ("page", PInt page); ("start_date", PStr start_date);
                 ("end_date", PStr end_date); ("marketplace", PStr "");
                 ("asins", PStr ""); ("adGroupIds", PStr "")];
     as_json := true |}.

(** One turn of the [while True] loop, from the response on. *)
Definition page_step (resp : response) (all_rows : list pyval) : outcome ctl :=
  data <- json_of resp ;;
  status <- py_get data "status" (PDict []) ;;
  code <- py_get status "code" PNone ;;
  if ne_zero code then
    msg <- py_get status "msg" PNone ;;
    Raise (RuntimeError ("API error: " +:+ py_str code +:+ " " +:+ py_str msg))
  else
    data_block <- py_get data "data" (PDict []) ;;
    page_list <- py_get data_block "list" (PList []) ;;
    new_rows <- py_iter page_list ;;
    let all_rows := all_rows ++ new_rows in
    has_more <- py_get data_block "has_more" (PBool false) ;;
    if negb (truthy has_more) then Ok (Break all_rows)
    else Ok (Continue all_rows).

Fixpoint fetch_pages (fuel : nat) (token start_date end_date : string)
    (page_size page : Z) (all_rows : list pyval) (w : world)
  : outcome (list pyval) * world :=
  match fuel with
  | O => (Beyond OutOfFuel, w)
  | S fuel' =>
      let (resp, w') := post (page_request token start_date end_date page page_size) w in
      match page_step resp all_rows with
      | Ok (Break rows) => (Ok rows, w')
      | Ok (Continue rows) =>
          fetch_pages fuel' token start_date end_date page_size (page + 1) rows w'
      | Raise e => (Raise e, w')
      | Beyond l => (Beyond l, w')
      end
  end.

Definition fetch_amazon_report (fuel : nat) (env : gmap string string)
    (start_date end_date : string) (page_size : Z) (w : world)
  : outcome (list pyval) * world :=
  match get_token env with
  | Ok token => fetch_pages fuel token start_date end_date page_size 1 [] w
  | Raise e => (Raise e, w)
  | Beyond l => (Beyond l, w)
  end.

(** The brand a row is filed under. *)
Definition resolve_brand (db : database) (r : dict) : outcome string :=
  let asin := dict_get r "asin" PNone in
  if truthy asin then get_brand_name_from_db db asin else Ok "Unknown".

(** The body of the [for r in rows] loop. *)
Definition add_row (db : database) (result : gmap string stats) (r : dict)
  : outcome (gmap string stats) :=
  brand <- resolve_brand db r ;;
  let quantity := py_or (dict_get r "quantity" (PInt 0)) (PInt 0) in
  let sales_v := py_or (dict_get r "sales" (PFloat 0)) (PFloat 0) in
  let commission_v := py_or (dict_get r "estCommission" (PFloat 0)) (PFloat 0) in
  counted <- gt_zero quantity ;;
  sales_f <- py_float sales_v ;;
  commission_f <- py_float commission_v ;;
  let s := entry result brand in
  Ok (<[brand := {| orders := if counted then orders s + 1 else orders s;
                    sales := PrimFloat.add (sales s) sales_f;
                    commission := PrimFloat.add (commission s) commission_f |}]> result).

Fixpoint aggregate_from (db : database) (result : gmap string stats)
    (rows : list dict) : outcome (gmap string stats) :=
  match rows with
  | [] => Ok result
  | r :: rest => result' <- add_row db result r ;; aggregate_from db result' rest
  end.

Definition aggregate_by_brand (db : database) (rows : list dict)
  : outcome (gmap string stats) :=
  aggregate_from db ∅ rows.

End WithRuntime.

(** Dates are day numbers; [strftime d] is [d.strftime("%Y%m%d")]. *)
Class Calendar := { strftime : Z -> string }.

Section Main.
Context {rt : Runtime} {eng : Engine} {cal : Calendar} {fmt : Format}.
Context {con : Stdout}.

(** [aggregate_by_brand] on what [fetch_amazon_report] returned: a row that
    is not an object has no [get]. *)
Fixpoint aggregate_fetched (db : database) (result : gmap string stats)
    (rows : list pyval) : outcome (gmap string stats) :=
  match rows with
  | [] => Ok result
  | PDict r :: rest =>
      result' <- add_row db result r ;; aggregate_fetched db result' rest
  | _ :: _ => Raise AttributeError
  end.

(** [main_for_date(day)]: [out] is the console, one string per line.  The
    table is printed line by line. *)
Definition main_for_date (fuel : nat) (env : gmap string string) (day : Z)
    (db : database) (w : world) (out : list string)
  : outcome unit * world * list string :=
  let day_str := strftime day in
  let out := out ++ ["Fetching Amazon report for " +:+ day_str +:+ " ..."] in
  match fetch_amazon_report fuel env day_str day_str 500 w with
  | (Ok rows, w') =>
      let out := out ++ ["Total rows: " +:+ pretty (Z.of_nat (length rows))] in
      match aggregate_fetched db ∅ rows with
      | Ok agg =>
          let out := out ++ ["Brand Report for " +:+ day_str;
                             "Brand, Orders, Sales, Commission"] in
          let (printed, out) := print_rows (sorted_items agg) out in
          (printed, w', out)
      | Raise e => (Raise e, w', out)
      | Beyond l => (Beyond l, w', out)
      end
  | (Raise e, w') => (Raise e, w', out)
  | (Beyond l, w') => (Beyond l, w', out)
  end.

(** [today] is [datetime.date.today()]. *)
Definition main_for_yesterday (fuel : nat) (env : gmap string string)
    (today : Z) (db : database) (w : world) (out : list string)
  : outcome unit * world * list string :=
  main_for_date fuel env (today - 1) db w out.

End Main.
End daily_amazon_report.

(* ===================================================================== *)
(** ** fetch_brands_sample.py                                             *)
(* ===================================================================== *)

Module fetch_brands_sample.

Definition API_URL : string := "https://app.partnerboost.com/api.php".

Definition page_request (token : string) (page limit : Z) : request :=
  {| url := API_URL;
     params := [("mod", PStr "medium"); ("op", PStr "monetization_api")];
     payload := [("token", PStr token); ("type", PStr "json");
                 ("brand_type", PStr "Amazon");
                 ("page", PInt page); ("limit", PInt limit)];
     as_json := false |}.

(** No look at the envelope: whatever JSON comes back is returned. *)
Definition fetch_brands_page (env : gmap string string) (page limit : Z)
    (w : world) : outcome pyval * world :=
  match get_token env with
  | Ok token =>
      let (resp, w') := post (page_request token page limit) w in
      (json_of resp, w')
  | Raise e => (Raise e, w)
  | Beyond l => (Beyond l, w)
  end.

End fetch_brands_sample.

(* ===================================================================== *)
(** ** Well-formed responses                                              *)
(* ===================================================================== *)

(** The response envelope is [{status: {code, msg}, data: {list, has_more?,
    total_page?}}].  The functions below read a response the way the API
    documents it, and give [None] for anything else. *)
Module Envelope.

(** The [data] block of a response that carries no HTTP error, whose body
    is a JSON object, and whose status code is the integer 0. *)
Definition data_block (resp : response) : option dict :=
  match resp with
  | HttpResponse sc (Some (PDict env)) =>
      if (400 <=? sc) && (sc <? 600) then None
      else match dict_lookup env "status", dict_lookup env "data" with
           | Some (PDict st), Some (PDict blk) =>
               match dict_lookup st "code" with
               | Some (PInt 0) => Some blk
               | _ => None
               end
           | _, _ => None
           end
  | _ => None
  end.

(** A successful page of the has_more protocol: its items, and whether its
    [has_more] flag is true (an absent flag counts as false). *)
Definition has_more_page (resp : response) : option (list pyval * bool) :=
  match data_block resp with
  | Some blk =>
      match dict_lookup blk "list" with
      | Some (PList items) =>
          match dict_lookup blk "has_more" with
          | None => Some (items, false)
          | Some (PBool b) => Some (items, b)
          | Some _ => None
          end
      | _ => None
      end
  | None => None
  end.

(** A successful page of the total_page protocol: its items, and the
    [total_page] it declares, if any. *)
Definition total_page_page (resp : response) : option (list pyval * option Z) :=
  match data_block resp with
  | Some blk =>
      match dict_lookup blk "list" with
      | Some (PList items) =>
          match dict_lookup blk "total_page" with
          | None => Some (items, None)
          | Some (PInt n) => Some (items, Some n)
          | Some _ => None
          end
      | _ => None
      end
  | None => None
  end.

(** A response whose envelope carries the given status code and message,
    over any [data] payload. *)
Definition with_status (code msg data : pyval) : response :=
  HttpResponse 200
    (Some (PDict [("status", PDict [("code", code); ("msg", msg)]);
                  ("data", data)])).

End Envelope.

Import Envelope.

(* ===================================================================== *)
(** ** Definitions used to state the properties                           *)
(* ===================================================================== *)

(** The number of orders the aggregate holds for a brand (none when the
    brand has no entry). *)
Definition orders_of (result : gmap string stats) (brand : string) : Z :=
  orders (entry result brand).

(** The brand a transaction is filed under. *)
Definition merchant_brand (t : dict) : outcome string :=
  brand_key (py_or (dict_get t "merchant_name" PNone) (PStr "Unknown")).

Definition filed_under (o : outcome string) (brand : string) : bool :=
  match o with
  | Ok b => String.eqb b brand
  | _ => false
  end.

(** The row has a [quantity] and it is a positive number. *)
Definition quantity_positive (r : dict) : bool :=
  match dict_lookup r "quantity" with
  | Some (PInt z) => 0 <? z
  | Some (PFloat f) => negb (PrimFloat.eqb f 0%float) && PrimFloat.ltb 0%float f
  | Some (PBool b) => b
  | _ => false
  end.

(** The product code a record carries, as the table will key it. *)
Definition product_code {eng : Engine} (p : dict) : option string :=
  let asin := dict_get p "asin" PNone in
  if truthy asin then
    match bind_text asin with
    | Ok (Text k) => Some k
    | _ => None
    end
  else None.

(** The rows stored under a key. *)
Abbreviation has_key key := (fun r : product_row => cell_eqb (asin r) key).

(** The value can be bound to a [?] of the statement. *)
Definition bindable (v : pyval) : bool :=
  match v with
  | PList _ | PDict _ => false
  | PInt z => (- 2 ^ 63 <=? z) && (z <? 2 ^ 63)
  | _ => true
  end.

(** Every field [upsert_product] reads from the record can be bound. *)
Definition storable (p : dict) : bool :=
  forallb (fun k => bindable (dict_get p k PNone))
    ["asin"; "brand_id"; "brand_name"; "brand"; "title"; "name"; "country_code"].

(** The record with the fields of [sample_db]'s row, under other names. *)
Definition sample_product (brand ttl : string) : dict :=
  [("asin", PStr "B00TEST"); ("brand_id", PInt 17); ("brand", PStr brand);
   ("name", PStr ttl); ("country_code", PStr "US")].

(** A successful page of the product listing that has records: the
    records, and whether its [has_more] is the boolean [false]. *)
Definition listing_page (resp : response) : option (list pyval * bool) :=
  match data_block resp with
  | Some blk =>
      match dict_lookup blk "list" with
      | Some (PList (r :: rs)) =>
          Some (r :: rs, sync_products.is_False (dict_get blk "has_more" PNone))
      | _ => None
      end
  | None => None
  end.

(** The database after whole pages of records have been stored, one page
    after the other. *)
Fixpoint commit_pages {eng : Engine} (db : database) (pages : list (list pyval))
  : outcome database :=
  match pages with
  | [] => Ok db
  | records :: rest =>
      stored <- sync_products.upsert_all db records 0 ;;
      commit_pages (fst stored) rest
  end.


(** Sample data for running the definitions. *)
Definition sample_env : gmap string string := {[ TOKEN_ENV_NAME := "secret" ]}.

Definition sample_engine : Engine := {| text_of_real := fun _ => Null |}.

Definition idle : world := {| pending := []; sent := [] |}.

Definition sample_db : database :=
  {| products :=
       Some [{| asin := Text "B00TEST"; brand_id := Text "17";
                brand_name := Text "Acme"; title := Text "Anvil";
                country_code := Text "US" |}] |}.

Definition sample_rows : list dict :=
  [[("asin", PStr "B00TEST"); ("quantity", PInt 2); ("sales", PFloat 10%float)];
   [("asin", PStr "B00TEST"); ("quantity", PInt 0); ("estCommission", PStr "3")];
   [("asin", PStr "B00NONE"); ("quantity", PInt 1)]].

Definition sample_transactions : list dict :=
  [[("merchant_name", PStr "Acme"); ("sale_amount", PStr "12")];
   [("merchant_name", PStr "Acme"); ("sale_comm", PStr "N/A")];
   [("merchant_name", PStr "")]].

Definition sample_item (n : Z) : pyval :=
  PDict [("asin", PStr "B00TEST"); ("quantity", PInt n)].

(** A successful response with the given items and further [data] fields. *)
Definition sample_page (items : list pyval) (fields : dict) : response :=
  with_status (PInt 0) (PStr "success") (PDict (("list", PList items) :: fields)).

(** A listing in two pages, for a page size of 2: a full page, then a short
    one that renames the brand of the second product. *)
Definition sample_listing : list response :=
  [sample_page [PDict (sample_product "Acme" "Anvil");
                PDict [("asin", PStr "B00NEW"); ("brand", PStr "Apex")]] [];
   sample_page [PDict [("asin", PStr "B00NEW"); ("brand_name", PStr "Zenith")]] []].

(** A page whose second record cannot be stored: its [brand_id] is a list. *)
Definition sample_bad_page : response :=
  sample_page [PDict (sample_product "Acme" "Anvil");
               PDict [("asin", PStr "B00BAD"); ("brand_id", PList [])]] [].


(** A calendar for running the definitions: days are counted from
    1970-01-01 in the proleptic Gregorian calendar; [sample_strptime] reads
    the zero-padded form only. *)
Definition civil_from_days (z : Z) : Z * Z * Z :=
  let z := z + 719468 in
  let era := z / 146097 in
  let doe := z - era * 146097 in
  let yoe := (doe - doe / 1460 + doe / 36524 - doe / 146096) / 365 in
  let doy := doe - (365 * yoe + yoe / 4 - yoe / 100) in
  let mp := (5 * doy + 2) / 153 in
  let d := doy - (153 * mp + 2) / 5 + 1 in
  let m := if mp <? 10 then mp + 3 else mp - 9 in
  (yoe + era * 400 + (if m <=? 2 then 1 else 0), m, d).

Definition days_from_civil (y m d : Z) : Z :=
  let y := if m <=? 2 then y - 1 else y in
  let era := y / 400 in
  let yoe := y - era * 400 in
  let doy := (153 * (if 2 <? m then m - 3 else m + 9) + 2) / 5 + d - 1 in
  let doe := yoe * 365 + yoe / 4 - yoe / 100 + doy in
  era * 146097 + doe - 719468.

Definition zero_padded (width : nat) (z : Z) : string :=
  let s := pretty z in
  String.concat "" (replicate (width - String.length s) "0") +:+ s.

Definition sample_strftime (day : Z) : string :=
  let '(y, m, d) := civil_from_days day in
  zero_padded 4 y +:+ "-" +:+ zero_padded 2 m +:+ "-" +:+ zero_padded 2 d.

Definition sample_strptime (s : string) : option Z :=
  match digits_int (String.substring 0 4 s),
        digits_int (String.substring 5 2 s),
        digits_int (String.substring 8 2 s) with
  | Some y, Some m, Some d =>
      let day := days_from_civil y m d in
      if String.eqb (sample_strftime day) s then Some day else None
  | _, _, _ => None
  end.

Definition sample_calendar : daily_transaction_report.Calendar :=
  {| daily_transaction_report.strftime := sample_strftime;
     daily_transaction_report.strptime := sample_strptime |}.

(** A page that holds the range label and nothing else. *)
Definition sample_template : daily_transaction_report.Template :=
  {| daily_transaction_report.html_document :=
       fun label _ => "<title>" +:+ label +:+ "</title>" |}.

(** [f"{x:.2f}"] for running the definitions: the exact value of the
    float, rounded to hundredths, ties to even. *)
Definition round_half_even (n d : Z) : Z :=
  let q := n / d in
  let r := n mod d in
  if 2 * r <? d then q
  else if d <? 2 * r then q + 1
  else if Z.even q then q else q + 1.

Definition sample_fixed2 (f : float) : string :=
  match Prim2SF f with
  | S754_nan => "nan"
  | S754_infinity s => if s then "-inf" else "inf"
  | S754_zero s => if s then "-0.00" else "0.00"
  | S754_finite s m e =>
      let cents :=
        if 0 <=? e then Z.pos m * 2 ^ e * 100
        else round_half_even (Z.pos m * 100) (2 ^ (- e)) in
      (if s then "-" else "") +:+ pretty (cents / 100) +:+ "."
        +:+ zero_padded 2 (cents mod 100)
  end.

Definition sample_format : Format := {| fixed2 := sample_fixed2 |}.

(** A console that has the ASCII characters and no others. *)
Definition sample_stdout : Stdout :=
  {| encodable := fun s =>
       forallb (fun c => (Ascii.N_of_ascii c <? 128)%N)
         (String.list_ascii_of_string s) |}.

(** A disk whose one directory that can be written to is [/srv/app/docs],
    which has no directory in it. *)
Fixpoint after_prefix (pre s : string) : option string :=
  match pre, s with
  | EmptyString, _ => Some s
  | String a pre', String b s' =>
      if Ascii.eqb a b then after_prefix pre' s' else None
  | String _ _, EmptyString => None
  end.

Fixpoint has_sep (s : string) : bool :=
  match s with
  | EmptyString => false
  | String c s' => Ascii.eqb c "/"%char || has_sep s'
  end.

Definition sample_disk : Disk :=
  {| makedirs_error := fun d fs =>
       match fs !! d with
       | Some _ => Some FileExistsError
       | None => None
       end;
     open_error := fun p fs =>
       match after_prefix "/srv/app/docs/" p with
       | Some name => if has_sep name then Some FileNotFoundError else None
       | None => Some FileNotFoundError
       end;
     write_error := fun _ _ _ => None |}.

Definition sample_compact_strftime (day : Z) : string :=
  let '(y, m, d) := civil_from_days day in
  zero_padded 4 y +:+ zero_padded 2 m +:+ zero_padded 2 d.

Definition sample_compact_calendar : daily_amazon_report.Calendar :=
  {| daily_amazon_report.strftime := sample_compact_strftime |}.

(* ===================================================================== *)
(** ** Credentials                                                        *)
(* ===================================================================== *)

Lemma get_token_absent (env : gmap string string) :
  env !! TOKEN_ENV_NAME = None -> get_token env = Raise token_missing.
Proof. intros H. unfold get_token. by rewrite H. Qed.

Lemma get_token_present (env : gmap string string) (token : string) :
  env !! TOKEN_ENV_NAME = Some token -> token <> "" -> get_token env = Ok token.
Proof.
  intros H Hne. unfold get_token. rewrite H.
  destruct (String.eqb_spec token ""); [contradiction | reflexivity].
Qed.

(** C5. When the credential is absent from the environment, each of the
    three fetchers raises the configure-token error and the remote side has
    received no request: the world comes back unchanged. *)
Theorem missing_token_raises_before_any_request
    {rt : Runtime} (env : gmap string string) (w : world) (fuel : nat)
    (d1 d2 : string) (size page : Z) :
  env !! TOKEN_ENV_NAME = None ->
  daily_transaction_report.fetch_transactions fuel env d1 d2 size w
    = (Raise token_missing, w)
  /\ daily_amazon_report.fetch_amazon_report fuel env d1 d2 size w
    = (Raise token_missing, w)
  /\ sync_products.fetch_fba_products_page env page size w
    = (Raise token_missing, w).
Proof.
  intros H. apply get_token_absent in H.
  unfold daily_transaction_report.fetch_transactions,
    daily_amazon_report.fetch_amazon_report,
    sync_products.fetch_fba_products_page.
  rewrite H. auto.
Qed.

Lemma missing_token_raises_before_any_request_witness :
  daily_transaction_report.fetch_transactions (rt := digits_runtime)
      3 ∅ "2024-05-01" "2024-05-01" 1000 idle = (Raise token_missing, idle)
  /\ daily_amazon_report.fetch_amazon_report (rt := digits_runtime)
      3 ∅ "2024-05-01" "2024-05-01" 1000 idle = (Raise token_missing, idle)
  /\ sync_products.fetch_fba_products_page (rt := digits_runtime)
      ∅ 1 1000 idle = (Raise token_missing, idle).
Proof.
  apply (missing_token_raises_before_any_request (rt := digits_runtime)
           ∅ idle 3 "2024-05-01" "2024-05-01" 1000 1).
  reflexivity.
Defined.

(* ===================================================================== *)
(** ** The status code of the envelope                                    *)
(* ===================================================================== *)

(** [fetch_fba_products_page] accepts the string ["0"] as well as the
    integer [0]. *)
Lemma fba_accepts_zero_and_string_zero {rt : Runtime} (msg data : pyval) :
  sync_products.check_envelope (with_status (PInt 0) msg data)
    = Ok (PDict [("status", PDict [("code", PInt 0); ("msg", msg)]); ("data", data)])
  /\ sync_products.check_envelope (with_status (PStr "0") msg data)
    = Ok (PDict [("status", PDict [("code", PStr "0"); ("msg", msg)]); ("data", data)]).
Proof. split; reflexivity. Qed.

(** A code other than [0] aborts each fetcher with a message that holds the
    code and the message of the envelope, whatever the payload. *)
Lemma status_seven_aborts {rt : Runtime} (msg : string) (data : pyval)
    (page : Z) (acc : list pyval) :
  daily_transaction_report.page_step (with_status (PInt 7) (PStr msg) data) page acc
    = Raise (RuntimeError ("API error 7: " +:+ msg))
  /\ daily_amazon_report.page_step (with_status (PInt 7) (PStr msg) data) acc
    = Raise (RuntimeError ("API error: 7 " +:+ msg))
  /\ sync_products.check_envelope (with_status (PInt 7) (PStr msg) data)
    = Raise (RuntimeError ("API error: code=7, msg=" +:+ msg)).
Proof. repeat split; reflexivity. Qed.

(** C2. The envelope [{status: {code: "0", msg: "success"}, data: ...}]
    makes [fetch_transactions] and [fetch_amazon_report] raise an API
    error, although the status code is the string ["0"]; on the same
    envelope [fetch_fba_products_page] returns the response. *)
Theorem string_zero_status_aborts_report_fetchers {rt : Runtime} :
  let page :=
    with_status (PStr "0") (PStr "success")
      (PDict [("list", PList [PDict [("merchant_name", PStr "Acme")]]);
              ("total_page", PInt 1); ("has_more", PBool false)]) in
  let w := {| pending := [page]; sent := [] |} in
  fst (daily_transaction_report.fetch_transactions
         3 sample_env "2024-05-01" "2024-05-01" 1000 w)
    = Raise (RuntimeError "API error 0: success")
  /\ fst (daily_amazon_report.fetch_amazon_report
            3 sample_env "20240501" "20240501" 500 w)
    = Raise (RuntimeError "API error: 0 success")
  /\ exists data,
       fst (sync_products.fetch_fba_products_page sample_env 1 50 w) = Ok data.
Proof.
  cbv zeta. split; [reflexivity | split; [reflexivity |]].
  eexists. reflexivity.
Qed.

(* ===================================================================== *)
(** ** Numeric coercion in the two aggregations                           *)
(* ===================================================================== *)

Section Coercion.
Context {rt : Runtime}.

(** Transaction mode: the [try]/[except] absorbs both exceptions. *)
Lemma amount_absorbs (t : dict) (k : string) :
  daily_transaction_report.amount t k <> Raise TypeError
  /\ daily_transaction_report.amount t k <> Raise ValueError.
Proof.
  unfold daily_transaction_report.amount.
  destruct (py_float _) as [f | [] | l]; split; discriminate.
Qed.

Lemma amount_missing (t : dict) (k : string) :
  dict_lookup t k = None -> daily_transaction_report.amount t k = Ok 0%float.
Proof.
  intros H. unfold daily_transaction_report.amount, dict_get. rewrite H.
  reflexivity.
Qed.

Lemma amount_non_numeric (t : dict) (k s : string) :
  dict_lookup t k = Some (PStr s) -> float_of_str s = None ->
  daily_transaction_report.amount t k = Ok 0%float.
Proof.
  intros H Hs. unfold daily_transaction_report.amount, dict_get, py_or.
  rewrite H. simpl.
  destruct (String.eqb s ""); simpl; [reflexivity |].
  rewrite Hs. reflexivity.
Qed.

(** Datafeed mode: a missing value is replaced by [0.0] before [float]. *)
Lemma datafeed_missing_is_zero (r : dict) (k : string) :
  dict_lookup r k = None ->
  py_float (py_or (dict_get r k (PFloat 0%float)) (PFloat 0%float)) = Ok 0%float.
Proof. intros H. unfold dict_get. rewrite H. reflexivity. Qed.

(** Datafeed mode: a non-numeric string reaches [float] and raises. *)
Lemma datafeed_non_numeric_raises (r : dict) (k s : string) :
  dict_lookup r k = Some (PStr s) -> s <> "" -> float_of_str s = None ->
  py_float (py_or (dict_get r k (PFloat 0%float)) (PFloat 0%float))
    = Raise ValueError.
Proof.
  intros H Hne Hs. unfold dict_get, py_or. rewrite H. simpl.
  destruct (String.eqb_spec s ""); [contradiction |].
  simpl. rewrite Hs. reflexivity.
Qed.

End Coercion.

(** C1. In datafeed mode the row [{"asin": "B00TEST", "quantity": 1,
    "sales": "N/A", "estCommission": 0.5}] makes [aggregate_by_brand] raise
    [ValueError] instead of counting 0.0, whereas transaction mode, on a
    transaction whose [sale_amount] is ["N/A"], returns an aggregate in
    which that amount counts as 0.0. *)
Theorem datafeed_aggregation_raises_on_non_numeric_sales
    {rt : Runtime} {eng : Engine} :
  float_of_str "N/A" = None ->
  daily_amazon_report.aggregate_by_brand {| products := Some [] |}
    [[("asin", PStr "B00TEST"); ("quantity", PInt 1);
      ("sales", PStr "N/A"); ("estCommission", PFloat 0.5%float)]]
    = Raise ValueError
  /\ exists m,
       daily_transaction_report.aggregate_by_brand
         [[("merchant_name", PStr "Acme"); ("sale_amount", PStr "N/A");
           ("sale_comm", PFloat 0.5%float)]] = Ok m
       /\ sales (entry m "Acme") = 0%float
       /\ orders (entry m "Acme") = 1.
Proof.
  intros H. split.
  - revert H. destruct rt as [parse_float parse_int rp strip lower].
    intros H. vm_compute. vm_compute in H. rewrite H. reflexivity.
  - unfold daily_transaction_report.aggregate_by_brand.
    cbn [daily_transaction_report.aggregate_from].
    unfold daily_transaction_report.add_row.
    erewrite amount_non_numeric; [| reflexivity | exact H].
    cbn [bind].
    change (daily_transaction_report.amount _ "sale_comm") with (Ok 0.5%float).
    cbn [bind].
    change (brand_key _) with (@Ok string "Acme").
    cbn [bind].
    eexists. split; [reflexivity |].
    unfold entry. rewrite lookup_insert_eq. split; reflexivity.
Qed.

Lemma datafeed_aggregation_raises_on_non_numeric_sales_witness :
  daily_amazon_report.aggregate_by_brand
    (rt := digits_runtime) (eng := sample_engine) {| products := Some [] |}
    [[("asin", PStr "B00TEST"); ("quantity", PInt 1);
      ("sales", PStr "N/A"); ("estCommission", PFloat 0.5%float)]]
    = Raise ValueError.
Proof.
  apply (datafeed_aggregation_raises_on_non_numeric_sales
           (rt := digits_runtime) (eng := sample_engine)).
  reflexivity.
Defined.

(* ===================================================================== *)
(** ** Pagination                                                         *)
(* ===================================================================== *)

Lemma data_block_inv (resp : response) (blk : dict) :
  data_block resp = Some blk ->
  exists sc env st,
    resp = HttpResponse sc (Some (PDict env))
    /\ (400 <=? sc) && (sc <? 600) = false
    /\ dict_lookup env "status" = Some (PDict st)
    /\ dict_lookup env "data" = Some (PDict blk)
    /\ dict_lookup st "code" = Some (PInt 0).
Proof.
  unfold data_block. intros H.
  repeat case_match; simplify_eq.
  eexists _, _, _. repeat split; eauto.
Qed.

(** What a successful response means for the envelope checks the two
    report fetchers share: the body is read, the status passes, and the
    [data] block is the one the response carries. *)
Lemma envelope_passes (resp : response) (blk : dict) :
  data_block resp = Some blk ->
  exists env st,
    json_of resp = Ok (PDict env)
    /\ dict_get env "status" (PDict []) = PDict st
    /\ dict_get st "code" PNone = PInt 0
    /\ dict_get env "data" (PDict []) = PDict blk.
Proof.
  intros H. apply data_block_inv in H as (sc & env & st & -> & Hsc & Hst & Hd & Hc).
  exists env, st. unfold json_of, dict_get. rewrite Hsc, Hst, Hd, Hc. auto.
Qed.

Lemma transaction_page_step {rt : Runtime} (resp : response)
    (items : list pyval) (declared : option Z) (page : Z) (acc : list pyval) :
  total_page_page resp = Some (items, declared) ->
  daily_transaction_report.page_step resp page acc =
    match items with
    | [] => Ok (Break acc)
    | _ => if default 1 declared <=? page then Ok (Break (acc ++ items))
           else Ok (Continue (acc ++ items))
    end.
Proof.
  unfold total_page_page. intros H.
  destruct (data_block resp) as [blk |] eqn:Hb; [| discriminate].
  apply envelope_passes in Hb as (env & st & Hj & Hst & Hc & Hd).
  unfold daily_transaction_report.page_step.
  rewrite Hj. cbn [bind py_get]. rewrite Hst. cbn [bind py_get]. rewrite Hc.
  cbn [bind ne_zero Z.eqb negb]. rewrite Hd. cbn [bind py_get].
  unfold dict_get.
  destruct (dict_lookup blk "list") as [[] |]; try discriminate.
  destruct (dict_lookup blk "total_page") as [[] |]; try discriminate;
    simplify_eq; destruct items; reflexivity.
Qed.

Lemma amazon_page_step {rt : Runtime} (resp : response)
    (items : list pyval) (more : bool) (acc : list pyval) :
  has_more_page resp = Some (items, more) ->
  daily_amazon_report.page_step resp acc =
    Ok (if more then Continue (acc ++ items) else Break (acc ++ items)).
Proof.
  unfold has_more_page. intros H.
  destruct (data_block resp) as [blk |] eqn:Hb; [| discriminate].
  apply envelope_passes in Hb as (env & st & Hj & Hst & Hc & Hd).
  unfold daily_amazon_report.page_step.
  rewrite Hj. cbn [bind py_get]. rewrite Hst. cbn [bind py_get]. rewrite Hc.
  cbn [bind ne_zero Z.eqb negb]. rewrite Hd. cbn [bind py_get].
  unfold dict_get.
  destruct (dict_lookup blk "list") as [[] |]; try discriminate.
  destruct (dict_lookup blk "has_more") as [[] |]; try discriminate;
    simplify_eq; [destruct more |]; reflexivity.
Qed.

Section TotalPage.
Context {rt : Runtime}.
Variables (env : gmap string string) (token begin_date end_date : string).
Variable limit : Z.
Hypothesis Henv : env !! TOKEN_ENV_NAME = Some token.
Hypothesis Htoken : token <> "".

Let request_for (page : Z) : request :=
  daily_transaction_report.page_request token begin_date end_date page limit.

(** C10. A successful, non-empty page that carries no [total_page] ends
    the loop at any page number from 1 on, the count defaulting to 1; so
    when the first page is such a page, [fetch_transactions] sends exactly
    one request and returns the items of that page. *)
Theorem missing_total_page_defaults_to_one
    (w : world) (r : response) (rest : list response) (items : list pyval)
    (fuel : nat) :
  pending w = r :: rest ->
  total_page_page r = Some (items, None) ->
  items <> [] ->
  (0 < fuel)%nat ->
  (forall page acc, 1 <= page ->
     daily_transaction_report.page_step r page acc = Ok (Break (acc ++ items)))
  /\ daily_transaction_report.fetch_transactions fuel env begin_date end_date limit w
     = (Ok items, {| pending := rest; sent := sent w ++ [request_for 1] |}).
Proof.
  intros Hw Hr Hne Hfuel.
  assert (Hstep : forall page acc, 1 <= page ->
            daily_transaction_report.page_step r page acc
              = Ok (Break (acc ++ items))).
  { intros page acc Hp. rewrite (transaction_page_step _ _ _ _ _ Hr).
    destruct items; [contradiction |]. simpl.
    destruct (Z.leb_spec 1 page); [reflexivity | lia]. }
  split; [exact Hstep |].
  unfold daily_transaction_report.fetch_transactions.
  rewrite (get_token_present _ _ Henv Htoken).
  destruct fuel as [| fuel']; [lia |].
  cbn [daily_transaction_report.fetch_pages]. unfold post. rewrite Hw.
  rewrite Hstep by lia. reflexivity.
Qed.

(** C4. When the first two responses are successful pages declaring
    [total_page = 2]: an empty first page ends the fetch after one request;
    otherwise the fetch ends after the request for page 2, whether or not
    page 2 is empty, and later responses are never asked for. *)
Theorem total_page_two_stops_after_page_two
    (w : world) (r1 r2 : response) (rest : list response)
    (items1 items2 : list pyval) (fuel : nat) :
  pending w = r1 :: r2 :: rest ->
  total_page_page r1 = Some (items1, Some 2) ->
  total_page_page r2 = Some (items2, Some 2) ->
  (2 <= fuel)%nat ->
  daily_transaction_report.fetch_transactions fuel env begin_date end_date limit w
  = match items1 with
    | [] => (Ok [], {| pending := r2 :: rest;
                       sent := sent w ++ [request_for 1] |})
    | _ => (Ok (items1 ++ items2),
            {| pending := rest;
               sent := sent w ++ [request_for 1; request_for 2] |})
    end.
Proof.
  intros Hw H1 H2 Hfuel.
  unfold daily_transaction_report.fetch_transactions.
  rewrite (get_token_present _ _ Henv Htoken).
  destruct fuel as [| [| fuel']]; [lia | lia |].
  cbn [daily_transaction_report.fetch_pages]. unfold post. rewrite Hw.
  rewrite (transaction_page_step _ _ _ _ _ H1).
  destruct items1 as [| i1 items1']; [reflexivity |].
  change (default 1 (Some 2) <=? 1) with false. cbv iota.
  cbn [daily_transaction_report.fetch_pages]. unfold post.
  cbn [pending sent]. change (1 + 1) with 2.
  rewrite (transaction_page_step _ _ _ _ _ H2).
  change (default 1 (Some 2) <=? 2) with true. cbv iota.
  rewrite <- (app_assoc (sent w)). cbn [app].
  destruct items2 as [| i2 items2']; [rewrite app_nil_r |]; reflexivity.
Qed.

End TotalPage.

Lemma missing_total_page_defaults_to_one_witness :
  daily_transaction_report.fetch_transactions (rt := digits_runtime)
    1 sample_env "2024-05-01" "2024-05-01" 1000
    {| pending := [sample_page [sample_item 1; sample_item 2] [];
                   sample_page [sample_item 3] []];
       sent := [] |}
  = (Ok [sample_item 1; sample_item 2],
     {| pending := [sample_page [sample_item 3] []];
        sent := [daily_transaction_report.page_request
                   "secret" "2024-05-01" "2024-05-01" 1 1000] |}).
Proof.
  apply (missing_total_page_defaults_to_one (rt := digits_runtime)
           sample_env "secret" "2024-05-01" "2024-05-01" 1000
           eq_refl ltac:(discriminate)
           {| pending := [sample_page [sample_item 1; sample_item 2] [];
                          sample_page [sample_item 3] []];
              sent := [] |}
           (sample_page [sample_item 1; sample_item 2] [])
           [sample_page [sample_item 3] []]
           [sample_item 1; sample_item 2] 1).
  - reflexivity.
  - reflexivity.
  - discriminate.
  - lia.
Defined.

Lemma total_page_two_stops_after_page_two_witness :
  daily_transaction_report.fetch_transactions (rt := digits_runtime)
    5 sample_env "2024-05-01" "2024-05-07" 1000
    {| pending := [sample_page [sample_item 1; sample_item 2] [("total_page", PInt 2)];
                   sample_page [sample_item 3] [("total_page", PInt 2)];
                   sample_page [sample_item 4] [("total_page", PInt 2)]];
       sent := [] |}
  = (Ok [sample_item 1; sample_item 2; sample_item 3],
     {| pending := [sample_page [sample_item 4] [("total_page", PInt 2)]];
        sent := [daily_transaction_report.page_request
                   "secret" "2024-05-01" "2024-05-07" 1 1000;
                 daily_transaction_report.page_request
                   "secret" "2024-05-01" "2024-05-07" 2 1000] |}).
Proof.
  apply (total_page_two_stops_after_page_two (rt := digits_runtime)
           sample_env "secret" "2024-05-01" "2024-05-07" 1000
           eq_refl ltac:(discriminate)
           {| pending := [sample_page [sample_item 1; sample_item 2] [("total_page", PInt 2)];
                          sample_page [sample_item 3] [("total_page", PInt 2)];
                          sample_page [sample_item 4] [("total_page", PInt 2)]];
              sent := [] |}
           (sample_page [sample_item 1; sample_item 2] [("total_page", PInt 2)])
           (sample_page [sample_item 3] [("total_page", PInt 2)])
           [sample_page [sample_item 4] [("total_page", PInt 2)]]
           [sample_item 1; sample_item 2] [sample_item 3] 5).
  - reflexivity.
  - reflexivity.
  - reflexivity.
  - lia.
Defined.

Section HasMore.
Context {rt : Runtime}.
Variables (token start_date end_date : string) (page_size : Z).

Let request_for (page : Z) : request :=
  daily_amazon_report.page_request token start_date end_date page page_size.

(** The loop of [fetch_amazon_report], started at any page with any rows
    already gathered: [ps] lists, for the responses it will consume, the
    items and the [has_more] flag of each. *)
Lemma amazon_fetch_pages_run (ps : list (list pyval * bool)) :
  forall (fuel : nat) (page : Z) (acc : list pyval) (w : world),
    has_more_page <$> take (length ps) (pending w) = Some <$> ps ->
    ps.*2 = replicate (Nat.pred (length ps)) true ++ [false] ->
    (length ps <= fuel)%nat ->
    daily_amazon_report.fetch_pages
      fuel token start_date end_date page_size page acc w
    = (Ok (acc ++ concat ps.*1),
       {| pending := drop (length ps) (pending w);
          sent := sent w ++ (request_for <$> seqZ page (Z.of_nat (length ps))) |}).
Proof.
  induction ps as [| [items more] ps IH]; intros fuel page acc w Hresp Hflags Hfuel.
  - discriminate Hflags.
  - destruct fuel as [| fuel']; [simpl in Hfuel; lia |].
    destruct (pending w) as [| r rest] eqn:Hw; [discriminate Hresp |].
    cbn [length take fmap list_fmap] in Hresp.
    injection Hresp as Hr Hrest.
    cbn [daily_amazon_report.fetch_pages]. unfold post. rewrite Hw.
    rewrite (amazon_page_step _ _ _ _ Hr).
    rewrite seqZ_cons by (cbn [length]; lia).
    replace (Z.pred (Z.of_nat (length ((items, more) :: ps))))
      with (Z.of_nat (length ps)) by (cbn [length]; lia).
    cbn [length Nat.pred fmap list_fmap fst snd concat drop] in *.
    destruct ps as [| p ps'].
    + injection Hflags as ->. cbn [length concat fmap list_fmap drop].
      rewrite app_nil_r. reflexivity.
    + cbn [length replicate app] in Hflags. injection Hflags as -> Hflags'.
      etransitivity.
      { apply (IH fuel' (page + 1) (acc ++ items)
                 {| pending := rest; sent := sent w ++ [request_for page] |}).
        - exact Hrest.
        - exact Hflags'.
        - cbn [length] in *. lia. }
      cbn [pending sent]. rewrite <- !app_assoc, Z.add_1_r. reflexivity.
Qed.

(** C3. Let the first [length ps] responses be successful pages whose
    items and [has_more] flags are [ps], the flag being true on every page
    but the last, where it is false or absent.  Then [fetch_amazon_report]
    returns the items of these pages, concatenated in page order, after
    exactly one request per page, for the pages 1, 2, ... in turn. *)
Theorem has_more_fetch_concatenates_pages
    (env : gmap string string) (w : world)
    (ps : list (list pyval * bool)) (fuel : nat) :
  env !! TOKEN_ENV_NAME = Some token ->
  token <> "" ->
  has_more_page <$> take (length ps) (pending w) = Some <$> ps ->
  ps.*2 = replicate (Nat.pred (length ps)) true ++ [false] ->
  (length ps <= fuel)%nat ->
  daily_amazon_report.fetch_amazon_report
    fuel env start_date end_date page_size w
  = (Ok (concat ps.*1),
     {| pending := drop (length ps) (pending w);
        sent := sent w ++ (request_for <$> seqZ 1 (Z.of_nat (length ps))) |}).
Proof.
  intros Henv Htoken Hresp Hflags Hfuel.
  unfold daily_amazon_report.fetch_amazon_report.
  rewrite (get_token_present _ _ Henv Htoken).
  apply (amazon_fetch_pages_run ps fuel 1 [] w Hresp Hflags Hfuel).
Qed.

End HasMore.

Lemma has_more_fetch_concatenates_pages_witness :
  exists rows w',
    daily_amazon_report.fetch_amazon_report (rt := digits_runtime)
      3 sample_env "20240501" "20240501" 500
      {| pending :=
           [sample_page [sample_item 1; sample_item 2; sample_item 3]
              [("has_more", PBool true)];
            sample_page [sample_item 4; sample_item 5]
              [("has_more", PBool true)];
            sample_page [sample_item 6] [("has_more", PBool false)]];
         sent := [] |}
    = (Ok rows, w')
    /\ rows = [sample_item 1; sample_item 2; sample_item 3;
               sample_item 4; sample_item 5; sample_item 6]
    /\ length rows = 6%nat
    /\ length (sent w') = 3%nat.
Proof.
  eexists _, _. split.
  - apply (has_more_fetch_concatenates_pages (rt := digits_runtime)
             "secret" "20240501" "20240501" 500 sample_env _
             [([sample_item 1; sample_item 2; sample_item 3], true);
              ([sample_item 4; sample_item 5], true);
              ([sample_item 6], false)] 3).
    + reflexivity.
    + discriminate.
    + reflexivity.
    + reflexivity.
    + simpl. lia.
  - repeat split; reflexivity.
Defined.

(* ===================================================================== *)
(** ** Order counts                                                       *)
(* ===================================================================== *)

Lemma orders_of_insert (result : gmap string stats) (brand b : string) (s : stats) :
  orders_of (<[brand := s]> result) b
  = if String.eqb brand b then orders s else orders_of result b.
Proof.
  unfold orders_of, entry. rewrite lookup_insert.
  destruct (String.eqb_spec brand b) as [-> | Hne].
  - rewrite decide_True by reflexivity. reflexivity.
  - rewrite decide_False by exact Hne. reflexivity.
Qed.

(** [quantity > 0], when it can be evaluated at all, says that the row has
    a positive quantity. *)
Lemma gt_zero_quantity (r : dict) (counted : bool) :
  gt_zero (py_or (dict_get r "quantity" (PInt 0)) (PInt 0)) = Ok counted ->
  counted = quantity_positive r.
Proof.
  unfold quantity_positive, dict_get, py_or.
  destruct (dict_lookup r "quantity") as [[| b | z | f | s | l | d] |]; simpl.
  - intros [= <-]. reflexivity.
  - destruct b; intros [= <-]; reflexivity.
  - destruct (Z.eqb_spec z 0) as [-> | Hz]; simpl; intros [= <-]; reflexivity.
  - destruct (PrimFloat.eqb f 0); simpl; intros [= <-]; reflexivity.
  - destruct (String.eqb s ""); simpl; [intros [= <-]; reflexivity | discriminate].
  - destruct l; simpl; [intros [= <-]; reflexivity | discriminate].
  - destruct d; simpl; [intros [= <-]; reflexivity | discriminate].
  - intros [= <-]. reflexivity.
Qed.

Section Orders.
Context {rt : Runtime} {eng : Engine}.

(** One transaction adds one order to its brand and none to any other. *)
Lemma transaction_row_orders (result result' : gmap string stats) (t : dict) :
  daily_transaction_report.add_row result t = Ok result' ->
  forall b, orders_of result' b
            = orders_of result b + (if filed_under (merchant_brand t) b then 1 else 0).
Proof.
  unfold daily_transaction_report.add_row, merchant_brand.
  destruct (daily_transaction_report.amount t "sale_amount"); [| discriminate ..].
  destruct (daily_transaction_report.amount t "sale_comm"); [| discriminate ..].
  destruct (brand_key _) as [brand | |]; [| discriminate ..].
  cbn [bind filed_under]. intros [= <-] b.
  rewrite orders_of_insert. cbn [orders].
  destruct (String.eqb_spec brand b) as [-> | Hne]; [reflexivity | lia].
Qed.

(** One datafeed row adds one order to its brand when its quantity is
    positive, and no order otherwise. *)
Lemma datafeed_row_orders (db : database) (result result' : gmap string stats)
    (r : dict) :
  daily_amazon_report.add_row db result r = Ok result' ->
  forall b, orders_of result' b
            = orders_of result b
              + (if filed_under (daily_amazon_report.resolve_brand db r) b
                    && quantity_positive r then 1 else 0).
Proof.
  unfold daily_amazon_report.add_row.
  destruct (daily_amazon_report.resolve_brand db r) as [brand | |];
    [| discriminate ..].
  cbn [bind filed_under].
  destruct (gt_zero _) as [counted | |] eqn:Hq; [| discriminate ..].
  apply gt_zero_quantity in Hq as ->.
  destruct (py_float _); [| discriminate ..].
  destruct (py_float _); [| discriminate ..].
  cbn [bind]. intros [= <-] b.
  rewrite orders_of_insert. cbn [orders]. fold (orders_of result brand).
  destruct (String.eqb_spec brand b) as [-> | Hne]; cbn [andb];
    [destruct (quantity_positive r) |]; lia.
Qed.

Lemma transaction_orders_from (txs : list dict) :
  forall result m,
    daily_transaction_report.aggregate_from result txs = Ok m ->
    forall b, orders_of m b
              = orders_of result b
                + Z.of_nat (length (List.filter
                                      (fun t => filed_under (merchant_brand t) b) txs)).
Proof.
  induction txs as [| t txs IH]; intros result m H b.
  - injection H as <-. cbn [List.filter length]. lia.
  - cbn [daily_transaction_report.aggregate_from] in H.
    destruct (daily_transaction_report.add_row result t) as [result' | |] eqn:Hrow;
      [| discriminate ..].
    cbn [bind] in H. rewrite (IH _ _ H b), (transaction_row_orders _ _ _ Hrow b).
    cbn [List.filter]. destruct (filed_under (merchant_brand t) b);
      cbn [length]; lia.
Qed.

Lemma datafeed_orders_from (db : database) (rows : list dict) :
  forall result m,
    daily_amazon_report.aggregate_from db result rows = Ok m ->
    forall b, orders_of m b
              = orders_of result b
                + Z.of_nat (length (List.filter
                     (fun r => filed_under (daily_amazon_report.resolve_brand db r) b
                               && quantity_positive r) rows)).
Proof.
  induction rows as [| r rows IH]; intros result m H b.
  - injection H as <-. cbn [List.filter length]. lia.
  - cbn [daily_amazon_report.aggregate_from] in H.
    destruct (daily_amazon_report.add_row db result r) as [result' | |] eqn:Hrow;
      [| discriminate ..].
    cbn [bind] in H. rewrite (IH _ _ H b), (datafeed_row_orders _ _ _ _ Hrow b).
    cbn [List.filter].
    destruct (filed_under (daily_amazon_report.resolve_brand db r) b
              && quantity_positive r); cbn [length]; lia.
Qed.


End Orders.


(* ===================================================================== *)
(** ** The Lookup Store                                                   *)
(* ===================================================================== *)

Lemma cell_eqb_sym (a b : cell) : cell_eqb a b = cell_eqb b a.
Proof. destruct a, b; simpl; auto using String.eqb_sym. Qed.

Lemma cell_eqb_text (a : cell) (k : string) :
  cell_eqb a (Text k) = true <-> a = Text k.
Proof.
  destruct a as [| s]; simpl; [split; discriminate |].
  rewrite String.eqb_eq. split; [intros -> | intros [= ->]]; reflexivity.
Qed.

Lemma count_rows_absent (tbl : list product_row) (key : cell) :
  existsb (has_key key) tbl = false -> count_rows tbl key = 0%nat.
Proof.
  unfold count_rows. induction tbl as [| r tbl IH]; [reflexivity |].
  cbn [existsb List.filter]. intros H. apply orb_false_iff in H as [Hr Ht].
  rewrite Hr. auto.
Qed.

Lemma existsb_insert_or_update (new : product_row) (key : cell)
    (tbl : list product_row) :
  existsb (has_key key) (insert_or_update new tbl) = true ->
  existsb (has_key key) tbl = true \/ cell_eqb (asin new) key = true.
Proof.
  induction tbl as [| r tbl IH]; cbn [insert_or_update existsb].
  - rewrite orb_false_r. auto.
  - destruct (cell_eqb (asin r) (asin new)); cbn [existsb asin]; [auto |].
    intros H. apply orb_true_iff in H as [H | H].
    + left. rewrite H. reflexivity.
    + destruct (IH H) as [H1 | H1]; [left; rewrite H1; apply orb_true_r | auto].
Qed.

(** The primary key survives an upsert. *)
Lemma primary_key_insert_or_update (new : product_row) (tbl : list product_row) :
  primary_key_ok tbl = true -> primary_key_ok (insert_or_update new tbl) = true.
Proof.
  induction tbl as [| r tbl IH]; cbn [insert_or_update primary_key_ok].
  - reflexivity.
  - intros H. apply andb_true_iff in H as [Hr Ht].
    destruct (cell_eqb (asin r) (asin new)) eqn:E; cbn [primary_key_ok asin].
    + rewrite Hr, Ht. reflexivity.
    + rewrite (IH Ht), andb_true_r. apply negb_true_iff.
      destruct (existsb _ (insert_or_update new tbl)) eqn:Hex; [| reflexivity].
      apply existsb_insert_or_update in Hex as [Hex | Hex].
      * rewrite Hex in Hr. discriminate Hr.
      * rewrite cell_eqb_sym, E in Hex. discriminate Hex.
Qed.

(** After an upsert the table holds exactly one row under the new key. *)
Lemma count_insert_or_update (new : product_row) (k : string)
    (tbl : list product_row) :
  primary_key_ok tbl = true -> asin new = Text k ->
  count_rows (insert_or_update new tbl) (Text k) = 1%nat.
Proof.
  intros Hpk Hk. induction tbl as [| r tbl IH];
    cbn [insert_or_update primary_key_ok] in *.
  - unfold count_rows. cbn [List.filter]. rewrite Hk. simpl.
    rewrite String.eqb_refl. reflexivity.
  - apply andb_true_iff in Hpk as [Hr Ht]. apply negb_true_iff in Hr.
    rewrite Hk in *. destruct (cell_eqb (asin r) (Text k)) eqn:E.
    + apply cell_eqb_text in E. rewrite E in Hr.
      unfold count_rows. cbn [List.filter asin]. rewrite E. simpl.
      rewrite String.eqb_refl. cbn [length]. f_equal.
      apply (count_rows_absent tbl (Text k) Hr).
    + unfold count_rows in *. cbn [List.filter]. rewrite E. auto.
Qed.

(** ... and that row carries the columns of the new record. *)
Lemma select_insert_or_update (new : product_row) (k : string)
    (tbl : list product_row) :
  asin new = Text k ->
  exists row,
    select_one (insert_or_update new tbl) (Text k) = Some row
    /\ brand_id row = brand_id new /\ brand_name row = brand_name new
    /\ title row = title new /\ country_code row = country_code new.
Proof.
  intros Hk. unfold select_one.
  induction tbl as [| r tbl IH]; cbn [insert_or_update].
  - exists new. cbn [List.find]. rewrite Hk. simpl. rewrite String.eqb_refl. auto.
  - rewrite Hk. destruct (cell_eqb (asin r) (Text k)) eqn:E;
      cbn [List.find asin]; rewrite E; [| exact IH].
    eexists. split; [reflexivity |]. cbn. auto.
Qed.

Lemma bind_text_bindable {eng : Engine} (v : pyval) :
  bindable v = true -> exists c, bind_text v = Ok c.
Proof.
  destruct v; simpl; try discriminate; eauto.
  intros ->. eauto.
Qed.

Lemma bindable_py_or (a b : pyval) :
  bindable a = true -> bindable b = true -> bindable (py_or a b) = true.
Proof. unfold py_or. destruct (truthy a); auto. Qed.

(** What a successful [upsert_product] of a record with a product code has
    done to the table. *)
Lemma upsert_product_stores {eng : Engine} (db : database)
    (tbl : list product_row) (p : dict) (k : string) :
  products db = Some tbl -> product_code p = Some k -> storable p = true ->
  exists new,
    sync_products.upsert_product db p
      = Ok {| products := Some (insert_or_update new tbl) |}
    /\ asin new = Text k
    /\ bind_text (dict_get p "brand_id" PNone) = Ok (brand_id new)
    /\ bind_text (py_or (dict_get p "brand_name" PNone) (dict_get p "brand" PNone))
       = Ok (brand_name new)
    /\ bind_text (py_or (dict_get p "title" PNone) (dict_get p "name" PNone))
       = Ok (title new)
    /\ bind_text (dict_get p "country_code" PNone) = Ok (country_code new).
Proof.
  intros Hdb Hk Hs. unfold product_code in Hk. unfold sync_products.upsert_product.
  destruct (truthy (dict_get p "asin" PNone)); [| discriminate Hk].
  cbn [negb]. rewrite Hdb.
  destruct (bind_text (dict_get p "asin" PNone)) as [[| k'] | |];
    try discriminate Hk. injection Hk as ->.
  unfold storable in Hs. cbn [forallb] in Hs.
  repeat (apply andb_true_iff in Hs as [?B Hs]).
  destruct (bind_text_bindable _ B0) as [c1 E1].
  destruct (bind_text_bindable _ (bindable_py_or _ _ B1 B2)) as [c2 E2].
  destruct (bind_text_bindable _ (bindable_py_or _ _ B3 B4)) as [c3 E3].
  destruct (bind_text_bindable _ B5) as [c4 E4].
  rewrite E1, E2, E3, E4. cbn [bind].
  eexists. split; [reflexivity |]. cbn. auto.
Qed.

(** C7: on a table that exists and respects its primary key, upserting
    a record with product code [k] and then a second record with the same
    code succeeds both times and leaves exactly one row under [k]; its
    brand identifier, brand name, title and country code are the values
    bound from the second record (the brand name being [brand_name] or else
    [brand], the title [title] or else [name]). *)
Theorem upsert_twice_keeps_second_record {eng : Engine} (db : database)
    (tbl : list product_row) (p1 p2 : dict) (k : string) :
  products db = Some tbl -> primary_key_ok tbl = true ->
  product_code p1 = Some k -> product_code p2 = Some k ->
  storable p1 = true -> storable p2 = true ->
  exists db1 db2 tbl2 row,
    sync_products.upsert_product db p1 = Ok db1
    /\ sync_products.upsert_product db1 p2 = Ok db2
    /\ products db2 = Some tbl2
    /\ primary_key_ok tbl2 = true
    /\ count_rows tbl2 (Text k) = 1%nat
    /\ select_one tbl2 (Text k) = Some row
    /\ Ok (brand_id row) = bind_text (dict_get p2 "brand_id" PNone)
    /\ Ok (brand_name row)
       = bind_text (py_or (dict_get p2 "brand_name" PNone) (dict_get p2 "brand" PNone))
    /\ Ok (title row)
       = bind_text (py_or (dict_get p2 "title" PNone) (dict_get p2 "name" PNone))
    /\ Ok (country_code row) = bind_text (dict_get p2 "country_code" PNone).
Proof.
  intros Hdb Hpk Hk1 Hk2 Hs1 Hs2.
  destruct (upsert_product_stores db tbl p1 k Hdb Hk1 Hs1) as (n1 & E1 & K1 & _).
  destruct (upsert_product_stores {| products := Some (insert_or_update n1 tbl) |}
              (insert_or_update n1 tbl) p2 k eq_refl Hk2 Hs2)
    as (n2 & E2 & K2 & F1 & F2 & F3 & F4).
  pose proof (primary_key_insert_or_update n1 tbl Hpk) as Hpk1.
  destruct (select_insert_or_update n2 k (insert_or_update n1 tbl) K2)
    as (row & Hsel & R1 & R2 & R3 & R4).
  exists {| products := Some (insert_or_update n1 tbl) |},
         {| products := Some (insert_or_update n2 (insert_or_update n1 tbl)) |},
         (insert_or_update n2 (insert_or_update n1 tbl)), row.
  rewrite R1, R2, R3, R4, F1, F2, F3, F4.
  repeat split; auto using primary_key_insert_or_update, count_insert_or_update.
Qed.

Lemma upsert_twice_keeps_second_record_witness :
  exists db2 row,
    (db1 <- sync_products.upsert_product (eng := sample_engine) sample_db
              (sample_product "Acme" "Anvil") ;;
     sync_products.upsert_product (eng := sample_engine) db1
       (sample_product "Apex" "Hammer")) = Ok db2
    /\ option_map length (products db2) = Some 1%nat
    /\ select_one (default [] (products db2)) (Text "B00TEST") = Some row
    /\ brand_id row = Text "17" /\ brand_name row = Text "Apex"
    /\ title row = Text "Hammer" /\ country_code row = Text "US".
Proof.
  destruct (upsert_twice_keeps_second_record (eng := sample_engine) sample_db
              (default [] (products sample_db))
              (sample_product "Acme" "Anvil") (sample_product "Apex" "Hammer")
              "B00TEST" eq_refl eq_refl eq_refl eq_refl eq_refl eq_refl)
    as (db1 & db2 & tbl2 & row & E1 & E2 & Ht & _ & _ & Hsel & F1 & F2 & F3 & F4).
  exists db2, row. rewrite E1. cbn [bind]. rewrite E2.
  vm_compute in E1. injection E1 as <-.
  vm_compute in E2. injection E2 as <-.
  vm_compute in Ht. injection Ht as <-.
  vm_compute in Hsel. injection Hsel as <-.
  repeat split; reflexivity.
Defined.

Lemma datafeed_aggregate_keys {rt : Runtime} {eng : Engine} (db : database)
    (result result' : gmap string stats) (r : dict) (brand : string) :
  daily_amazon_report.resolve_brand db r = Ok brand ->
  daily_amazon_report.add_row db result r = Ok result' ->
  dom result' = {[ brand ]} ∪ dom result.
Proof.
  unfold daily_amazon_report.add_row. intros ->. cbn [bind].
  destruct (gt_zero _); [| discriminate ..]. cbn [bind].
  destruct (py_float _); [| discriminate ..]. cbn [bind].
  destruct (py_float _); [| discriminate ..]. cbn [bind].
  intros [= <-]. apply dom_insert_L.
Qed.

(** C8: on an existing table, looking up a product code [k] returns
    the stored brand name when the row of [k] has a non-empty one, and
    ["Unknown"] when that row's brand name is [NULL] or empty or when [k]
    has no row; in that last case a report row carrying [k] is filed under
    ["Unknown"], and aggregating it alone yields exactly the ["Unknown"]
    entry. *)
Theorem brand_lookup_returns_name_or_unknown {rt : Runtime} {eng : Engine}
    (db : database) (tbl : list product_row) (k : string) :
  products db = Some tbl ->
  (forall row s,
     select_one tbl (Text k) = Some row -> brand_name row = Text s -> s <> "" ->
     daily_amazon_report.get_brand_name_from_db db (PStr k) = Ok s)
  /\ (forall row,
        select_one tbl (Text k) = Some row ->
        brand_name row = Null \/ brand_name row = Text "" ->
        daily_amazon_report.get_brand_name_from_db db (PStr k) = Ok "Unknown")
  /\ (select_one tbl (Text k) = None ->
      daily_amazon_report.get_brand_name_from_db db (PStr k) = Ok "Unknown"
      /\ forall r,
           dict_lookup r "asin" = Some (PStr k) ->
           daily_amazon_report.resolve_brand db r = Ok "Unknown"
           /\ forall result,
                daily_amazon_report.aggregate_by_brand db [r] = Ok result ->
                dom result = {[ "Unknown" ]}).
Proof.
  intros Hdb. unfold daily_amazon_report.get_brand_name_from_db.
  rewrite Hdb. cbn [bind_text bind].
  split; [| split].
  - intros row s -> -> Hs. apply String.eqb_neq in Hs. rewrite Hs. reflexivity.
  - intros row -> [-> | ->]; reflexivity.
  - intros Hnone. rewrite Hnone. split; [reflexivity |].
    intros r Hr.
    assert (Hb : daily_amazon_report.resolve_brand db r = Ok "Unknown").
    { unfold daily_amazon_report.resolve_brand, dict_get. rewrite Hr.
      unfold daily_amazon_report.get_brand_name_from_db.
      rewrite Hdb. simpl. rewrite Hnone.
      destruct (k =? "")%string; reflexivity. }
    split; [exact Hb |].
    intros result. unfold daily_amazon_report.aggregate_by_brand.
    cbn [daily_amazon_report.aggregate_from].
    destruct (daily_amazon_report.add_row db ∅ r) as [m | |] eqn:E;
      cbn [bind]; [| discriminate ..].
    intros [= <-].
    rewrite (datafeed_aggregate_keys db ∅ m r "Unknown" Hb E).
    set_solver.
Qed.

Lemma brand_lookup_returns_name_or_unknown_witness :
  daily_amazon_report.get_brand_name_from_db (eng := sample_engine)
    sample_db (PStr "B00TEST") = Ok "Acme"
  /\ daily_amazon_report.get_brand_name_from_db (eng := sample_engine)
       sample_db (PStr "B00NONE") = Ok "Unknown"
  /\ dom (default ∅
            (match daily_amazon_report.aggregate_by_brand
                     (rt := digits_runtime) (eng := sample_engine) sample_db
                     [[("asin", PStr "B00NONE"); ("quantity", PInt 1)]] with
             | Ok result => Some result
             | _ => None
             end)) = ({[ "Unknown" ]} : gset string).
Proof.
  pose proof (brand_lookup_returns_name_or_unknown
                (rt := digits_runtime) (eng := sample_engine)
                sample_db (default [] (products sample_db)) "B00TEST" eq_refl)
    as (Hname & _ & _).
  pose proof (brand_lookup_returns_name_or_unknown
                (rt := digits_runtime) (eng := sample_engine)
                sample_db (default [] (products sample_db)) "B00NONE" eq_refl)
    as (_ & _ & Hnone).
  destruct (Hnone eq_refl) as [Hunknown Hrows].
  split; [| split].
  - eapply Hname; [reflexivity | reflexivity | discriminate].
  - exact Hunknown.
  - destruct (Hrows [("asin", PStr "B00NONE"); ("quantity", PInt 1)] eq_refl)
      as [_ Hagg].
    destruct (daily_amazon_report.aggregate_by_brand _ _) as [result | |] eqn:E;
      [| vm_compute in E; discriminate E ..].
    exact (Hagg result eq_refl).
Defined.

(* ===================================================================== *)
(** ** The report file                                                    *)
(* ===================================================================== *)








(* ===================================================================== *)
(** ** Transport failures and the envelope, across the fetchers           *)
(* ===================================================================== *)

Lemma post_next (rq : request) (w : world) :
  post rq w
  = (hd NoResponse (pending w),
     {| pending := tl (pending w); sent := sent w ++ [rq] |}).
Proof. unfold post. destruct (pending w); reflexivity. Qed.

(** There is no retry: when the first exchange fails at the transport level
    (no response, an HTTP status from 400 to 599, or a body that is not
    JSON), each of the four fetchers lets that exception escape after the
    one request it has sent. *)
Theorem transport_failure_reaches_the_caller {rt : Runtime}
    (env : gmap string string) (token : string) (w : world) (e : exn)
    (fuel : nat) (d1 d2 : string) (size page : Z) :
  env !! TOKEN_ENV_NAME = Some token -> token <> "" ->
  json_of (hd NoResponse (pending w)) = Raise e ->
  (0 < fuel)%nat ->
  let after rq := {| pending := tl (pending w); sent := sent w ++ [rq] |} in
  daily_transaction_report.fetch_transactions fuel env d1 d2 size w
    = (Raise e, after (daily_transaction_report.page_request token d1 d2 1 size))
  /\ daily_amazon_report.fetch_amazon_report fuel env d1 d2 size w
     = (Raise e, after (daily_amazon_report.page_request token d1 d2 1 size))
  /\ sync_products.fetch_fba_products_page env page size w
     = (Raise e, after (sync_products.page_request token page size))
  /\ fetch_brands_sample.fetch_brands_page env page size w
     = (Raise e, after (fetch_brands_sample.page_request token page size)).
Proof.
  intros Henv Htoken He Hfuel after.
  unfold daily_transaction_report.fetch_transactions,
    daily_amazon_report.fetch_amazon_report,
    sync_products.fetch_fba_products_page,
    fetch_brands_sample.fetch_brands_page.
  rewrite (get_token_present _ _ Henv Htoken).
  destruct fuel as [| fuel']; [lia |].
  cbn [daily_transaction_report.fetch_pages daily_amazon_report.fetch_pages].
  rewrite !post_next.
  unfold daily_transaction_report.page_step, daily_amazon_report.page_step,
    sync_products.check_envelope.
  rewrite He. cbn [bind]. auto.
Qed.

Lemma transport_failure_reaches_the_caller_witness :
  let w := {| pending := [HttpResponse 503 None; sample_page [sample_item 1] []];
              sent := [] |} in
  fst (daily_transaction_report.fetch_transactions (rt := digits_runtime)
         3 sample_env "2024-05-01" "2024-05-01" 1000 w) = Raise (HTTPError 503)
  /\ length (sent (snd (daily_amazon_report.fetch_amazon_report
                          (rt := digits_runtime)
                          3 sample_env "20240501" "20240501" 500 w))) = 1%nat
  /\ fst (fetch_brands_sample.fetch_brands_page sample_env 1 10 idle)
     = Raise ConnectionError.
Proof.
  cbv zeta.
  destruct (transport_failure_reaches_the_caller (rt := digits_runtime)
              sample_env "secret"
              {| pending := [HttpResponse 503 None; sample_page [sample_item 1] []];
                 sent := [] |}
              (HTTPError 503) 3 "2024-05-01" "2024-05-01" 1000 1
              eq_refl ltac:(discriminate) eq_refl ltac:(lia)) as (H1 & _).
  destruct (transport_failure_reaches_the_caller (rt := digits_runtime)
              sample_env "secret"
              {| pending := [HttpResponse 503 None; sample_page [sample_item 1] []];
                 sent := [] |}
              (HTTPError 503) 3 "20240501" "20240501" 500 1
              eq_refl ltac:(discriminate) eq_refl ltac:(lia)) as (_ & H2 & _).
  destruct (transport_failure_reaches_the_caller (rt := digits_runtime)
              sample_env "secret" idle ConnectionError 1 "" "" 10 1
              eq_refl ltac:(discriminate) eq_refl ltac:(lia)) as (_ & _ & _ & H4).
  rewrite H1, H2, H4. repeat split; reflexivity.
Defined.

(** A status code that is a non-zero integer aborts each of the three
    checking fetchers on the first page, whatever the [data] payload: the
    error carries the code and the message, and one request was sent. *)
Theorem error_status_aborts_with_code_and_message {rt : Runtime}
    (env : gmap string string) (token : string) (w : world)
    (c : Z) (msg data : pyval) (rest : list response)
    (fuel : nat) (d1 d2 : string) (size page : Z) :
  env !! TOKEN_ENV_NAME = Some token -> token <> "" ->
  pending w = with_status (PInt c) msg data :: rest ->
  c <> 0 ->
  (0 < fuel)%nat ->
  let after rq := {| pending := rest; sent := sent w ++ [rq] |} in
  daily_transaction_report.fetch_transactions fuel env d1 d2 size w
    = (Raise (RuntimeError ("API error " +:+ pretty c +:+ ": " +:+ py_str msg)),
       after (daily_transaction_report.page_request token d1 d2 1 size))
  /\ daily_amazon_report.fetch_amazon_report fuel env d1 d2 size w
     = (Raise (RuntimeError ("API error: " +:+ pretty c +:+ " " +:+ py_str msg)),
        after (daily_amazon_report.page_request token d1 d2 1 size))
  /\ sync_products.fetch_fba_products_page env page size w
     = (Raise (RuntimeError
                 ("API error: code=" +:+ pretty c +:+ ", msg=" +:+ py_str msg)),
        after (sync_products.page_request token page size)).
Proof.
  intros Henv Htoken Hw Hc Hfuel after.
  unfold daily_transaction_report.fetch_transactions,
    daily_amazon_report.fetch_amazon_report,
    sync_products.fetch_fba_products_page.
  rewrite (get_token_present _ _ Henv Htoken).
  destruct fuel as [| fuel']; [lia |].
  cbn [daily_transaction_report.fetch_pages daily_amazon_report.fetch_pages].
  unfold post. rewrite Hw.
  unfold daily_transaction_report.page_step, daily_amazon_report.page_step,
    sync_products.check_envelope, with_status.
  cbn [json_of Z.leb Z.ltb Z.compare Pos.compare Pos.compare_cont andb bind py_get].
  change (dict_get _ "status" (PDict []))
    with (PDict [("code", PInt c); ("msg", msg)]).
  cbn [bind py_get].
  change (dict_get [("code", PInt c); ("msg", msg)] "code" PNone) with (PInt c).
  change (dict_get [("code", PInt c); ("msg", msg)] "msg" PNone) with msg.
  cbn [ne_zero eq_str orb]. apply Z.eqb_neq in Hc. rewrite Hc.
  cbn [negb orb bind py_str]. auto.
Qed.

Lemma error_status_aborts_with_code_and_message_witness :
  fst (sync_products.fetch_fba_products_page (rt := digits_runtime)
         sample_env 1 50
         {| pending := [with_status (PInt 1002) (PStr "token invalid")
                          (PDict [("list", PList [sample_item 1])])];
            sent := [] |})
  = Raise (RuntimeError "API error: code=1002, msg=token invalid").
Proof.
  destruct (error_status_aborts_with_code_and_message (rt := digits_runtime)
              sample_env "secret"
              {| pending := [with_status (PInt 1002) (PStr "token invalid")
                               (PDict [("list", PList [sample_item 1])])];
                 sent := [] |}
              1002 (PStr "token invalid") (PDict [("list", PList [sample_item 1])])
              [] 1 "" "" 50 1
              eq_refl ltac:(discriminate) eq_refl ltac:(lia) ltac:(lia))
    as (_ & _ & H).
  rewrite H. reflexivity.
Defined.

Lemma get_token_unset (env : gmap string string) :
  env !! TOKEN_ENV_NAME = None \/ env !! TOKEN_ENV_NAME = Some "" ->
  get_token env = Raise token_missing.
Proof. unfold get_token. intros [-> | ->]; reflexivity. Qed.

(** A token that is set but empty counts as missing.  Then, as when it is
    absent, every fetcher raises the configure-token error without sending
    anything; [sync_products] has by then created the table, and leaves the
    rows alone. *)
Theorem empty_token_counts_as_missing {rt : Runtime} {eng : Engine}
    (env : gmap string string) (w : world) (db : database) (fuel : nat)
    (d1 d2 : string) (size page : Z) :
  env !! TOKEN_ENV_NAME = None \/ env !! TOKEN_ENV_NAME = Some "" ->
  (0 < fuel)%nat ->
  daily_transaction_report.fetch_transactions fuel env d1 d2 size w
    = (Raise token_missing, w)
  /\ daily_amazon_report.fetch_amazon_report fuel env d1 d2 size w
     = (Raise token_missing, w)
  /\ sync_products.fetch_fba_products_page env page size w
     = (Raise token_missing, w)
  /\ fetch_brands_sample.fetch_brands_page env page size w
     = (Raise token_missing, w)
  /\ sync_products.sync_products fuel env size db w
     = (Raise token_missing,
        {| products := Some (default [] (products db)) |}, w).
Proof.
  intros H Hfuel. apply get_token_unset in H.
  unfold daily_transaction_report.fetch_transactions,
    daily_amazon_report.fetch_amazon_report,
    sync_products.sync_products, fetch_brands_sample.fetch_brands_page.
  destruct fuel as [| fuel']; [lia |].
  cbn [sync_products.sync_pages].
  unfold sync_products.fetch_fba_products_page. rewrite H. cbn [bind].
  repeat split. unfold sync_products.init_db.
  destruct db as [[tbl |]]; reflexivity.
Qed.

Lemma empty_token_counts_as_missing_witness :
  sync_products.sync_products (rt := digits_runtime) (eng := sample_engine)
    5 {[ TOKEN_ENV_NAME := "" ]} 50 {| products := None |}
    {| pending := [sample_page [sample_item 1] []]; sent := [] |}
  = (Raise token_missing, {| products := Some [] |},
     {| pending := [sample_page [sample_item 1] []]; sent := [] |}).
Proof.
  apply (empty_token_counts_as_missing (rt := digits_runtime) (eng := sample_engine)
           {[ TOKEN_ENV_NAME := "" ]}
           {| pending := [sample_page [sample_item 1] []]; sent := [] |}
           {| products := None |} 5 "" "" 50 1).
  - right. reflexivity.
  - lia.
Defined.

(** A body without a [status] entry is an API error for the three checking
    fetchers: the code and the message both read [None].
    [fetch_brands_page] does not look at the envelope and returns the same
    body. *)
Theorem missing_status_is_an_api_error {rt : Runtime}
    (env : gmap string string) (token : string) (w : world)
    (sc : Z) (body : dict) (rest : list response)
    (fuel : nat) (d1 d2 : string) (size page : Z) :
  env !! TOKEN_ENV_NAME = Some token -> token <> "" ->
  pending w = HttpResponse sc (Some (PDict body)) :: rest ->
  (400 <=? sc) && (sc <? 600) = false ->
  dict_lookup body "status" = None ->
  (0 < fuel)%nat ->
  fst (daily_transaction_report.fetch_transactions fuel env d1 d2 size w)
    = Raise (RuntimeError "API error None: None")
  /\ fst (daily_amazon_report.fetch_amazon_report fuel env d1 d2 size w)
     = Raise (RuntimeError "API error: None None")
  /\ fst (sync_products.fetch_fba_products_page env page size w)
     = Raise (RuntimeError "API error: code=None, msg=None")
  /\ fst (fetch_brands_sample.fetch_brands_page env page size w)
     = Ok (PDict body).
Proof.
  intros Henv Htoken Hw Hsc Hst Hfuel.
  unfold daily_transaction_report.fetch_transactions,
    daily_amazon_report.fetch_amazon_report,
    sync_products.fetch_fba_products_page,
    fetch_brands_sample.fetch_brands_page.
  rewrite (get_token_present _ _ Henv Htoken).
  destruct fuel as [| fuel']; [lia |].
  cbn [daily_transaction_report.fetch_pages daily_amazon_report.fetch_pages].
  unfold post. rewrite Hw.
  unfold daily_transaction_report.page_step, daily_amazon_report.page_step,
    sync_products.check_envelope, json_of.
  rewrite Hsc. cbn [bind py_get]. unfold dict_get. rewrite Hst.
  repeat split; reflexivity.
Qed.

Lemma missing_status_is_an_api_error_witness :
  let w := {| pending := [HttpResponse 200 (Some (PDict [("data", PDict [])]))];
              sent := [] |} in
  fst (daily_transaction_report.fetch_transactions (rt := digits_runtime)
         1 sample_env "2024-05-01" "2024-05-01" 1000 w)
    = Raise (RuntimeError "API error None: None")
  /\ fst (fetch_brands_sample.fetch_brands_page sample_env 1 10 w)
     = Ok (PDict [("data", PDict [])]).
Proof.
  cbv zeta.
  destruct (missing_status_is_an_api_error (rt := digits_runtime)
              sample_env "secret"
              {| pending := [HttpResponse 200 (Some (PDict [("data", PDict [])]))];
                 sent := [] |}
              200 [("data", PDict [])] [] 1 "2024-05-01" "2024-05-01" 1000 1
              eq_refl ltac:(discriminate) eq_refl eq_refl eq_refl ltac:(lia))
    as (H1 & _ & _ & H4).
  split; [exact H1 | exact H4].
Defined.

(* ===================================================================== *)
(** ** Page after page                                                    *)
(* ===================================================================== *)

Lemma world_eta (w : world) : {| pending := pending w; sent := sent w |} = w.
Proof. destruct w; reflexivity. Qed.

(** The loop of [fetch_amazon_report] over pages that all say
    [has_more = true]: it asks for one page after the other and keeps the
    rows. *)
Lemma amazon_fetch_pages_continue {rt : Runtime} (token d1 d2 : string)
    (size : Z) (ps : list (list pyval)) :
  forall (fuel : nat) (page : Z) (acc : list pyval) (w : world),
    has_more_page <$> take (length ps) (pending w)
      = (fun items => Some (items, true)) <$> ps ->
    daily_amazon_report.fetch_pages (length ps + fuel) token d1 d2 size page acc w
    = daily_amazon_report.fetch_pages fuel token d1 d2 size
        (page + Z.of_nat (length ps)) (acc ++ concat ps)
        {| pending := drop (length ps) (pending w);
           sent := sent w
                   ++ ((fun p => daily_amazon_report.page_request token d1 d2 p size)
                         <$> seqZ page (Z.of_nat (length ps))) |}.
Proof.
  induction ps as [| items ps IH]; intros fuel page acc w Hresp.
  - cbn [length concat Nat.add]. change (Z.of_nat 0) with 0.
    change (seqZ page 0) with (@nil Z). cbn [fmap list_fmap].
    rewrite drop_0, Z.add_0_r, !app_nil_r, world_eta. reflexivity.
  - destruct (pending w) as [| r rest] eqn:Hw; [discriminate Hresp |].
    cbn [length take fmap list_fmap] in Hresp. injection Hresp as Hr Hrest.
    cbn [length Nat.add daily_amazon_report.fetch_pages]. unfold post. rewrite Hw.
    rewrite (amazon_page_step _ _ _ _ Hr).
    rewrite (IH fuel (page + 1) (acc ++ items)
               {| pending := rest;
                  sent := sent w
                          ++ [daily_amazon_report.page_request token d1 d2 page size] |}
               Hrest).
    cbn [pending sent concat]. rewrite (skipn_cons (length ps)).
    rewrite (seqZ_cons page (Z.of_nat (S (length ps)))) by lia.
    cbn [fmap list_fmap].
    replace (Z.pred (Z.of_nat (S (length ps)))) with (Z.of_nat (length ps)) by lia.
    replace (page + 1 + Z.of_nat (length ps)) with (page + Z.of_nat (S (length ps)))
      by lia.
    rewrite <- !app_assoc, Z.add_1_r. reflexivity.
Qed.

(** The loop of [fetch_transactions] over non-empty pages that declare a
    [total_page] not yet reached. *)
Lemma transaction_fetch_pages_continue {rt : Runtime} (token d1 d2 : string)
    (limit n : Z) (ps : list (list pyval)) :
  forall (fuel : nat) (page : Z) (acc : list pyval) (w : world),
    total_page_page <$> take (length ps) (pending w)
      = (fun items => Some (items, Some n)) <$> ps ->
    Forall (fun items => items <> []) ps ->
    page + Z.of_nat (length ps) <= n ->
    daily_transaction_report.fetch_pages
      (length ps + fuel) token d1 d2 limit page acc w
    = daily_transaction_report.fetch_pages fuel token d1 d2 limit
        (page + Z.of_nat (length ps)) (acc ++ concat ps)
        {| pending := drop (length ps) (pending w);
           sent := sent w
                   ++ ((fun p => daily_transaction_report.page_request
                                   token d1 d2 p limit)
                         <$> seqZ page (Z.of_nat (length ps))) |}.
Proof.
  induction ps as [| items ps IH]; intros fuel page acc w Hresp Hne Hn.
  - cbn [length concat Nat.add]. change (Z.of_nat 0) with 0.
    change (seqZ page 0) with (@nil Z). cbn [fmap list_fmap].
    rewrite drop_0, Z.add_0_r, !app_nil_r, world_eta. reflexivity.
  - destruct (pending w) as [| r rest] eqn:Hw; [discriminate Hresp |].
    cbn [length take fmap list_fmap] in Hresp. injection Hresp as Hr Hrest.
    apply Forall_cons in Hne as [Hitems Hne].
    cbn [length Nat.add daily_transaction_report.fetch_pages]. unfold post.
    rewrite Hw. rewrite (transaction_page_step _ _ _ _ _ Hr).
    destruct items as [| i items']; [contradiction |].
    change (default 1 (Some n)) with n. cbn [length] in Hn.
    destruct (Z.leb_spec n page) as [Hle | _]; [lia |]. cbv iota.
    rewrite (IH fuel (page + 1) (acc ++ i :: items')
               {| pending := rest;
                  sent := sent w
                          ++ [daily_transaction_report.page_request
                                token d1 d2 page limit] |}
               Hrest Hne ltac:(lia)).
    cbn [pending sent concat]. rewrite (skipn_cons (length ps)).
    rewrite (seqZ_cons page (Z.of_nat (S (length ps)))) by lia.
    cbn [fmap list_fmap].
    replace (Z.pred (Z.of_nat (S (length ps)))) with (Z.of_nat (length ps)) by lia.
    replace (page + 1 + Z.of_nat (length ps)) with (page + Z.of_nat (S (length ps)))
      by lia.
    rewrite <- !app_assoc, Z.add_1_r. reflexivity.
Qed.

(** No partial result: when the pages fetched so far all asked for more and
    the next exchange fails (at the transport level or on its status code),
    the report fetchers raise that error; the rows of the earlier pages are
    not returned.  Every page, the failing one included, was requested
    once. *)
Theorem later_failure_discards_fetched_pages {rt : Runtime}
    (env : gmap string string) (token d1 d2 : string) (size n : Z)
    (w : world) (ps : list (list pyval)) (r : response) (e : exn) (fuel : nat) :
  env !! TOKEN_ENV_NAME = Some token -> token <> "" ->
  pending w !! length ps = Some r ->
  (length ps < fuel)%nat ->
  let after rq :=
    {| pending := drop (S (length ps)) (pending w);
       sent := sent w ++ (rq <$> seqZ 1 (Z.of_nat (S (length ps)))) |} in
  (has_more_page <$> take (length ps) (pending w)
     = (fun items => Some (items, true)) <$> ps ->
   (forall acc, daily_amazon_report.page_step r acc = Raise e) ->
   daily_amazon_report.fetch_amazon_report fuel env d1 d2 size w
   = (Raise e, after (fun p => daily_amazon_report.page_request token d1 d2 p size)))
  /\ (total_page_page <$> take (length ps) (pending w)
        = (fun items => Some (items, Some n)) <$> ps ->
      Forall (fun items => items <> []) ps ->
      Z.of_nat (length ps) < n ->
      (forall page acc, daily_transaction_report.page_step r page acc = Raise e) ->
      daily_transaction_report.fetch_transactions fuel env d1 d2 size w
      = (Raise e,
         after (fun p => daily_transaction_report.page_request token d1 d2 p size))).
Proof.
  intros Henv Htoken Hr Hfuel after.
  assert (Hfuel' : fuel = (length ps + S (fuel - length ps - 1))%nat) by lia.
  assert (Hseq : forall rq : Z -> request,
            (rq <$> seqZ 1 (Z.of_nat (length ps)))
              ++ [rq (1 + Z.of_nat (length ps))]
            = rq <$> seqZ 1 (Z.of_nat (S (length ps)))).
  { intros rq. rewrite seqZ_S, fmap_app. reflexivity. }
  split.
  - intros Hresp Hfail.
    unfold daily_amazon_report.fetch_amazon_report.
    rewrite (get_token_present _ _ Henv Htoken), Hfuel'.
    rewrite (amazon_fetch_pages_continue _ _ _ _ ps _ 1 [] w Hresp).
    cbn [daily_amazon_report.fetch_pages]. unfold post. cbn [pending sent].
    rewrite (drop_S _ _ _ Hr), Hfail.
    unfold after. rewrite <- app_assoc, Hseq. reflexivity.
  - intros Hresp Hne Hn Hfail.
    unfold daily_transaction_report.fetch_transactions.
    rewrite (get_token_present _ _ Henv Htoken), Hfuel'.
    rewrite (transaction_fetch_pages_continue _ _ _ _ n ps _ 1 [] w Hresp Hne)
      by lia.
    cbn [daily_transaction_report.fetch_pages]. unfold post. cbn [pending sent].
    rewrite (drop_S _ _ _ Hr), Hfail.
    unfold after. rewrite <- app_assoc, Hseq. reflexivity.
Qed.

Lemma later_failure_discards_fetched_pages_witness :
  let w := {| pending := [sample_page [sample_item 1; sample_item 2]
                            [("has_more", PBool true)];
                          HttpResponse 500 None];
              sent := [] |} in
  daily_amazon_report.fetch_amazon_report (rt := digits_runtime)
    5 sample_env "20240501" "20240501" 500 w
  = (Raise (HTTPError 500),
     {| pending := [];
        sent := [daily_amazon_report.page_request "secret" "20240501" "20240501" 1 500;
                 daily_amazon_report.page_request "secret" "20240501" "20240501" 2 500]
     |}).
Proof.
  cbv zeta.
  destruct (later_failure_discards_fetched_pages (rt := digits_runtime)
              sample_env "secret" "20240501" "20240501" 500 0
              {| pending := [sample_page [sample_item 1; sample_item 2]
                               [("has_more", PBool true)];
                             HttpResponse 500 None];
                 sent := [] |}
              [[sample_item 1; sample_item 2]] (HttpResponse 500 None)
              (HTTPError 500) 5
              eq_refl ltac:(discriminate) eq_refl ltac:(simpl; lia)) as [H _].
  rewrite H; [reflexivity | reflexivity | intros acc; reflexivity].
Defined.

(** The total_page protocol, for any number of pages: while the pages are
    non-empty and declare a [total_page] beyond their own number the
    fetch goes on; it ends on the first page that is empty or whose
    declared [total_page] (1 when absent) does not exceed its number.  The
    items come back in page order, and no page is requested twice or beyond
    the last. *)
Theorem transaction_fetch_follows_total_page {rt : Runtime}
    (env : gmap string string) (token d1 d2 : string) (limit n : Z)
    (w : world) (ps : list (list pyval)) (r : response)
    (last : list pyval) (declared : option Z) (fuel : nat) :
  env !! TOKEN_ENV_NAME = Some token -> token <> "" ->
  total_page_page <$> take (length ps) (pending w)
    = (fun items => Some (items, Some n)) <$> ps ->
  Forall (fun items => items <> []) ps ->
  Z.of_nat (length ps) < n ->
  pending w !! length ps = Some r ->
  total_page_page r = Some (last, declared) ->
  last = [] \/ default 1 declared <= Z.of_nat (S (length ps)) ->
  (length ps < fuel)%nat ->
  daily_transaction_report.fetch_transactions fuel env d1 d2 limit w
  = (Ok (concat ps ++ last),
     {| pending := drop (S (length ps)) (pending w);
        sent := sent w
                ++ ((fun p => daily_transaction_report.page_request
                                token d1 d2 p limit)
                      <$> seqZ 1 (Z.of_nat (S (length ps)))) |}).
Proof.
  intros Henv Htoken Hresp Hne Hn Hr Hlast Hstop Hfuel.
  unfold daily_transaction_report.fetch_transactions.
  rewrite (get_token_present _ _ Henv Htoken).
  replace fuel with (length ps + S (fuel - length ps - 1))%nat by lia.
  rewrite (transaction_fetch_pages_continue _ _ _ _ n ps _ 1 [] w Hresp Hne)
    by lia.
  cbn [daily_transaction_report.fetch_pages]. unfold post. cbn [pending sent].
  rewrite (drop_S _ _ _ Hr), (transaction_page_step _ _ _ _ _ Hlast).
  rewrite <- (app_assoc (sent w)).
  replace (((fun p => daily_transaction_report.page_request token d1 d2 p limit)
              <$> seqZ 1 (Z.of_nat (length ps)))
           ++ [daily_transaction_report.page_request token d1 d2
                 (1 + Z.of_nat (length ps)) limit])
    with ((fun p => daily_transaction_report.page_request token d1 d2 p limit)
            <$> seqZ 1 (Z.of_nat (S (length ps))))
    by (rewrite seqZ_S, fmap_app; reflexivity).
  cbn [app].
  destruct last as [| i last'].
  - rewrite app_nil_r. reflexivity.
  - destruct Hstop as [Hstop | Hstop]; [discriminate Hstop |].
    destruct (Z.leb_spec (default 1 declared) (1 + Z.of_nat (length ps)));
      [reflexivity | lia].
Qed.

Lemma transaction_fetch_follows_total_page_witness :
  exists w',
    daily_transaction_report.fetch_transactions (rt := digits_runtime)
      9 sample_env "2024-05-01" "2024-05-07" 1000
      {| pending := [sample_page [sample_item 1] [("total_page", PInt 3)];
                     sample_page [sample_item 2] [("total_page", PInt 3)];
                     sample_page [sample_item 3] [("total_page", PInt 3)];
                     sample_page [sample_item 4] [("total_page", PInt 3)]];
         sent := [] |}
    = (Ok [sample_item 1; sample_item 2; sample_item 3], w')
    /\ length (sent w') = 3%nat /\ length (pending w') = 1%nat.
Proof.
  eexists. split.
  - apply (transaction_fetch_follows_total_page (rt := digits_runtime)
             sample_env "secret" "2024-05-01" "2024-05-07" 1000 3 _
             [[sample_item 1]; [sample_item 2]]
             (sample_page [sample_item 3] [("total_page", PInt 3)])
             [sample_item 3] (Some 3) 9).
    + reflexivity.
    + discriminate.
    + reflexivity.
    + repeat constructor; discriminate.
    + simpl. lia.
    + reflexivity.
    + reflexivity.
    + right. simpl. lia.
    + simpl. lia.
  - split; reflexivity.
Defined.

(** A successful, non-empty page whose [data] block carries a [total_page]
    entry: the entry goes through [int()]. *)
Lemma transaction_page_step_declared {rt : Runtime} (resp : response)
    (blk : dict) (items : list pyval) (v : pyval) (page : Z) (acc : list pyval) :
  data_block resp = Some blk ->
  dict_lookup blk "list" = Some (PList items) -> items <> [] ->
  dict_lookup blk "total_page" = Some v ->
  daily_transaction_report.page_step resp page acc
  = (total_page <- py_int v ;;
     if total_page <=? page then Ok (Break (acc ++ items))
     else Ok (Continue (acc ++ items))).
Proof.
  intros Hb Hl Hne Hv.
  apply envelope_passes in Hb as (env & st & Hj & Hst & Hc & Hd).
  unfold daily_transaction_report.page_step.
  rewrite Hj. cbn [bind py_get]. rewrite Hst. cbn [bind py_get]. rewrite Hc.
  cbn [bind ne_zero Z.eqb negb]. rewrite Hd. cbn [bind py_get].
  unfold dict_get. rewrite Hl, Hv.
  destruct items as [| i items']; [contradiction |]. reflexivity.
Qed.

(** The declared [total_page] is read with [int()].  When the first page is
    non-empty and its [total_page] is [null], a list or an object, the
    fetch raises [TypeError]; when it is a string [int()] cannot parse, it
    raises [ValueError]; either way after one request, and the items of
    the page are lost.  A string that parses counts as the number it
    denotes, and a float as its integer part: the fetch ends with the
    items of the page when that number is at most 1, and goes on with
    page 2 otherwise, as it does for an integer. *)
Theorem unreadable_total_page_fails_the_fetch {rt : Runtime}
    (env : gmap string string) (token d1 d2 : string) (limit : Z)
    (w : world) (r : response) (rest : list response)
    (blk : dict) (items : list pyval) (v : pyval) (fuel : nat) :
  env !! TOKEN_ENV_NAME = Some token -> token <> "" ->
  pending w = r :: rest ->
  data_block r = Some blk ->
  dict_lookup blk "list" = Some (PList items) -> items <> [] ->
  dict_lookup blk "total_page" = Some v ->
  (0 < fuel)%nat ->
  let fetched :=
    daily_transaction_report.fetch_transactions fuel env d1 d2 limit w in
  let after :=
    {| pending := rest;
       sent := sent w
               ++ [daily_transaction_report.page_request token d1 d2 1 limit] |} in
  let declared (n : Z) :=
    if n <=? 1 then (Ok items, after)
    else daily_transaction_report.fetch_pages
           (Nat.pred fuel) token d1 d2 limit 2 items after in
  (v = PNone \/ (exists l, v = PList l) \/ (exists d, v = PDict d) ->
   fetched = (Raise TypeError, after))
  /\ (forall s, v = PStr s -> int_of_str s = None ->
      fetched = (Raise ValueError, after))
  /\ (forall s n, v = PStr s -> int_of_str s = Some n -> fetched = declared n)
  /\ (forall f n, v = PFloat f -> Z_of_float f = Ok n -> fetched = declared n)
  /\ (forall n, v = PInt n -> fetched = declared n).
Proof.
  intros Henv Htoken Hw Hb Hl Hne Hv Hfuel fetched after declared.
  assert (Hrun : fetched
                 = match (total_page <- py_int v ;;
                          if total_page <=? 1 then Ok (Break ([] ++ items))
                          else Ok (Continue ([] ++ items))) with
                   | Ok (Break got) => (Ok got, after)
                   | Ok (Continue got) =>
                       daily_transaction_report.fetch_pages
                         (Nat.pred fuel) token d1 d2 limit (1 + 1) got after
                   | Raise e => (Raise e, after)
                   | Beyond l => (Beyond l, after)
                   end).
  { unfold fetched, daily_transaction_report.fetch_transactions.
    rewrite (get_token_present _ _ Henv Htoken).
    destruct fuel as [| fuel']; [lia |].
    cbn [daily_transaction_report.fetch_pages Nat.pred]. unfold post. rewrite Hw.
    rewrite (transaction_page_step_declared _ _ _ _ _ _ Hb Hl Hne Hv).
    reflexivity. }
  rewrite Hrun. clear Hrun. unfold declared. repeat split.
  - intros [-> | [[l ->] | [d ->]]]; reflexivity.
  - intros s -> Hs. cbn [py_int]. rewrite Hs. reflexivity.
  - intros s n -> Hs. cbn [py_int]. rewrite Hs. cbn [bind].
    destruct (n <=? 1); reflexivity.
  - intros f n -> Hf. cbn [py_int]. rewrite Hf. cbn [bind].
    destruct (n <=? 1); reflexivity.
  - intros n ->. cbn [py_int bind]. destruct (n <=? 1); reflexivity.
Qed.

Lemma unreadable_total_page_fails_the_fetch_witness :
  fst (daily_transaction_report.fetch_transactions (rt := digits_runtime)
         4 sample_env "2024-05-01" "2024-05-01" 1000
         {| pending := [sample_page [sample_item 1] [("total_page", PStr "many")]];
            sent := [] |})
  = Raise ValueError
  /\ fst (daily_transaction_report.fetch_transactions (rt := digits_runtime)
            4 sample_env "2024-05-01" "2024-05-01" 1000
            {| pending := [sample_page [sample_item 1] [("total_page", PStr "2")];
                           sample_page [sample_item 2] [("total_page", PStr "2")];
                           sample_page [sample_item 3] [("total_page", PStr "2")]];
               sent := [] |})
     = Ok [sample_item 1; sample_item 2].
Proof.
  split.
  - destruct (unreadable_total_page_fails_the_fetch (rt := digits_runtime)
                sample_env "secret" "2024-05-01" "2024-05-01" 1000
                {| pending := [sample_page [sample_item 1]
                                 [("total_page", PStr "many")]];
                   sent := [] |}
                (sample_page [sample_item 1] [("total_page", PStr "many")]) []
                [("list", PList [sample_item 1]); ("total_page", PStr "many")]
                [sample_item 1] (PStr "many") 4
                eq_refl ltac:(discriminate) eq_refl eq_refl eq_refl
                ltac:(discriminate) eq_refl ltac:(lia)) as (_ & H & _).
    rewrite (H "many" eq_refl eq_refl). reflexivity.
  - destruct (unreadable_total_page_fails_the_fetch (rt := digits_runtime)
                sample_env "secret" "2024-05-01" "2024-05-01" 1000
                {| pending := [sample_page [sample_item 1]
                                 [("total_page", PStr "2")];
                               sample_page [sample_item 2]
                                 [("total_page", PStr "2")];
                               sample_page [sample_item 3]
                                 [("total_page", PStr "2")]];
                   sent := [] |}
                (sample_page [sample_item 1] [("total_page", PStr "2")])
                [sample_page [sample_item 2] [("total_page", PStr "2")];
                 sample_page [sample_item 3] [("total_page", PStr "2")]]
                [("list", PList [sample_item 1]); ("total_page", PStr "2")]
                [sample_item 1] (PStr "2") 4
                eq_refl ltac:(discriminate) eq_refl eq_refl eq_refl
                ltac:(discriminate) eq_refl ltac:(lia)) as (_ & _ & H & _).
    rewrite (H "2" 2 eq_refl eq_refl). reflexivity.
Defined.

(* ===================================================================== *)
(** ** More on the Lookup Store                                           *)
(* ===================================================================== *)

(** An upsert does not touch what is stored under another key. *)
Lemma select_insert_or_update_other (new : product_row) (key : cell)
    (tbl : list product_row) :
  cell_eqb (asin new) key = false ->
  select_one (insert_or_update new tbl) key = select_one tbl key.
Proof.
  intros Hkey. unfold select_one.
  induction tbl as [| r tbl IH]; cbn [insert_or_update List.find].
  - rewrite Hkey. reflexivity.
  - destruct (cell_eqb (asin r) (asin new)) eqn:E; cbn [List.find asin].
    + destruct (cell_eqb (asin r) key) eqn:E'; [| reflexivity].
      destruct key as [| k]; [destruct (asin r); discriminate E' |].
      apply cell_eqb_text in E'. rewrite E' in E. rewrite cell_eqb_sym, E in Hkey.
      discriminate Hkey.
    + destruct (cell_eqb (asin r) key); [reflexivity | exact IH].
Qed.

(** The keys of the table after an upsert: the same keys in the same order,
    with the new key at the end when it was not there. *)
Lemma keys_insert_or_update (new : product_row) (tbl : list product_row) :
  asin <$> insert_or_update new tbl
  = if existsb (has_key (asin new)) tbl then asin <$> tbl
    else (asin <$> tbl) ++ [asin new].
Proof.
  induction tbl as [| r tbl IH]; cbn [insert_or_update existsb]; [reflexivity |].
  destruct (cell_eqb (asin r) (asin new)) eqn:E; cbn [orb fmap list_fmap asin];
    [reflexivity |].
  change (list_fmap product_row cell asin (insert_or_update new tbl))
    with (asin <$> insert_or_update new tbl).
  rewrite IH. destruct (existsb _ tbl); reflexivity.
Qed.

Lemma insert_or_update_idempotent (new : product_row) (k : string)
    (tbl : list product_row) :
  asin new = Text k ->
  insert_or_update new (insert_or_update new tbl) = insert_or_update new tbl.
Proof.
  intros Hk. induction tbl as [| r tbl IH]; cbn [insert_or_update].
  - rewrite Hk. cbn [cell_eqb]. rewrite String.eqb_refl.
    destruct new; cbn in *. subst. reflexivity.
  - destruct (cell_eqb (asin r) (asin new)) eqn:E; cbn [insert_or_update asin];
      rewrite E; [reflexivity | rewrite IH; reflexivity].
Qed.

(** What [upsert_product] has done when it returns. *)
Lemma upsert_product_inv {eng : Engine} (db db' : database) (p : dict) :
  sync_products.upsert_product db p = Ok db' ->
  (truthy (dict_get p "asin" PNone) = false /\ db' = db)
  \/ exists tbl new,
       truthy (dict_get p "asin" PNone) = true
       /\ products db = Some tbl
       /\ db' = {| products := Some (insert_or_update new tbl) |}
       /\ bind_text (dict_get p "asin" PNone) = Ok (asin new)
       /\ bind_text (py_or (dict_get p "brand_name" PNone) (dict_get p "brand" PNone))
          = Ok (brand_name new)
       /\ forall tbl0,
            sync_products.upsert_product {| products := Some tbl0 |} p
            = Ok {| products := Some (insert_or_update new tbl0) |}.
Proof.
  unfold sync_products.upsert_product.
  destruct (truthy (dict_get p "asin" PNone)); cbn [negb];
    [| intros [= <-]; left; auto].
  destruct (products db) as [tbl |]; [| discriminate].
  destruct (bind_text (dict_get p "asin" PNone)) as [c0 | |]; [| discriminate ..].
  destruct (bind_text (dict_get p "brand_id" PNone)) as [c1 | |]; [| discriminate ..].
  destruct (bind_text (py_or _ _)) as [c2 | |]; [| discriminate ..].
  destruct (bind_text (py_or _ _)) as [c3 | |]; [| discriminate ..].
  destruct (bind_text (dict_get p "country_code" PNone)) as [c4 | |];
    [| discriminate ..].
  cbn [bind]. intros [= <-]. right. eexists _, _. repeat split; reflexivity.
Qed.

(** An upsert never deletes and never disturbs another product: the table
    still exists, holds every key it held, in the same order, and at most
    one more row; and each product code other than the record's own is
    looked up to the very same row as before. *)
Theorem upsert_leaves_other_products_alone {eng : Engine}
    (db db' : database) (tbl : list product_row) (p : dict) :
  products db = Some tbl ->
  sync_products.upsert_product db p = Ok db' ->
  exists tbl',
    products db' = Some tbl'
    /\ (asin <$> tbl) `prefix_of` (asin <$> tbl')
    /\ (length tbl' <= S (length tbl))%nat
    /\ forall k, product_code p <> Some k ->
                 select_one tbl' (Text k) = select_one tbl (Text k).
Proof.
  intros Hdb Hup.
  apply upsert_product_inv in Hup
    as [[_ ->] | (tbl0 & new & Ht & Hdb0 & -> & Hasin & _ & _)].
  - exists tbl. rewrite Hdb. repeat split; auto.
  - rewrite Hdb in Hdb0. injection Hdb0 as <-.
    exists (insert_or_update new tbl). split; [reflexivity |].
    pose proof (keys_insert_or_update new tbl) as Hkeys.
    split; [| split].
    + rewrite Hkeys. destruct (existsb _ tbl); [reflexivity |].
      apply prefix_app_r. reflexivity.
    + apply (f_equal length) in Hkeys. rewrite length_fmap in Hkeys.
      rewrite Hkeys. destruct (existsb _ tbl);
        rewrite ?length_app, !length_fmap; cbn [length]; lia.
    + intros k Hk. apply select_insert_or_update_other.
      destruct (asin new) as [| k'] eqn:Hnew; [reflexivity |].
      cbn [cell_eqb]. apply String.eqb_neq. intros ->. apply Hk.
      unfold product_code. rewrite Ht, Hasin. reflexivity.
Qed.

Lemma upsert_leaves_other_products_alone_witness :
  exists db',
    sync_products.upsert_product (eng := sample_engine) sample_db
      [("asin", PStr "B00NEW"); ("brand_name", PStr "Apex")] = Ok db'
    /\ option_map length (products db') = Some 2%nat
    /\ daily_amazon_report.get_brand_name_from_db (eng := sample_engine)
         db' (PStr "B00TEST") = Ok "Acme".
Proof.
  destruct (sync_products.upsert_product (eng := sample_engine) sample_db
              [("asin", PStr "B00NEW"); ("brand_name", PStr "Apex")])
    as [db' | |] eqn:Hup; [| vm_compute in Hup; discriminate Hup ..].
  exists db'. split; [reflexivity |].
  destruct (upsert_leaves_other_products_alone (eng := sample_engine)
              sample_db db' (default [] (products sample_db))
              [("asin", PStr "B00NEW"); ("brand_name", PStr "Apex")]
              eq_refl Hup) as (tbl' & Ht & _ & _ & Hsel).
  specialize (Hsel "B00TEST" ltac:(vm_compute; discriminate)).
  vm_compute in Hup. injection Hup as <-.
  split; [reflexivity |].
  unfold daily_amazon_report.get_brand_name_from_db.
  rewrite Ht. cbn [bind_text bind]. rewrite Hsel. reflexivity.
Defined.

(** Upserting the same record a second time changes nothing. *)
Theorem upsert_is_idempotent {eng : Engine}
    (db db' : database) (p : dict) (k : string) :
  product_code p = Some k ->
  sync_products.upsert_product db p = Ok db' ->
  sync_products.upsert_product db' p = Ok db'.
Proof.
  intros Hk Hup.
  apply upsert_product_inv in Hup
    as [[Ht _] | (tbl & new & Ht & Hdb & -> & Hasin & _ & Hagain)].
  - unfold product_code in Hk. rewrite Ht in Hk. discriminate Hk.
  - assert (Hnew : asin new = Text k).
    { unfold product_code in Hk. rewrite Ht, Hasin in Hk.
      destruct (asin new); [discriminate Hk | injection Hk as ->; reflexivity]. }
    rewrite Hagain, (insert_or_update_idempotent new k tbl Hnew). reflexivity.
Qed.

Lemma upsert_is_idempotent_witness :
  exists db',
    sync_products.upsert_product (eng := sample_engine) sample_db
      (sample_product "Apex" "Hammer") = Ok db'
    /\ sync_products.upsert_product (eng := sample_engine) db'
         (sample_product "Apex" "Hammer") = Ok db'.
Proof.
  destruct (sync_products.upsert_product (eng := sample_engine) sample_db
              (sample_product "Apex" "Hammer"))
    as [db' | |] eqn:Hup; [| vm_compute in Hup; discriminate Hup ..].
  exists db'. split; [reflexivity |].
  exact (upsert_is_idempotent (eng := sample_engine) sample_db db'
           (sample_product "Apex" "Hammer") "B00TEST" eq_refl Hup).
Defined.

Lemma product_code_bound {eng : Engine} (p : dict) (k : string) :
  product_code p = Some k ->
  truthy (dict_get p "asin" PNone) = true
  /\ bind_text (dict_get p "asin" PNone) = Ok (Text k).
Proof.
  unfold product_code. destruct (truthy _); [| discriminate].
  destruct (bind_text _) as [[| k'] | |]; try discriminate.
  intros [= ->]. auto.
Qed.

(** Store, then look up: after a record has been upserted, the lookup the
    datafeed report makes with the record's product code returns the brand
    name that was stored for it ([brand_name], or else [brand], as text),
    and ["Unknown"] when the record had neither or an empty one. *)
Theorem stored_brand_is_found {eng : Engine} (db : database)
    (tbl : list product_row) (p : dict) (k : string) :
  products db = Some tbl -> product_code p = Some k -> storable p = true ->
  exists db' c,
    sync_products.upsert_product db p = Ok db'
    /\ bind_text (py_or (dict_get p "brand_name" PNone) (dict_get p "brand" PNone))
       = Ok c
    /\ daily_amazon_report.get_brand_name_from_db db' (dict_get p "asin" PNone)
       = Ok (match c with
             | Text s => if String.eqb s "" then "Unknown" else s
             | Null => "Unknown"
             end).
Proof.
  intros Hdb Hk Hs.
  destruct (upsert_product_stores db tbl p k Hdb Hk Hs)
    as (new & Hup & Hnew & _ & Hb & _).
  eexists _, (brand_name new). split; [exact Hup |]. split; [exact Hb |].
  unfold daily_amazon_report.get_brand_name_from_db. cbn [products].
  destruct (product_code_bound p k Hk) as [_ ->]. cbn [bind].
  destruct (select_insert_or_update new k tbl Hnew) as (row & Hsel & _ & Hrow & _).
  rewrite Hsel, Hrow. destruct (brand_name new) as [| s]; [reflexivity |].
  destruct (String.eqb s ""); reflexivity.
Qed.

Lemma stored_brand_is_found_witness :
  exists db',
    sync_products.upsert_product (eng := sample_engine) sample_db
      (sample_product "Apex" "Hammer") = Ok db'
    /\ daily_amazon_report.get_brand_name_from_db (eng := sample_engine)
         db' (PStr "B00TEST") = Ok "Apex".
Proof.
  destruct (stored_brand_is_found (eng := sample_engine) sample_db
              (default [] (products sample_db)) (sample_product "Apex" "Hammer")
              "B00TEST" eq_refl eq_refl eq_refl) as (db' & c & Hup & Hc & Hget).
  exists db'. split; [exact Hup |].
  vm_compute in Hc. injection Hc as <-. exact Hget.
Defined.

(** Records that carry no usable product code (no [asin], or [null], [""],
    [0], ...) are passed over without touching the database, even one that
    has no table; each still counts as processed. *)
Theorem records_without_code_are_counted_not_stored {eng : Engine}
    (db : database) (records : list pyval) (total_count : Z) :
  Forall (fun r => exists p, r = PDict p
                             /\ truthy (dict_get p "asin" PNone) = false)
         records ->
  sync_products.upsert_all db records total_count
  = Ok (db, total_count + Z.of_nat (length records)).
Proof.
  intros H. revert total_count.
  induction H as [| r records (p & -> & Hp) _ IH]; intros total_count.
  - cbn [sync_products.upsert_all length]. rewrite Z.add_0_r. reflexivity.
  - cbn [sync_products.upsert_all]. unfold sync_products.upsert_product.
    rewrite Hp. cbn [negb bind]. rewrite IH. do 2 f_equal.
    cbn [length]. lia.
Qed.

Lemma records_without_code_are_counted_not_stored_witness :
  sync_products.upsert_all (eng := sample_engine) {| products := None |}
    [PDict []; PDict [("asin", PStr "")]; PDict [("asin", PNone)]] 10
  = Ok ({| products := None |}, 13).
Proof.
  apply (records_without_code_are_counted_not_stored (eng := sample_engine)
           {| products := None |}
           [PDict []; PDict [("asin", PStr "")]; PDict [("asin", PNone)]] 10).
  repeat constructor; eexists; split; reflexivity.
Defined.

(** The count that [upsert_all] returns is the count it was given plus the
    number of records; the database it returns does not depend on it. *)
Lemma upsert_all_shift {eng : Engine} (records : list pyval) :
  forall (db : database) (n m : Z),
    sync_products.upsert_all db records m
    = match sync_products.upsert_all db records n with
      | Ok (db', n') => Ok (db', n' + (m - n))
      | Raise e => Raise e
      | Beyond l => Beyond l
      end.
Proof.
  induction records as [| r records IH]; intros db n m.
  - cbn [sync_products.upsert_all]. do 2 f_equal. lia.
  - cbn [sync_products.upsert_all]. destruct r; try reflexivity.
    destruct (sync_products.upsert_product db d) as [db1 | |];
      cbn [bind]; [| reflexivity ..].
    rewrite (IH db1 (n + 1) (m + 1)).
    destruct (sync_products.upsert_all db1 records (n + 1)) as [[db' n'] | |];
      [| reflexivity ..].
    do 2 f_equal. lia.
Qed.

Lemma upsert_all_count {eng : Engine} (records : list pyval) :
  forall (db db' : database) (n n' : Z),
    sync_products.upsert_all db records n = Ok (db', n') ->
    n' = n + Z.of_nat (length records).
Proof.
  induction records as [| r records IH]; intros db db' n n'.
  - cbn [sync_products.upsert_all length]. intros [= _ <-]. lia.
  - cbn [sync_products.upsert_all]. destruct r; try discriminate.
    destruct (sync_products.upsert_product db d) as [db1 | |];
      cbn [bind]; [| discriminate ..].
    intros H. apply IH in H. cbn [length]. lia.
Qed.

Lemma upsert_product_keeps {eng : Engine} (db db' : database)
    (tbl : list product_row) (p : dict) :
  products db = Some tbl ->
  sync_products.upsert_product db p = Ok db' ->
  exists tbl',
    products db' = Some tbl'
    /\ (primary_key_ok tbl = true -> primary_key_ok tbl' = true)
    /\ (asin <$> tbl) `prefix_of` (asin <$> tbl')
    /\ (length tbl' <= S (length tbl))%nat.
Proof.
  intros Hdb Hup.
  apply upsert_product_inv in Hup
    as [[_ ->] | (tbl0 & new & _ & Hdb0 & -> & _)].
  - exists tbl. rewrite Hdb. repeat split; auto.
  - rewrite Hdb in Hdb0. injection Hdb0 as <-.
    exists (insert_or_update new tbl). split; [reflexivity |].
    split; [apply primary_key_insert_or_update |].
    pose proof (keys_insert_or_update new tbl) as Hkeys.
    split.
    + rewrite Hkeys. destruct (existsb _ tbl); [reflexivity |].
      apply prefix_app_r. reflexivity.
    + apply (f_equal length) in Hkeys. rewrite length_fmap in Hkeys.
      rewrite Hkeys. destruct (existsb _ tbl);
        rewrite ?length_app, !length_fmap; cbn [length]; lia.
Qed.

(** What a run of upserts keeps: the table, its primary key, its keys in
    their order; and it adds at most one row per record. *)
Lemma upsert_all_keeps {eng : Engine} (records : list pyval) :
  forall (db db' : database) (tbl : list product_row) (n n' : Z),
    products db = Some tbl ->
    sync_products.upsert_all db records n = Ok (db', n') ->
    exists tbl',
      products db' = Some tbl'
      /\ (primary_key_ok tbl = true -> primary_key_ok tbl' = true)
      /\ (asin <$> tbl) `prefix_of` (asin <$> tbl')
      /\ (length tbl' <= length tbl + length records)%nat.
Proof.
  induction records as [| r records IH]; intros db db' tbl n n' Hdb.
  - cbn [sync_products.upsert_all]. intros [= <- _]. exists tbl.
    repeat split; auto. cbn [length]. lia.
  - cbn [sync_products.upsert_all]. destruct r; try discriminate.
    destruct (sync_products.upsert_product db d) as [db1 | |] eqn:Hup;
      cbn [bind]; [| discriminate ..].
    intros Hall.
    assert (H1 : exists tbl1,
               products db1 = Some tbl1
               /\ (primary_key_ok tbl = true -> primary_key_ok tbl1 = true)
               /\ (asin <$> tbl) `prefix_of` (asin <$> tbl1)
               /\ (length tbl1 <= S (length tbl))%nat).
    { destruct (upsert_product_keeps db db1 tbl d Hdb Hup)
        as (tbl1 & ? & ? & ? & ?). exists tbl1. auto. }
    destruct H1 as (tbl1 & Hdb1 & Hpk1 & Hpre1 & Hlen1).
    destruct (IH db1 db' tbl1 _ _ Hdb1 Hall) as (tbl' & Hdb' & Hpk' & Hpre' & Hlen').
    exists tbl'. split; [exact Hdb' |]. split; [auto |].
    split; [etransitivity; eassumption |]. cbn [length]. lia.
Qed.

(* ===================================================================== *)
(** ** The sync loop                                                      *)
(* ===================================================================== *)

Lemma listing_envelope_passes {rt : Runtime} (r : response) (blk : dict) :
  data_block r = Some blk ->
  exists env,
    sync_products.check_envelope r = Ok (PDict env)
    /\ dict_get env "data" (PDict []) = PDict blk.
Proof.
  intros H. apply envelope_passes in H as (env & st & Hj & Hst & Hc & Hd).
  exists env. split; [| exact Hd].
  unfold sync_products.check_envelope.
  rewrite Hj. cbn [bind py_get]. rewrite Hst. cbn [bind py_get]. rewrite Hc.
  reflexivity.
Qed.

Lemma listing_page_inv (r : response) (records : list pyval) (last : bool) :
  listing_page r = Some (records, last) ->
  exists blk,
    data_block r = Some blk
    /\ dict_lookup blk "list" = Some (PList records)
    /\ truthy (PList records) = true
    /\ last = sync_products.is_False (dict_get blk "has_more" PNone).
Proof.
  unfold listing_page. destruct (data_block r) as [blk |]; [| discriminate].
  destruct (dict_lookup blk "list") as [[| | | | | [| x l] |] |] eqn:Hl;
    try discriminate.
  intros [= <- <-]. exists blk. auto.
Qed.

Section SyncLoop.
Context {rt : Runtime} {eng : Engine}.
Variables (env : gmap string string) (token : string) (size : Z).
Hypothesis Henv : env !! TOKEN_ENV_NAME = Some token.
Hypothesis Htoken : token <> "".

(** One turn of the loop on a page that has records. *)
Lemma sync_step_listing (fuel : nat) (page n : Z) (db : database) (w : world)
    (r : response) (rest : list response) (records : list pyval) (last : bool) :
  pending w = r :: rest ->
  listing_page r = Some (records, last) ->
  sync_products.sync_pages (S fuel) env size page n db w
  = match sync_products.upsert_all db records n with
    | Ok (db', n') =>
        if last || (Z.of_nat (length records) <? size)
        then (Ok n', db',
              {| pending := rest;
                 sent := sent w ++ [sync_products.page_request token page size] |})
        else sync_products.sync_pages fuel env size (page + 1) n' db'
               {| pending := rest;
                  sent := sent w ++ [sync_products.page_request token page size] |}
    | Raise e =>
        (Raise e, db,
         {| pending := rest;
            sent := sent w ++ [sync_products.page_request token page size] |})
    | Beyond l =>
        (Beyond l, db,
         {| pending := rest;
            sent := sent w ++ [sync_products.page_request token page size] |})
    end.
Proof.
  intros Hw Hr.
  apply listing_page_inv in Hr as (blk & Hb & Hl & Htrue & ->).
  apply listing_envelope_passes in Hb as (body & Hcheck & Hd).
  cbn [sync_products.sync_pages]. unfold sync_products.fetch_fba_products_page.
  rewrite (get_token_present _ _ Henv Htoken). unfold post. rewrite Hw, Hcheck.
  cbn [bind]. unfold sync_products.store_page.
  cbn [py_get bind]. rewrite Hd. cbn [py_get bind].
  replace (dict_get blk "list" PNone) with (PList records)
    by (unfold dict_get; rewrite Hl; reflexivity).
  destruct records as [| x records']; [discriminate Htrue |].
  unfold py_or. cbn [truthy negb sync_products.records_of bind].
  destruct (sync_products.upsert_all db (x :: records') n) as [[db' n'] | |];
    cbn [bind]; [| reflexivity ..].
  destruct (_ || _); reflexivity.
Qed.

(** One turn of the loop on a page without records. *)
Lemma sync_step_empty (fuel : nat) (page n : Z) (db : database) (w : world)
    (r : response) (rest : list response) (blk : dict) :
  pending w = r :: rest ->
  data_block r = Some blk ->
  truthy (dict_get blk "list" PNone) = false ->
  truthy (dict_get blk "rows" PNone) = false ->
  sync_products.sync_pages (S fuel) env size page n db w
  = (Ok n, db,
     {| pending := rest;
        sent := sent w ++ [sync_products.page_request token page size] |}).
Proof.
  intros Hw Hb Hl Hrows.
  apply listing_envelope_passes in Hb as (body & Hcheck & Hd).
  cbn [sync_products.sync_pages]. unfold sync_products.fetch_fba_products_page.
  rewrite (get_token_present _ _ Henv Htoken). unfold post. rewrite Hw, Hcheck.
  cbn [bind]. unfold sync_products.store_page.
  cbn [py_get bind]. rewrite Hd. cbn [py_get bind].
  unfold py_or. rewrite Hl, Hrows. reflexivity.
Qed.

(** The loop over full pages that do not say [has_more = false]: each is
    stored and the next one is asked for. *)
Lemma sync_pages_continue (ps : list (list pyval)) :
  forall (fuel : nat) (page n : Z) (db db' : database) (w : world),
    listing_page <$> take (length ps) (pending w)
      = (fun records => Some (records, false)) <$> ps ->
    Forall (fun records => size <= Z.of_nat (length records)) ps ->
    commit_pages db ps = Ok db' ->
    sync_products.sync_pages (length ps + fuel) env size page n db w
    = sync_products.sync_pages fuel env size
        (page + Z.of_nat (length ps)) (n + Z.of_nat (length (concat ps))) db'
        {| pending := drop (length ps) (pending w);
           sent := sent w
                   ++ ((fun p => sync_products.page_request token p size)
                         <$> seqZ page (Z.of_nat (length ps))) |}.
Proof.
  induction ps as [| records ps IH]; intros fuel page n db db' w Hresp Hfull Hcommit.
  - cbn [commit_pages] in Hcommit. injection Hcommit as <-.
    cbn [length concat Nat.add]. change (Z.of_nat 0) with 0.
    change (seqZ page 0) with (@nil Z). cbn [fmap list_fmap].
    rewrite drop_0, !Z.add_0_r, !app_nil_r, world_eta. reflexivity.
  - destruct (pending w) as [| r rest] eqn:Hw; [discriminate Hresp |].
    cbn [length take fmap list_fmap] in Hresp. injection Hresp as Hr Hrest.
    apply Forall_cons in Hfull as [Hlen Hfull].
    cbn [commit_pages] in Hcommit.
    destruct (sync_products.upsert_all db records 0) as [[db1 m] | |] eqn:Hup;
      cbn [bind fst] in Hcommit; [| discriminate Hcommit ..].
    pose proof (upsert_all_count _ _ _ _ _ Hup) as Hm.
    cbn [length Nat.add].
    rewrite (sync_step_listing _ _ _ _ _ _ _ _ _ Hw Hr).
    rewrite (upsert_all_shift records db 0 n), Hup.
    cbn [orb]. destruct (Z.ltb_spec (Z.of_nat (length records)) size); [lia |].
    rewrite (IH fuel (page + 1) _ db1 db'
               {| pending := rest;
                  sent := sent w ++ [sync_products.page_request token page size] |}
               Hrest Hfull Hcommit).
    cbn [pending sent concat]. rewrite (skipn_cons (length ps)).
    rewrite (seqZ_cons page (Z.of_nat (S (length ps)))) by lia.
    cbn [fmap list_fmap].
    replace (Z.pred (Z.of_nat (S (length ps)))) with (Z.of_nat (length ps)) by lia.
    replace (page + 1 + Z.of_nat (length ps)) with (page + Z.of_nat (S (length ps)))
      by lia.
    replace (m + (n - 0) + Z.of_nat (length (concat ps)))
      with (n + Z.of_nat (length (records ++ concat ps)))
      by (rewrite length_app; lia).
    rewrite <- !app_assoc, Z.add_1_r. reflexivity.
Qed.

End SyncLoop.

Lemma commit_pages_app {eng : Engine} (ps : list (list pyval)) (last : list pyval) :
  forall (db db' : database),
    commit_pages db (ps ++ [last]) = Ok db' ->
    exists db1,
      commit_pages db ps = Ok db1
      /\ sync_products.upsert_all db1 last 0 = Ok (db', Z.of_nat (length last)).
Proof.
  induction ps as [| records ps IH]; intros db db'; cbn [app commit_pages].
  - destruct (sync_products.upsert_all db last 0) as [[db1 m] | |] eqn:Hup;
      cbn [bind fst]; [| discriminate ..].
    intros [= <-]. exists db. split; [reflexivity |].
    rewrite Hup. apply upsert_all_count in Hup as ->. reflexivity.
  - destruct (sync_products.upsert_all db records 0) as [[db1 m] | |];
      cbn [bind fst]; [| discriminate ..].
    apply IH.
Qed.

Lemma commit_pages_keeps {eng : Engine} (ps : list (list pyval)) :
  forall (db db' : database) (tbl : list product_row),
    products db = Some tbl ->
    commit_pages db ps = Ok db' ->
    exists tbl',
      products db' = Some tbl'
      /\ (primary_key_ok tbl = true -> primary_key_ok tbl' = true)
      /\ (asin <$> tbl) `prefix_of` (asin <$> tbl').
Proof.
  induction ps as [| records ps IH]; intros db db' tbl Hdb; cbn [commit_pages].
  - intros [= <-]. exists tbl. auto.
  - destruct (sync_products.upsert_all db records 0) as [[db1 m] | |] eqn:Hup;
      cbn [bind fst]; [| discriminate ..].
    intros Hrest.
    destruct (upsert_all_keeps records db db1 tbl 0 m Hdb Hup)
      as (tbl1 & Hdb1 & Hpk1 & Hpre1 & _).
    destruct (IH db1 db' tbl1 Hdb1 Hrest) as (tbl' & Hdb' & Hpk' & Hpre').
    exists tbl'. split; [exact Hdb' |]. split; [auto |].
    etransitivity; eassumption.
Qed.

Lemma init_db_table (db : database) :
  products (sync_products.init_db db) = Some (default [] (products db)).
Proof. unfold sync_products.init_db. destruct db as [[tbl |]]; reflexivity. Qed.

(** A whole run of [sync_products].  Let the first pages be full pages
    (at least [page_size] records) whose [has_more] is not [false], and let
    the page after them be the last: short, or saying [has_more = false],
    or without records.  If every record can be stored, the sync asks for
    each of these pages once, stores them all, and reports as processed
    the number of records received; the other three numbers describe the
    table it leaves. *)
Theorem sync_stores_every_page_until_the_last {rt : Runtime} {eng : Engine}
    (env : gmap string string) (token : string) (size : Z)
    (db db' : database) (w : world) (ps : list (list pyval))
    (r : response) (last : list pyval) (fuel : nat) :
  env !! TOKEN_ENV_NAME = Some token -> token <> "" ->
  listing_page <$> take (length ps) (pending w)
    = (fun records => Some (records, false)) <$> ps ->
  Forall (fun records => size <= Z.of_nat (length records)) ps ->
  pending w !! length ps = Some r ->
  (last = []
   /\ exists blk, data_block r = Some blk
                  /\ truthy (dict_get blk "list" PNone) = false
                  /\ truthy (dict_get blk "rows" PNone) = false)
  \/ (exists stop, listing_page r = Some (last, stop)
                   /\ (stop = true \/ Z.of_nat (length last) < size)) ->
  commit_pages (sync_products.init_db db) (ps ++ [last]) = Ok db' ->
  (length ps < fuel)%nat ->
  exists tbl',
    products db' = Some tbl'
    /\ sync_products.sync_products fuel env size db w
       = (Ok {| sync_products.processed :=
                  Z.of_nat (length (concat ps) + length last);
                sync_products.db_total := Z.of_nat (length tbl');
                sync_products.distinct_brand_id :=
                  Z.of_nat (count_distinct (brand_id <$> tbl'));
                sync_products.distinct_brand_name :=
                  Z.of_nat (count_distinct (brand_name <$> tbl')) |},
          db',
          {| pending := drop (S (length ps)) (pending w);
             sent := sent w
                     ++ ((fun p => sync_products.page_request token p size)
                           <$> seqZ 1 (Z.of_nat (S (length ps)))) |}).
Proof.
  intros Henv Htoken Hresp Hfull Hr Hlast Hcommit Hfuel.
  destruct (commit_pages_keeps _ _ _ _ (init_db_table db) Hcommit)
    as (tbl' & Hdb' & _).
  exists tbl'. split; [exact Hdb' |].
  apply commit_pages_app in Hcommit as (db1 & Hps & Hup).
  unfold sync_products.sync_products.
  replace fuel with (length ps + S (fuel - length ps - 1))%nat by lia.
  rewrite (sync_pages_continue env token size Henv Htoken ps _ 1 0 _ db1 w
             Hresp Hfull Hps).
  assert (Hseq : ((fun p => sync_products.page_request token p size)
                    <$> seqZ 1 (Z.of_nat (length ps)))
                 ++ [sync_products.page_request token (1 + Z.of_nat (length ps)) size]
                 = (fun p => sync_products.page_request token p size)
                     <$> seqZ 1 (Z.of_nat (S (length ps))))
    by (rewrite seqZ_S, fmap_app; reflexivity).
  destruct Hlast as [[-> (blk & Hb & Hl & Hrows)] | (stop & Hpage & Hstop)].
  - cbn [sync_products.upsert_all] in Hup. injection Hup as <-.
    rewrite (sync_step_empty env token size Henv Htoken _ _ _ _
               {| pending := drop (length ps) (pending w); sent := _ |}
               r (drop (S (length ps)) (pending w)) blk
               (drop_S _ _ _ Hr) Hb Hl Hrows).
    cbn [sent]. rewrite Hdb', <- (app_assoc (sent w)), Hseq.
    cbn [length]. rewrite Nat.add_0_r, Z.add_0_l. reflexivity.
  - rewrite (sync_step_listing env token size Henv Htoken _ _ _ _
               {| pending := drop (length ps) (pending w); sent := _ |}
               r (drop (S (length ps)) (pending w)) last stop
               (drop_S _ _ _ Hr) Hpage).
    rewrite (upsert_all_shift last db1 0 (0 + Z.of_nat (length (concat ps)))), Hup.
    assert (Hends : stop || (Z.of_nat (length last) <? size) = true).
    { destruct Hstop as [-> | Hshort]; [reflexivity |].
      apply orb_true_iff. right. apply Z.ltb_lt. exact Hshort. }
    rewrite Hends. cbn [sent]. rewrite Hdb', <- (app_assoc (sent w)), Hseq.
    do 3 f_equal. rewrite Nat2Z.inj_add. f_equal; lia.
Qed.

Lemma sync_stores_every_page_until_the_last_witness :
  exists db' w',
    sync_products.sync_products (rt := digits_runtime) (eng := sample_engine)
      5 sample_env 2 {| products := None |}
      {| pending := sample_listing; sent := [] |}
    = (Ok {| sync_products.processed := 3;
             sync_products.db_total := 2;
             sync_products.distinct_brand_id := 1;
             sync_products.distinct_brand_name := 2 |}, db', w')
    /\ length (sent w') = 2%nat
    /\ daily_amazon_report.get_brand_name_from_db (eng := sample_engine)
         db' (PStr "B00NEW") = Ok "Zenith".
Proof.
  destruct (sync_stores_every_page_until_the_last
               (rt := digits_runtime) (eng := sample_engine)
               sample_env "secret" 2 {| products := None |}
               {| products :=
                    Some [{| asin := Text "B00TEST"; brand_id := Text "17";
                             brand_name := Text "Acme"; title := Text "Anvil";
                             country_code := Text "US" |};
                          {| asin := Text "B00NEW"; brand_id := Null;
                             brand_name := Text "Zenith"; title := Null;
                             country_code := Null |}] |}
               {| pending := sample_listing; sent := [] |}
               [[PDict (sample_product "Acme" "Anvil");
                 PDict [("asin", PStr "B00NEW"); ("brand", PStr "Apex")]]]
               (sample_page [PDict [("asin", PStr "B00NEW");
                                    ("brand_name", PStr "Zenith")]] [])
               [PDict [("asin", PStr "B00NEW"); ("brand_name", PStr "Zenith")]] 5)
    as (tbl' & Htbl & Hrun).
  - reflexivity.
  - discriminate.
  - reflexivity.
  - constructor; [vm_compute; discriminate | constructor].
  - reflexivity.
  - right. exists false. split; [reflexivity | right; reflexivity].
  - vm_compute. reflexivity.
  - simpl. lia.
  - rewrite Hrun. cbn [products] in Htbl. injection Htbl as <-.
    eexists _, _. split; [reflexivity |]. split; reflexivity.
Defined.

(** A page is stored whole or not at all.  When the pages before were
    stored and a record of the next page cannot be stored, the error
    escapes and the database is the one left by the pages before: the
    records of the failing page that came before the bad one are not in
    it. *)
Theorem failed_page_is_not_stored {rt : Runtime} {eng : Engine}
    (env : gmap string string) (token : string) (size : Z)
    (db db1 : database) (w : world) (ps : list (list pyval))
    (r : response) (records : list pyval) (stop : bool) (e : exn) (fuel : nat) :
  env !! TOKEN_ENV_NAME = Some token -> token <> "" ->
  listing_page <$> take (length ps) (pending w)
    = (fun records => Some (records, false)) <$> ps ->
  Forall (fun records => size <= Z.of_nat (length records)) ps ->
  pending w !! length ps = Some r ->
  listing_page r = Some (records, stop) ->
  commit_pages (sync_products.init_db db) ps = Ok db1 ->
  sync_products.upsert_all db1 records 0 = Raise e ->
  (length ps < fuel)%nat ->
  sync_products.sync_products fuel env size db w
  = (Raise e, db1,
     {| pending := drop (S (length ps)) (pending w);
        sent := sent w
                ++ ((fun p => sync_products.page_request token p size)
                      <$> seqZ 1 (Z.of_nat (S (length ps)))) |}).
Proof.
  intros Henv Htoken Hresp Hfull Hr Hpage Hps Hup Hfuel.
  unfold sync_products.sync_products.
  replace fuel with (length ps + S (fuel - length ps - 1))%nat by lia.
  rewrite (sync_pages_continue env token size Henv Htoken ps _ 1 0 _ db1 w
             Hresp Hfull Hps).
  rewrite (sync_step_listing env token size Henv Htoken _ _ _ _
             {| pending := drop (length ps) (pending w); sent := _ |}
             r (drop (S (length ps)) (pending w)) records stop
             (drop_S _ _ _ Hr) Hpage).
  rewrite (upsert_all_shift records db1 0 (0 + Z.of_nat (length (concat ps)))), Hup.
  cbn [sent]. rewrite <- (app_assoc (sent w)).
  replace (((fun p => sync_products.page_request token p size)
              <$> seqZ 1 (Z.of_nat (length ps)))
           ++ [sync_products.page_request token (1 + Z.of_nat (length ps)) size])
    with ((fun p => sync_products.page_request token p size)
            <$> seqZ 1 (Z.of_nat (S (length ps))))
    by (rewrite seqZ_S, fmap_app; reflexivity).
  reflexivity.
Qed.

Lemma failed_page_is_not_stored_witness :
  exists w',
    sync_products.sync_products (rt := digits_runtime) (eng := sample_engine)
      5 sample_env 2 {| products := None |}
      {| pending := [sample_bad_page]; sent := [] |}
    = (Raise InterfaceError, {| products := Some [] |}, w').
Proof.
  eexists.
  apply (failed_page_is_not_stored (rt := digits_runtime) (eng := sample_engine)
           sample_env "secret" 2 {| products := None |} {| products := Some [] |}
           {| pending := [sample_bad_page]; sent := [] |} [] sample_bad_page
           [PDict (sample_product "Acme" "Anvil");
            PDict [("asin", PStr "B00BAD"); ("brand_id", PList [])]]
           false InterfaceError 5).
  - reflexivity.
  - discriminate.
  - reflexivity.
  - constructor.
  - reflexivity.
  - reflexivity.
  - reflexivity.
  - reflexivity.
  - simpl. lia.
Defined.

Lemma store_page_inv {eng : Engine} (data : pyval) (size : Z) (db db' : database)
    (n n' : Z) (c : sync_products.sync_ctl) :
  sync_products.store_page data size db n = Ok (c, db', n') ->
  (db' = db /\ n' = n)
  \/ exists records, sync_products.upsert_all db records n = Ok (db', n').
Proof.
  unfold sync_products.store_page.
  destruct (py_get data "data" (PDict [])) as [data_block | |];
    cbn [bind]; [| discriminate ..].
  destruct (py_get data_block "list" PNone) as [by_list | |];
    cbn [bind]; [| discriminate ..].
  destruct (py_get data_block "rows" PNone) as [by_rows | |];
    cbn [bind]; [| discriminate ..].
  destruct (negb _); [intros [= _ <- <-]; left; auto |].
  destruct (sync_products.records_of _) as [records | |];
    cbn [bind]; [| discriminate ..].
  destruct (sync_products.upsert_all db records n) as [[db1 n1] | |] eqn:Hup;
    cbn [bind]; [| discriminate ..].
  destruct (py_get data_block "has_more" PNone) as [has_more | |];
    cbn [bind]; [| discriminate ..].
  destruct (_ || _); intros [= _ <- <-]; right; eauto.
Qed.

Lemma length_remove_dups (l : list string) :
  (length (remove_dups l) <= length l)%nat.
Proof.
  induction l as [| x l IH]; cbn [remove_dups length]; [lia |].
  destruct (decide_rel elem_of x l); cbn [length]; lia.
Qed.

Lemma count_distinct_le (cells : list cell) :
  (count_distinct cells <= length cells)%nat.
Proof.
  unfold count_distinct. etransitivity; [apply length_remove_dups |].
  unfold texts. induction cells as [| c cells IH]; cbn [omap list_omap length];
    [lia |].
  destruct c; cbn [length]; lia.
Qed.

(** What the loop of [sync_products] keeps, however it ends. *)
Lemma sync_pages_keeps {rt : Runtime} {eng : Engine} (env : gmap string string)
    (size : Z) (fuel : nat) :
  forall (page n : Z) (db : database) (w : world) (tbl : list product_row)
         (o : outcome Z) (db' : database) (w' : world),
    products db = Some tbl ->
    sync_products.sync_pages fuel env size page n db w = (o, db', w') ->
    exists tbl',
      products db' = Some tbl'
      /\ (primary_key_ok tbl = true -> primary_key_ok tbl' = true)
      /\ (asin <$> tbl) `prefix_of` (asin <$> tbl')
      /\ forall n', o = Ok n' ->
                    n <= n' /\ Z.of_nat (length tbl') <= Z.of_nat (length tbl) + (n' - n).
Proof.
  induction fuel as [| fuel IH]; intros page n db w tbl o db' w' Hdb.
  - cbn [sync_products.sync_pages]. intros [= <- <- <-].
    exists tbl. split; [exact Hdb |]. split; [auto |]. split; [reflexivity |].
    discriminate.
  - cbn [sync_products.sync_pages].
    destruct (sync_products.fetch_fba_products_page env page size w)
      as [fetched w1].
    destruct fetched as [data | e | l]; cbn [bind];
      [| intros [= <- <- <-]; exists tbl;
         (split; [exact Hdb |]); (split; [auto |]); (split; [reflexivity |]);
         discriminate ..].
    destruct (sync_products.store_page data size db n)
      as [[[c db1] n1] | e | l] eqn:Hstore;
      [| intros [= <- <- <-]; exists tbl;
         (split; [exact Hdb |]); (split; [auto |]); (split; [reflexivity |]);
         discriminate ..].
    assert (H1 : exists tbl1,
               products db1 = Some tbl1
               /\ (primary_key_ok tbl = true -> primary_key_ok tbl1 = true)
               /\ (asin <$> tbl) `prefix_of` (asin <$> tbl1)
               /\ n <= n1
               /\ Z.of_nat (length tbl1) <= Z.of_nat (length tbl) + (n1 - n)).
    { apply store_page_inv in Hstore as [[-> ->] | [records Hup]].
      - exists tbl. repeat split; auto; lia.
      - pose proof (upsert_all_count _ _ _ _ _ Hup) as Hn1.
        destruct (upsert_all_keeps records db db1 tbl n n1 Hdb Hup)
          as (tbl1 & ? & ? & ? & ?).
        exists tbl1. repeat split; auto; lia. }
    destruct H1 as (tbl1 & Hdb1 & Hpk1 & Hpre1 & Hn1 & Hlen1).
    destruct c.
    + intros [= <- <- <-]. exists tbl1.
      split; [exact Hdb1 |]. split; [exact Hpk1 |]. split; [exact Hpre1 |].
      intros n' [= <-]. split; assumption.
    + intros Hrec.
      destruct (IH _ _ _ _ tbl1 _ _ _ Hdb1 Hrec) as (tbl' & Hdb' & Hpk' & Hpre' & Hn').
      exists tbl'. split; [exact Hdb' |]. split; [auto |].
      split; [etransitivity; eassumption |].
      intros n' Ho. destruct (Hn' n' Ho). lia.
Qed.

(** However a run of [sync_products] ends (with its summary, with an
    exception, or out of fuel), the table exists afterwards, no key that
    was in it is gone or moved, and the primary key still holds if it held
    before.  When the run ends normally, the total it reports is the number
    of rows of the table, neither distinct count exceeds it, and the table
    has grown by no more rows than records were processed. *)
Theorem sync_keeps_the_table_sound {rt : Runtime} {eng : Engine}
    (fuel : nat) (env : gmap string string) (size : Z) (db : database) (w : world) :
  let '(o, db', w') := sync_products.sync_products fuel env size db w in
  let tbl := default [] (products db) in
  exists tbl',
    products db' = Some tbl'
    /\ (primary_key_ok tbl = true -> primary_key_ok tbl' = true)
    /\ (asin <$> tbl) `prefix_of` (asin <$> tbl')
    /\ forall s, o = Ok s ->
         sync_products.db_total s = Z.of_nat (length tbl')
         /\ 0 <= sync_products.distinct_brand_id s <= sync_products.db_total s
         /\ 0 <= sync_products.distinct_brand_name s <= sync_products.db_total s
         /\ 0 <= sync_products.processed s
         /\ sync_products.db_total s
            <= Z.of_nat (length tbl) + sync_products.processed s.
Proof.
  unfold sync_products.sync_products.
  destruct (sync_products.sync_pages fuel env size 1 0 (sync_products.init_db db) w)
    as [[o1 db1] w1] eqn:Hrun.
  destruct (sync_pages_keeps env size fuel _ _ _ _ _ _ _ _ (init_db_table db) Hrun)
    as (tbl' & Hdb' & Hpk & Hpre & Hn).
  destruct o1 as [n' | e | l]; [rewrite Hdb' | |];
    cbv zeta; exists tbl'; (split; [exact Hdb' |]); (split; [exact Hpk |]);
    (split; [exact Hpre |]); [| discriminate ..].
  intros s [= <-]. cbn.
  destruct (Hn n' eq_refl) as [Hpos Hlen].
  pose proof (count_distinct_le (brand_id <$> tbl')) as H1.
  pose proof (count_distinct_le (brand_name <$> tbl')) as H2.
  rewrite length_fmap in H1, H2. repeat split; lia.
Qed.

(* ===================================================================== *)
(** ** More on the aggregations                                           *)
(* ===================================================================== *)

Lemma total_orders_insert (result : gmap string stats) (b : string) (s : stats) :
  daily_transaction_report.total_orders (<[b := s]> result)
  = daily_transaction_report.total_orders result
    - orders (entry result b) + orders s.
Proof.
  unfold daily_transaction_report.total_orders, entry.
  destruct (result !! b) as [s0 |] eqn:Hb; simpl.
  - rewrite <- (insert_delete_eq result b s).
    rewrite map_fold_insert_L; [| intros; lia | apply lookup_delete_eq].
    rewrite (map_fold_delete_L _ _ b s0 result); [| intros; lia | exact Hb].
    lia.
  - rewrite map_fold_insert_L; [| intros; lia | exact Hb]. lia.
Qed.

Section Aggregations.
Context {rt : Runtime} {eng : Engine}.

Lemma transaction_aggregate_app (pre rest : list dict) :
  forall result,
    daily_transaction_report.aggregate_from result (pre ++ rest)
    = (r <- daily_transaction_report.aggregate_from result pre ;;
       daily_transaction_report.aggregate_from r rest).
Proof.
  induction pre as [| t pre IH]; intros result; [reflexivity |].
  cbn [app daily_transaction_report.aggregate_from].
  destruct (daily_transaction_report.add_row result t); cbn [bind];
    [apply IH | reflexivity ..].
Qed.

Lemma datafeed_aggregate_app (db : database) (pre rest : list dict) :
  forall result,
    daily_amazon_report.aggregate_from db result (pre ++ rest)
    = (r <- daily_amazon_report.aggregate_from db result pre ;;
       daily_amazon_report.aggregate_from db r rest).
Proof.
  induction pre as [| t pre IH]; intros result; [reflexivity |].
  cbn [app daily_amazon_report.aggregate_from].
  destruct (daily_amazon_report.add_row db result t); cbn [bind];
    [apply IH | reflexivity ..].
Qed.

(** One transaction: one more order in all, and its brand among the
    keys. *)
Lemma transaction_row_total (result result' : gmap string stats) (t : dict) :
  daily_transaction_report.add_row result t = Ok result' ->
  daily_transaction_report.total_orders result'
    = daily_transaction_report.total_orders result + 1
  /\ exists b, merchant_brand t = Ok b /\ dom result' = {[ b ]} ∪ dom result.
Proof.
  unfold daily_transaction_report.add_row, merchant_brand.
  destruct (daily_transaction_report.amount t "sale_amount"); [| discriminate ..].
  destruct (daily_transaction_report.amount t "sale_comm"); [| discriminate ..].
  destruct (brand_key _) as [brand | |]; [| discriminate ..].
  cbn [bind]. intros [= <-]. rewrite total_orders_insert. cbn [orders].
  split; [lia |]. exists brand. split; [reflexivity | apply dom_insert_L].
Qed.

Lemma transaction_aggregate_total (txs : list dict) :
  forall result m,
    daily_transaction_report.aggregate_from result txs = Ok m ->
    daily_transaction_report.total_orders m
      = daily_transaction_report.total_orders result + Z.of_nat (length txs)
    /\ forall b, b ∈ dom m
                 <-> b ∈ dom result \/ exists t, t ∈ txs /\ merchant_brand t = Ok b.
Proof.
  induction txs as [| t txs IH]; intros result m.
  - cbn [daily_transaction_report.aggregate_from length]. intros [= <-].
    split; [lia |]. intros b. split; [auto |].
    intros [H | (t & Ht & _)]; [exact H |]. inversion Ht.
  - cbn [daily_transaction_report.aggregate_from].
    destruct (daily_transaction_report.add_row result t) as [result' | |] eqn:Hrow;
      cbn [bind]; [| discriminate ..].
    intros Hrest. apply transaction_row_total in Hrow as (Htot & brand & Hb & Hdom).
    destruct (IH _ _ Hrest) as [Htot' Hdom'].
    split; [cbn [length]; lia |].
    intros b. rewrite Hdom', Hdom, elem_of_union, elem_of_singleton. split.
    + intros [[-> | H] | (t' & Ht' & Hb')]; [right | left | right].
      * exists t. split; [left | exact Hb].
      * exact H.
      * exists t'. split; [right; exact Ht' | exact Hb'].
    + intros [H | (t' & Ht' & Hb')]; [left; right; exact H |].
      apply elem_of_cons in Ht' as [-> | Ht'].
      * left. left. congruence.
      * right. exists t'. auto.
Qed.

(** The aggregate of transaction mode covers its input: the orders of all
    brands add up to the number of transactions, as the first tile of the
    HTML report shows them, and the brands that have an entry are exactly
    those some transaction is filed under. *)
Theorem transaction_aggregate_covers_the_rows (txs : list dict)
    (m : gmap string stats) :
  daily_transaction_report.aggregate_by_brand txs = Ok m ->
  daily_transaction_report.total_orders m = Z.of_nat (length txs)
  /\ forall b, b ∈ dom m <-> exists t, t ∈ txs /\ merchant_brand t = Ok b.
Proof.
  intros H. apply transaction_aggregate_total in H as [Htot Hdom].
  split; [exact Htot |].
  intros b. rewrite Hdom, dom_empty_L. split; [| auto].
  intros [H | H]; [apply elem_of_empty in H; contradiction | exact H].
Qed.

(** Whether a row can be added does not depend on what was gathered. *)
Lemma transaction_row_succeeds (result result' r0 : gmap string stats) (t : dict) :
  daily_transaction_report.add_row result t = Ok result' ->
  exists r0', daily_transaction_report.add_row r0 t = Ok r0'.
Proof.
  unfold daily_transaction_report.add_row.
  destruct (daily_transaction_report.amount t "sale_amount"); [| discriminate ..].
  destruct (daily_transaction_report.amount t "sale_comm"); [| discriminate ..].
  destruct (brand_key _) as [brand | |]; [| discriminate ..].
  cbn [bind]. eauto.
Qed.

Lemma datafeed_row_succeeds (db : database) (result result' r0 : gmap string stats)
    (r : dict) :
  daily_amazon_report.add_row db result r = Ok result' ->
  exists r0', daily_amazon_report.add_row db r0 r = Ok r0'.
Proof.
  unfold daily_amazon_report.add_row.
  destruct (daily_amazon_report.resolve_brand db r); [| discriminate ..].
  cbn [bind].
  destruct (gt_zero _); [| discriminate ..]. cbn [bind].
  destruct (py_float _); [| discriminate ..]. cbn [bind].
  destruct (py_float _); [| discriminate ..]. cbn [bind].
  eauto.
Qed.

Lemma transaction_aggregate_ok (txs : list dict) :
  forall result,
    (exists m, daily_transaction_report.aggregate_from result txs = Ok m)
    <-> Forall (fun t => exists r, daily_transaction_report.add_row ∅ t = Ok r) txs.
Proof.
  induction txs as [| t txs IH]; intros result.
  - split; [constructor | intros _; eexists; reflexivity].
  - cbn [daily_transaction_report.aggregate_from]. split.
    + intros [m H].
      destruct (daily_transaction_report.add_row result t) as [result' | |] eqn:Hrow;
        cbn [bind] in H; [| discriminate H ..].
      constructor; [exact (transaction_row_succeeds _ _ ∅ _ Hrow) |].
      apply (IH result'). eauto.
    + intros H. apply Forall_cons in H as [[r Hr] H].
      destruct (transaction_row_succeeds _ _ result _ Hr) as [result' ->].
      cbn [bind]. apply IH, H.
Qed.

Lemma datafeed_aggregate_ok (db : database) (rows : list dict) :
  forall result,
    (exists m, daily_amazon_report.aggregate_from db result rows = Ok m)
    <-> Forall (fun r => exists r', daily_amazon_report.add_row db ∅ r = Ok r') rows.
Proof.
  induction rows as [| t rows IH]; intros result.
  - split; [constructor | intros _; eexists; reflexivity].
  - cbn [daily_amazon_report.aggregate_from]. split.
    + intros [m H].
      destruct (daily_amazon_report.add_row db result t) as [result' | |] eqn:Hrow;
        cbn [bind] in H; [| discriminate H ..].
      constructor; [exact (datafeed_row_succeeds _ _ _ ∅ _ Hrow) |].
      apply (IH result'). eauto.
    + intros H. apply Forall_cons in H as [[r Hr] H].
      destruct (datafeed_row_succeeds _ _ _ result _ Hr) as [result' ->].
      cbn [bind]. apply IH, H.
Qed.

Lemma datafeed_aggregate_dom (db : database) (rows : list dict) :
  forall result m,
    daily_amazon_report.aggregate_from db result rows = Ok m ->
    forall b, b ∈ dom m
              <-> b ∈ dom result
                  \/ exists r, r ∈ rows /\ daily_amazon_report.resolve_brand db r = Ok b.
Proof.
  induction rows as [| r rows IH]; intros result m.
  - cbn [daily_amazon_report.aggregate_from]. intros [= <-] b.
    split; [auto |]. intros [H | (t & Ht & _)]; [exact H |]. inversion Ht.
  - cbn [daily_amazon_report.aggregate_from].
    destruct (daily_amazon_report.add_row db result r) as [result' | |] eqn:Hrow;
      cbn [bind]; [| discriminate ..].
    intros Hrest b.
    destruct (daily_amazon_report.resolve_brand db r) as [brand | |] eqn:Hbrand;
      [| unfold daily_amazon_report.add_row in Hrow; rewrite Hbrand in Hrow;
         discriminate Hrow ..].
    pose proof (datafeed_aggregate_keys db result result' r brand Hbrand Hrow) as Hdom.
    rewrite (IH _ _ Hrest b), Hdom, elem_of_union, elem_of_singleton. split.
    + intros [[-> | H] | (t' & Ht' & Hb')]; [right | left | right].
      * exists r. split; [left | exact Hbrand].
      * exact H.
      * exists t'. split; [right; exact Ht' | exact Hb'].
    + intros [H | (t' & Ht' & Hb')]; [left; right; exact H |].
      apply elem_of_cons in Ht' as [-> | Ht'].
      * left. left. congruence.
      * right. exists t'. auto.
Qed.

End Aggregations.

Lemma filter_length_Permutation {A} (f : A -> bool) (l l' : list A) :
  l ≡ₚ l' -> length (List.filter f l) = length (List.filter f l').
Proof.
  induction 1 as [| x l l' _ IH | x y l | l l' l'' _ IH1 _ IH2];
    cbn [List.filter].
  - reflexivity.
  - destruct (f x); cbn [length]; congruence.
  - destruct (f x), (f y); reflexivity.
  - congruence.
Qed.

(** The order counts and the set of brands do not depend on the order of
    the rows: if the rows aggregate, so do they in any other order, to the
    same brands with the same order counts.  (The two sums are another
    matter, see below.) *)
Theorem orders_do_not_depend_on_row_order {rt : Runtime} {eng : Engine} :
  (forall (txs txs' : list dict) (m : gmap string stats),
     txs ≡ₚ txs' ->
     daily_transaction_report.aggregate_by_brand txs = Ok m ->
     exists m',
       daily_transaction_report.aggregate_by_brand txs' = Ok m'
       /\ dom m' = dom m
       /\ forall b, orders_of m' b = orders_of m b)
  /\ (forall (db : database) (rows rows' : list dict) (m : gmap string stats),
        rows ≡ₚ rows' ->
        daily_amazon_report.aggregate_by_brand db rows = Ok m ->
        exists m',
          daily_amazon_report.aggregate_by_brand db rows' = Ok m'
          /\ dom m' = dom m
          /\ forall b, orders_of m' b = orders_of m b).
Proof.
  split.
  - intros txs txs' m Hp H.
    unfold daily_transaction_report.aggregate_by_brand in *.
    assert (Hok : exists m', daily_transaction_report.aggregate_from ∅ txs' = Ok m').
    { apply transaction_aggregate_ok. rewrite <- Hp.
      apply (transaction_aggregate_ok txs ∅). eauto. }
    destruct Hok as [m' H']. exists m'. split; [exact H' |]. split.
    + apply set_eq. intros b.
      destruct (transaction_aggregate_total _ _ _ H) as [_ Hd].
      destruct (transaction_aggregate_total _ _ _ H') as [_ Hd'].
      rewrite Hd, Hd'. setoid_rewrite Hp. reflexivity.
    + intros b.
      rewrite (transaction_orders_from txs' ∅ m' H' b),
        (transaction_orders_from txs ∅ m H b).
      rewrite (filter_length_Permutation _ _ _ Hp). reflexivity.
  - intros db rows rows' m Hp H.
    unfold daily_amazon_report.aggregate_by_brand in *.
    assert (Hok : exists m', daily_amazon_report.aggregate_from db ∅ rows' = Ok m').
    { apply datafeed_aggregate_ok. rewrite <- Hp.
      apply (datafeed_aggregate_ok db rows ∅). eauto. }
    destruct Hok as [m' H']. exists m'. split; [exact H' |]. split.
    + apply set_eq. intros b.
      rewrite (datafeed_aggregate_dom db _ _ _ H b),
        (datafeed_aggregate_dom db _ _ _ H' b).
      setoid_rewrite Hp. reflexivity.
    + intros b.
      rewrite (datafeed_orders_from db rows' ∅ m' H' b),
        (datafeed_orders_from db rows ∅ m H b).
      rewrite (filter_length_Permutation _ _ _ Hp). reflexivity.
Qed.

Lemma orders_do_not_depend_on_row_order_witness :
  exists m',
    daily_transaction_report.aggregate_by_brand (rt := digits_runtime)
      (rev sample_transactions) = Ok m'
    /\ orders_of m' "Acme" = 2 /\ orders_of m' "Unknown" = 1.
Proof.
  destruct (daily_transaction_report.aggregate_by_brand (rt := digits_runtime)
              sample_transactions) as [m | |] eqn:H;
    [| vm_compute in H; discriminate H ..].
  destruct (orders_do_not_depend_on_row_order
              (rt := digits_runtime) (eng := sample_engine)) as [Htx _].
  destruct (Htx sample_transactions (rev sample_transactions) m
              (Permutation_rev _) H) as (m' & H' & _ & Hord).
  exists m'. split; [exact H' |].
  rewrite !Hord. vm_compute in H. injection H as <-.
  split; reflexivity.
Defined.

Lemma transaction_aggregate_covers_the_rows_witness :
  exists m,
    daily_transaction_report.aggregate_by_brand (rt := digits_runtime)
      sample_transactions = Ok m
    /\ daily_transaction_report.total_orders m = 3
    /\ "Unknown" ∈ dom m.
Proof.
  destruct (daily_transaction_report.aggregate_by_brand (rt := digits_runtime)
              sample_transactions) as [m | |] eqn:H;
    [| vm_compute in H; discriminate H ..].
  exists m. split; [reflexivity |].
  destruct (transaction_aggregate_covers_the_rows (rt := digits_runtime)
              sample_transactions m H) as [Htot Hdom].
  split; [exact Htot |].
  apply Hdom. exists [("merchant_name", PStr "")].
  split; [| reflexivity]. unfold sample_transactions.
  right. right. left.
Defined.

(** The sums, unlike the order counts, depend on the order of the rows:
    floating-point addition is not associative.  Three transactions of one
    brand, with the sale amounts 1e16, 1.0 and -1e16, add up to 0.0 in
    that order and to 1.0 when the second and third are exchanged. *)
Theorem sales_depend_on_row_order {rt : Runtime} :
  exists (txs txs' : list dict) (m m' : gmap string stats),
    txs ≡ₚ txs'
    /\ daily_transaction_report.aggregate_by_brand txs = Ok m
    /\ daily_transaction_report.aggregate_by_brand txs' = Ok m'
    /\ sales (entry m "Acme") = 0%float
    /\ sales (entry m' "Acme") = 1%float
    /\ orders_of m "Acme" = orders_of m' "Acme".
Proof.
  pose (t := fun f : float =>
               [("merchant_name", PStr "Acme"); ("sale_amount", PFloat f)]).
  exists [t 1e16%float; t 1%float; t (-1e16)%float],
         [t 1e16%float; t (-1e16)%float; t 1%float].
  eexists _, _. split; [apply perm_skip, perm_swap |].
  split; [vm_compute; reflexivity |]. split; [vm_compute; reflexivity |].
  split; [vm_compute; reflexivity |]. split; vm_compute; reflexivity.
Qed.

Section Failures.
Context {rt : Runtime} {eng : Engine}.

(** What the [try]/[except] of transaction mode lets through. *)
Lemma amount_cases (t : dict) (k : string) :
  (exists f, daily_transaction_report.amount t k = Ok f)
  \/ daily_transaction_report.amount t k = Raise OverflowError.
Proof.
  unfold daily_transaction_report.amount.
  destruct (py_or _ _) as [| b | z | f | s | l | d]; cbn [py_float]; eauto.
  - unfold float_of_Z. destruct (binary_normalize _ _ _ _ _); eauto.
  - destruct (float_of_str s); eauto.
Qed.

Lemma amount_overflow (t : dict) (k : string) (z : Z) :
  dict_lookup t k = Some (PInt z) -> float_of_Z z = Raise OverflowError ->
  daily_transaction_report.amount t k = Raise OverflowError.
Proof.
  intros Hk Hz. unfold daily_transaction_report.amount, dict_get, py_or.
  rewrite Hk. simpl.
  destruct (Z.eqb_spec z 0) as [-> | _]; [discriminate Hz |].
  simpl. rewrite Hz. reflexivity.
Qed.

(** The [try]/[except] of transaction mode absorbs [TypeError] and
    [ValueError] only.  An integer amount too large for a float makes
    [float()] raise [OverflowError], and then the whole aggregation fails,
    whatever the rows before and after. *)
Theorem huge_integer_amount_is_not_absorbed (pre post : list dict) (t : dict)
    (k : string) (z : Z) (m0 : gmap string stats) :
  k = "sale_amount" \/ k = "sale_comm" ->
  dict_lookup t k = Some (PInt z) ->
  float_of_Z z = Raise OverflowError ->
  daily_transaction_report.aggregate_by_brand pre = Ok m0 ->
  daily_transaction_report.aggregate_by_brand (pre ++ t :: post)
  = Raise OverflowError.
Proof.
  intros Hk Ht Hz Hpre. unfold daily_transaction_report.aggregate_by_brand in *.
  rewrite transaction_aggregate_app, Hpre. cbn [bind].
  cbn [daily_transaction_report.aggregate_from].
  unfold daily_transaction_report.add_row.
  destruct Hk as [-> | ->].
  - rewrite (amount_overflow _ _ _ Ht Hz). reflexivity.
  - rewrite (amount_overflow t "sale_comm" _ Ht Hz).
    destruct (amount_cases t "sale_amount") as [[f ->] | ->]; reflexivity.
Qed.

(** Transaction mode never fails with [ValueError], nor with any exception
    other than [OverflowError] (an integer amount beyond the floats) and
    [TypeError] (a merchant name that is a list or an object, which cannot
    be a key). *)
Theorem transaction_aggregation_raises_only (txs : list dict) (e : exn) :
  daily_transaction_report.aggregate_by_brand txs = Raise e ->
  e = OverflowError
  \/ (e = TypeError
      /\ exists t, t ∈ txs
                   /\ match dict_lookup t "merchant_name" with
                      | Some (PList (_ :: _)) | Some (PDict (_ :: _)) => True
                      | _ => False
                      end).
Proof.
  unfold daily_transaction_report.aggregate_by_brand. generalize (∅ : gmap string stats).
  induction txs as [| t txs IH]; intros result; [discriminate |].
  cbn [daily_transaction_report.aggregate_from].
  destruct (daily_transaction_report.add_row result t) as [result' | e' | l] eqn:Hrow;
    cbn [bind].
  - intros H. destruct (IH _ H) as [-> | (-> & t' & Ht' & Hm)]; [auto |].
    right. split; [reflexivity |]. exists t'. split; [right; exact Ht' | exact Hm].
  - intros [= <-]. revert Hrow. unfold daily_transaction_report.add_row.
    destruct (amount_cases t "sale_amount") as [[f ->] | ->];
      [| intros [= <-]; auto].
    destruct (amount_cases t "sale_comm") as [[f' ->] | ->];
      [| intros [= <-]; auto].
    cbn [bind]. unfold py_or, dict_get.
    destruct (dict_lookup t "merchant_name") as [[| b | z | x | s | [| v l0] | [| v d]] |]
      eqn:Hm; simpl;
      repeat match goal with
             | |- context [if ?c then _ else _] => destruct c; simpl
             end;
      try discriminate.
    + intros [= <-]. right. split; [reflexivity |]. exists t.
      split; [left |]. rewrite Hm. exact I.
    + intros [= <-]. right. split; [reflexivity |]. exists t.
      split; [left |]. rewrite Hm. exact I.
  - discriminate.
Qed.

(** In datafeed mode [quantity > 0] is evaluated on the value as it came:
    a quantity that is a non-empty string fails the aggregation with
    [TypeError], for a row whose brand could be resolved. *)
Theorem string_quantity_fails_the_datafeed_aggregation (db : database)
    (pre post : list dict) (r : dict) (s brand : string)
    (m0 : gmap string stats) :
  dict_lookup r "quantity" = Some (PStr s) -> s <> "" ->
  daily_amazon_report.resolve_brand db r = Ok brand ->
  daily_amazon_report.aggregate_by_brand db pre = Ok m0 ->
  daily_amazon_report.aggregate_by_brand db (pre ++ r :: post) = Raise TypeError.
Proof.
  intros Hq Hs Hb Hpre. unfold daily_amazon_report.aggregate_by_brand in *.
  rewrite datafeed_aggregate_app, Hpre. cbn [bind].
  cbn [daily_amazon_report.aggregate_from].
  unfold daily_amazon_report.add_row. rewrite Hb. cbn [bind].
  unfold dict_get at 1. rewrite Hq. unfold py_or at 1. simpl.
  apply String.eqb_neq in Hs. rewrite Hs. reflexivity.
Qed.

(** The datafeed report consults the table only for rows that carry a
    product code.  Rows without one aggregate the same on any database;
    on a database whose table was never created, the first row with a
    product code fails the aggregation with [OperationalError]. *)
Theorem lookup_table_is_needed_for_coded_rows_only (db : database) :
  (forall (db' : database) (rows : list dict),
     Forall (fun r => truthy (dict_get r "asin" PNone) = false) rows ->
     daily_amazon_report.aggregate_by_brand db rows
     = daily_amazon_report.aggregate_by_brand db' rows)
  /\ (products db = None ->
      forall (pre post : list dict) (r : dict) (m0 : gmap string stats),
        truthy (dict_get r "asin" PNone) = true ->
        daily_amazon_report.aggregate_by_brand db pre = Ok m0 ->
        daily_amazon_report.aggregate_by_brand db (pre ++ r :: post)
        = Raise OperationalError).
Proof.
  split.
  - intros db' rows H. unfold daily_amazon_report.aggregate_by_brand.
    generalize (∅ : gmap string stats).
    induction H as [| r rows Hr _ IH]; intros result; [reflexivity |].
    cbn [daily_amazon_report.aggregate_from].
    assert (Hrow : daily_amazon_report.add_row db result r
                   = daily_amazon_report.add_row db' result r).
    { unfold daily_amazon_report.add_row, daily_amazon_report.resolve_brand.
      rewrite Hr. reflexivity. }
    rewrite Hrow. destruct (daily_amazon_report.add_row db' result r);
      cbn [bind]; [apply IH | reflexivity ..].
  - intros Hdb pre post r m0 Hr Hpre.
    unfold daily_amazon_report.aggregate_by_brand in *.
    rewrite datafeed_aggregate_app, Hpre. cbn [bind].
    cbn [daily_amazon_report.aggregate_from].
    unfold daily_amazon_report.add_row, daily_amazon_report.resolve_brand,
      daily_amazon_report.get_brand_name_from_db.
    rewrite Hr, Hdb. reflexivity.
Qed.

End Failures.

Lemma huge_integer_amount_is_not_absorbed_witness :
  daily_transaction_report.aggregate_by_brand (rt := digits_runtime)
    (sample_transactions
       ++ [[("merchant_name", PStr "Acme"); ("sale_amount", PInt (2 ^ 1024))]])
  = Raise OverflowError.
Proof.
  destruct (daily_transaction_report.aggregate_by_brand (rt := digits_runtime)
              sample_transactions) as [m0 | |] eqn:H;
    [| vm_compute in H; discriminate H ..].
  apply (huge_integer_amount_is_not_absorbed (rt := digits_runtime)
           sample_transactions []
           [("merchant_name", PStr "Acme"); ("sale_amount", PInt (2 ^ 1024))]
           "sale_amount" (2 ^ 1024) m0).
  - left. reflexivity.
  - reflexivity.
  - vm_compute. reflexivity.
  - exact H.
Defined.

Lemma transaction_aggregation_raises_only_witness :
  daily_transaction_report.aggregate_by_brand (rt := digits_runtime)
    [[("merchant_name", PList [PStr "Acme"])]] = Raise TypeError.
Proof.
  destruct (daily_transaction_report.aggregate_by_brand (rt := digits_runtime)
              [[("merchant_name", PList [PStr "Acme"])]]) as [m | e |] eqn:H;
    [vm_compute in H; discriminate H | | vm_compute in H; discriminate H].
  destruct (transaction_aggregation_raises_only (rt := digits_runtime) _ e H)
    as [-> | [-> _]]; [vm_compute in H; discriminate H | reflexivity].
Defined.

Lemma string_quantity_fails_the_datafeed_aggregation_witness :
  daily_amazon_report.aggregate_by_brand
    (rt := digits_runtime) (eng := sample_engine) sample_db
    (sample_rows ++ [[("asin", PStr "B00TEST"); ("quantity", PStr "2")]])
  = Raise TypeError.
Proof.
  destruct (daily_amazon_report.aggregate_by_brand
              (rt := digits_runtime) (eng := sample_engine) sample_db sample_rows)
    as [m0 | |] eqn:H; [| vm_compute in H; discriminate H ..].
  apply (string_quantity_fails_the_datafeed_aggregation
           (rt := digits_runtime) (eng := sample_engine) sample_db
           sample_rows [] [("asin", PStr "B00TEST"); ("quantity", PStr "2")]
           "2" "Acme" m0).
  - reflexivity.
  - discriminate.
  - reflexivity.
  - exact H.
Defined.

Lemma lookup_table_is_needed_for_coded_rows_only_witness :
  daily_amazon_report.aggregate_by_brand
    (rt := digits_runtime) (eng := sample_engine) {| products := None |}
    [[("quantity", PInt 1)]; [("asin", PStr "B00TEST"); ("quantity", PInt 1)]]
  = Raise OperationalError.
Proof.
  destruct (daily_amazon_report.aggregate_by_brand
              (rt := digits_runtime) (eng := sample_engine)
              {| products := None |} [[("quantity", PInt 1)]])
    as [m0 | |] eqn:H; [| vm_compute in H; discriminate H ..].
  destruct (lookup_table_is_needed_for_coded_rows_only
              (rt := digits_runtime) (eng := sample_engine)
              {| products := None |}) as [_ Hfail].
  apply (Hfail eq_refl [[("quantity", PInt 1)]] []
           [("asin", PStr "B00TEST"); ("quantity", PInt 1)] m0 eq_refl H).
Defined.

(* ===================================================================== *)
(** ** The requests of a run                                              *)
(* ===================================================================== *)

Lemma drop_tl {A : Type} (n : nat) (l : list A) : drop n (tl l) = drop (S n) l.
Proof. destruct l; simpl; [by destruct n | reflexivity]. Qed.

Lemma seqZ_succ_cons (page : Z) (n : nat) :
  seqZ page (Z.of_nat (S n)) = page :: seqZ (page + 1) (Z.of_nat n).
Proof. rewrite seqZ_cons by lia. f_equal. f_equal; lia. Qed.

Section Requests.
Context {rt : Runtime}.

Lemma transaction_fetch_pages_sent (token d1 d2 : string) (limit : Z) (fuel : nat) :
  forall (page : Z) (acc : list pyval) (w : world)
         (o : outcome (list pyval)) (w' : world),
    daily_transaction_report.fetch_pages fuel token d1 d2 limit page acc w = (o, w') ->
    exists n : nat,
      (n <= fuel)%nat
      /\ pending w' = drop n (pending w)
      /\ sent w' = sent w
                   ++ ((fun p => daily_transaction_report.page_request
                                   token d1 d2 p limit)
                         <$> seqZ page (Z.of_nat n)).
Proof.
  induction fuel as [| fuel IH]; intros page acc w o w'.
  - cbn [daily_transaction_report.fetch_pages]. intros [= <- <-]. exists 0%nat.
    split; [lia |]. split; [by rewrite drop_0 |].
    change (seqZ page (Z.of_nat 0)) with (@nil Z). by rewrite app_nil_r.
  - cbn [daily_transaction_report.fetch_pages]. rewrite post_next.
    destruct (daily_transaction_report.page_step _ page acc)
      as [[items | items] | e | l].
    2: { intros H. apply IH in H as (n & Hn & Hp & Hs).
         cbn [pending sent] in Hp, Hs. exists (S n). split; [lia |].
         split; [by rewrite Hp, drop_tl |].
         rewrite Hs, seqZ_succ_cons, <- app_assoc. reflexivity. }
    all: intros [= <- <-]; exists 1%nat; cbn [pending sent];
      (split; [lia |]); (split; [by rewrite <- drop_tl, drop_0 |]);
      rewrite (seqZ_succ_cons page 0); reflexivity.
Qed.

Lemma amazon_fetch_pages_sent (token d1 d2 : string) (size : Z) (fuel : nat) :
  forall (page : Z) (acc : list pyval) (w : world)
         (o : outcome (list pyval)) (w' : world),
    daily_amazon_report.fetch_pages fuel token d1 d2 size page acc w = (o, w') ->
    exists n : nat,
      (n <= fuel)%nat
      /\ pending w' = drop n (pending w)
      /\ sent w' = sent w
                   ++ ((fun p => daily_amazon_report.page_request token d1 d2 p size)
                         <$> seqZ page (Z.of_nat n)).
Proof.
  induction fuel as [| fuel IH]; intros page acc w o w'.
  - cbn [daily_amazon_report.fetch_pages]. intros [= <- <-]. exists 0%nat.
    split; [lia |]. split; [by rewrite drop_0 |].
    change (seqZ page (Z.of_nat 0)) with (@nil Z). by rewrite app_nil_r.
  - cbn [daily_amazon_report.fetch_pages]. rewrite post_next.
    destruct (daily_amazon_report.page_step _ acc) as [[items | items] | e | l].
    2: { intros H. apply IH in H as (n & Hn & Hp & Hs).
         cbn [pending sent] in Hp, Hs. exists (S n). split; [lia |].
         split; [by rewrite Hp, drop_tl |].
         rewrite Hs, seqZ_succ_cons, <- app_assoc. reflexivity. }
    all: intros [= <- <-]; exists 1%nat; cbn [pending sent];
      (split; [lia |]); (split; [by rewrite <- drop_tl, drop_0 |]);
      rewrite (seqZ_succ_cons page 0); reflexivity.
Qed.

Lemma sync_pages_sent {eng : Engine} (env : gmap string string) (token : string)
    (size : Z) (fuel : nat) :
  get_token env = Ok token ->
  forall (page total_count : Z) (db : database) (w : world)
         (o : outcome Z) (db' : database) (w' : world),
    sync_products.sync_pages fuel env size page total_count db w = (o, db', w') ->
    exists n : nat,
      (n <= fuel)%nat
      /\ pending w' = drop n (pending w)
      /\ sent w' = sent w
                   ++ ((fun p => sync_products.page_request token p size)
                         <$> seqZ page (Z.of_nat n)).
Proof.
  intros Htoken.
  induction fuel as [| fuel IH]; intros page total_count db w o db' w'.
  - cbn [sync_products.sync_pages]. intros [= <- <- <-]. exists 0%nat.
    split; [lia |]. split; [by rewrite drop_0 |].
    change (seqZ page (Z.of_nat 0)) with (@nil Z). by rewrite app_nil_r.
  - cbn [sync_products.sync_pages]. unfold sync_products.fetch_fba_products_page.
    rewrite Htoken, post_next.
    destruct (data <- sync_products.check_envelope _ ;;
              sync_products.store_page data size db total_count)
      as [[[[|] db1] n1] | e | l].
    2: { intros H. apply IH in H as (n & Hn & Hp & Hs).
         cbn [pending sent] in Hp, Hs. exists (S n). split; [lia |].
         split; [by rewrite Hp, drop_tl |].
         rewrite Hs, seqZ_succ_cons, <- app_assoc. reflexivity. }
    all: intros [= <- <- <-]; exists 1%nat; cbn [pending sent];
      (split; [lia |]); (split; [by rewrite <- drop_tl, drop_0 |]);
      rewrite (seqZ_succ_cons page 0); reflexivity.
Qed.

(** Whatever the responses are and however the run ends, a fetch asks for
    the pages 1, 2, 3, ... in this order, without a gap or a repeat, with
    the same token, dates and page size in every request; it takes one
    response per request and makes no more requests than the loop has
    turns.  This holds for the two report fetchers and for the product
    synchronisation. *)
Theorem pages_are_requested_in_order {eng : Engine} (env : gmap string string)
    (token : string) (fuel : nat) (d1 d2 : string) (size : Z) (db : database)
    (w : world) :
  env !! TOKEN_ENV_NAME = Some token -> token <> "" ->
  (exists n : nat,
     (n <= fuel)%nat
     /\ let w' := (daily_transaction_report.fetch_transactions
                     fuel env d1 d2 size w).2 in
        pending w' = drop n (pending w)
        /\ sent w' = sent w
                     ++ ((fun p => daily_transaction_report.page_request
                                     token d1 d2 p size)
                           <$> seqZ 1 (Z.of_nat n)))
  /\ (exists n : nat,
        (n <= fuel)%nat
        /\ let w' := (daily_amazon_report.fetch_amazon_report
                        fuel env d1 d2 size w).2 in
           pending w' = drop n (pending w)
           /\ sent w' = sent w
                        ++ ((fun p => daily_amazon_report.page_request
                                        token d1 d2 p size)
                              <$> seqZ 1 (Z.of_nat n)))
  /\ (exists n : nat,
        (n <= fuel)%nat
        /\ let w' := (sync_products.sync_products fuel env size db w).2 in
           pending w' = drop n (pending w)
           /\ sent w' = sent w
                        ++ ((fun p => sync_products.page_request token p size)
                              <$> seqZ 1 (Z.of_nat n))).
Proof.
  intros Henv Htoken. pose proof (get_token_present env token Henv Htoken) as Hget.
  split; [| split].
  - unfold daily_transaction_report.fetch_transactions. rewrite Hget.
    destruct (daily_transaction_report.fetch_pages fuel token d1 d2 size 1 [] w)
      as [o w'] eqn:Hrun.
    destruct (transaction_fetch_pages_sent _ _ _ _ _ _ _ _ _ _ Hrun)
      as (n & Hn & Hp & Hs).
    exists n. split; [exact Hn |]. split; assumption.
  - unfold daily_amazon_report.fetch_amazon_report. rewrite Hget.
    destruct (daily_amazon_report.fetch_pages fuel token d1 d2 size 1 [] w)
      as [o w'] eqn:Hrun.
    destruct (amazon_fetch_pages_sent _ _ _ _ _ _ _ _ _ _ Hrun)
      as (n & Hn & Hp & Hs).
    exists n. split; [exact Hn |]. split; assumption.
  - unfold sync_products.sync_products.
    destruct (sync_products.sync_pages fuel env size 1 0
                (sync_products.init_db db) w) as [[o db'] w'] eqn:Hrun.
    destruct (sync_pages_sent env token size fuel Hget _ _ _ _ _ _ _ Hrun)
      as (n & Hn & Hp & Hs).
    exists n. split; [exact Hn |].
    destruct o as [total | e | l]; [destruct (products db') |..];
      split; assumption.
Qed.

End Requests.

Lemma pages_are_requested_in_order_witness :
  exists n : nat,
    (n <= 5)%nat
    /\ let w' := (sync_products.sync_products (rt := digits_runtime)
                    (eng := sample_engine) 5 sample_env 2 {| products := None |}
                    {| pending := sample_listing; sent := [] |}).2 in
       pending w' = drop n sample_listing
       /\ sent w' = [] ++ ((fun p => sync_products.page_request "secret" p 2)
                             <$> seqZ 1 (Z.of_nat n)).
Proof.
  destruct (pages_are_requested_in_order (rt := digits_runtime)
              (eng := sample_engine) sample_env "secret" 5 "2024-05-01"
              "2024-05-01" 2 {| products := None |}
              {| pending := sample_listing; sent := [] |} eq_refl)
    as (_ & _ & H); [discriminate | exact H].
Defined.

Lemma sync_keeps_the_table_sound_witness :
  let '(o, db', w') :=
    sync_products.sync_products (rt := digits_runtime) (eng := sample_engine)
      5 sample_env 2 sample_db {| pending := sample_listing; sent := [] |} in
  let tbl := default [] (products sample_db) in
  exists tbl',
    products db' = Some tbl'
    /\ (primary_key_ok tbl = true -> primary_key_ok tbl' = true)
    /\ (asin <$> tbl) `prefix_of` (asin <$> tbl')
    /\ forall s, o = Ok s ->
         sync_products.db_total s = Z.of_nat (length tbl')
         /\ 0 <= sync_products.distinct_brand_id s <= sync_products.db_total s
         /\ 0 <= sync_products.distinct_brand_name s <= sync_products.db_total s
         /\ 0 <= sync_products.processed s
         /\ sync_products.db_total s
            <= Z.of_nat (length tbl) + sync_products.processed s.
Proof.
  exact (sync_keeps_the_table_sound (rt := digits_runtime) (eng := sample_engine)
           5 sample_env 2 sample_db {| pending := sample_listing; sent := [] |}).
Defined.

(* ===================================================================== *)
(** ** The brand table on the console                                     *)
(* ===================================================================== *)

#[local] Instance by_brand_transitive : Transitive by_brand.
Proof. intros a b c Hab Hbc. unfold by_brand in *. by etrans. Qed.

#[local] Instance by_brand_total : Total by_brand.
Proof. intros a b. unfold by_brand. apply (total String.le). Qed.

Lemma sorted_distinct_strict (l : list (string * stats)) :
  StronglySorted by_brand l -> NoDup l.*1 ->
  StronglySorted (fun a b => by_brand a b /\ a.1 <> b.1) l.
Proof.
  induction 1 as [| a l Hl IH Ha]; intros Hnd; [constructor |].
  rewrite fmap_cons in Hnd. apply NoDup_cons in Hnd as [Hin Hnd].
  constructor; [auto |].
  apply Forall_forall. intros b Hb. split.
  - rewrite Forall_forall in Ha. auto.
  - intros Heq. apply Hin. rewrite Heq. by apply list_elem_of_fmap_2.
Qed.

(** The table both report scripts print has one line per brand of the
    aggregate, and the brands come in strictly ascending order of their
    names, compared byte by byte (so upper case sorts before lower case):
    no brand is listed twice and none is left out. *)
Theorem console_table_lists_each_brand_once_in_order {fmt : Format}
    (agg : gmap string stats) :
  length (brand_lines agg) = size agg
  /\ StronglySorted (fun a b => String.le a.1 b.1 /\ a.1 <> b.1) (sorted_items agg)
  /\ forall (brand : string) (s : stats),
       (brand, s) ∈ sorted_items agg <-> agg !! brand = Some s.
Proof.
  unfold brand_lines, sorted_items. split; [| split].
  - rewrite length_fmap, merge_sort_Permutation. apply length_map_to_list.
  - apply sorted_distinct_strict; [apply StronglySorted_merge_sort; apply _ |].
    rewrite merge_sort_Permutation. apply NoDup_fst_map_to_list.
  - intros brand s. rewrite merge_sort_Permutation. apply elem_of_map_to_list.
Qed.

(* ===================================================================== *)
(** ** Whole runs                                                         *)
(* ===================================================================== *)

Section Runs.
Context {rt : Runtime} {eng : Engine}.
Context {cal : daily_transaction_report.Calendar}.
Context {tpl : daily_transaction_report.Template}.
Context {acal : daily_amazon_report.Calendar} {fmt : Format}.
Context {disk : Disk} {con : Stdout}.

Lemma transaction_aggregate_fetched_app (pre : list dict) (rest : list pyval) :
  forall result : gmap string stats,
    daily_transaction_report.aggregate_fetched result ((PDict <$> pre) ++ rest)
    = (m <- daily_transaction_report.aggregate_from result pre ;;
       daily_transaction_report.aggregate_fetched m rest).
Proof.
  induction pre as [| t pre IH]; intros result; [reflexivity |].
  rewrite fmap_cons.
  cbn [app daily_transaction_report.aggregate_fetched
       daily_transaction_report.aggregate_from].
  destruct (daily_transaction_report.add_row result t); cbn [bind]; auto.
Qed.

Lemma datafeed_aggregate_fetched_app (db : database) (pre : list dict)
    (rest : list pyval) :
  forall result : gmap string stats,
    daily_amazon_report.aggregate_fetched db result ((PDict <$> pre) ++ rest)
    = (m <- daily_amazon_report.aggregate_from db result pre ;;
       daily_amazon_report.aggregate_fetched db m rest).
Proof.
  induction pre as [| t pre IH]; intros result; [reflexivity |].
  rewrite fmap_cons.
  cbn [app daily_amazon_report.aggregate_fetched
       daily_amazon_report.aggregate_from].
  destruct (daily_amazon_report.add_row db result t); cbn [bind]; auto.
Qed.

(** The loop that prints the table, when every line can be shown. *)
Lemma print_rows_all (items : list (string * stats)) :
  forall out : list string,
    Forall (fun item => encodable item.1 = true) items ->
    print_rows items out = (Ok tt, out ++ (brand_line <$> items)).
Proof.
  induction items as [| item items IH]; intros out Hall.
  - cbn [print_rows fmap list_fmap]. rewrite app_nil_r. reflexivity.
  - apply Forall_cons in Hall as [Hitem Hall].
    cbn [print_rows]. rewrite Hitem, (IH _ Hall), fmap_cons, <- app_assoc.
    reflexivity.
Qed.

(** The same loop, when a line cannot be shown. *)
Lemma print_rows_stops (shown : list (string * stats)) (item : string * stats)
    (rest : list (string * stats)) :
  forall out : list string,
    Forall (fun item => encodable item.1 = true) shown ->
    encodable item.1 = false ->
    print_rows (shown ++ item :: rest) out
    = (Raise UnicodeEncodeError, out ++ (brand_line <$> shown)).
Proof.
  induction shown as [| first shown IH]; intros out Hall Hitem.
  - cbn [app print_rows fmap list_fmap]. rewrite Hitem, app_nil_r. reflexivity.
  - apply Forall_cons in Hall as [Hfirst Hall].
    cbn [app print_rows]. rewrite Hfirst, (IH _ Hall Hitem), fmap_cons,
      <- app_assoc.
    reflexivity.
Qed.

(** The same loop, as far as it gets when some line cannot be shown. *)
Lemma print_rows_refused (items : list (string * stats)) :
  forall out : list string,
    Exists (fun item => encodable item.1 = false) items ->
    (print_rows items out).1 = Raise UnicodeEncodeError.
Proof.
  induction items as [| item items IH]; intros out Hex.
  - inversion Hex.
  - cbn [print_rows]. destruct (encodable item.1) eqn:Hitem; [| reflexivity].
    apply IH. apply Exists_cons in Hex as [Hbad | Hex]; [congruence | exact Hex].
Qed.

(** The transaction report prints its brand table before it writes the
    page.  A brand name the console cannot show therefore ends the run with
    [UnicodeEncodeError] after the rows have been fetched and aggregated,
    and the report is not written. *)
Theorem unprintable_brand_prevents_the_report
    (fuel : nat) (today : Z) (argv : list string) (env : gmap string string)
    (module_dir : string) (w w' : world) (fs : gmap string string)
    (b e k : string) (txs : list pyval) (agg : gmap string stats)
    (brand : string) :
  daily_transaction_report.parse_range_arg today argv = Ok (b, e, k) ->
  daily_transaction_report.fetch_transactions fuel env b e 1000 w
  = (Ok txs, w') ->
  daily_transaction_report.aggregate_fetched ∅ txs = Ok agg ->
  brand ∈ dom agg -> encodable brand = false ->
  daily_transaction_report.main fuel today argv env module_dir w fs
  = (Raise UnicodeEncodeError, w', fs).
Proof.
  intros Hparse Hfetch Hagg Hbrand Hrefused.
  unfold daily_transaction_report.main. rewrite Hparse, Hfetch, Hagg.
  rewrite print_rows_refused; [reflexivity |].
  apply elem_of_dom in Hbrand as [s Hs].
  apply Exists_exists. exists (brand, s). split; [| exact Hrefused].
  unfold sorted_items. rewrite merge_sort_Permutation.
  apply elem_of_map_to_list. exact Hs.
Qed.

(** Run without an argument, the transaction report asks for yesterday, as
    both the begin and the end date and 1000 rows to the page; the datafeed
    report always asks for yesterday, in the compact form of the date, as
    both the start and the end date and 500 rows to the page.  Every
    request of the run carries these, and the pages are numbered from 1. *)
Theorem default_run_asks_for_yesterday
    (fuel : nat) (today : Z) (argv : list string) (env : gmap string string)
    (token module_dir : string) (db : database) (w : world)
    (fs : gmap string string) (out : list string) :
  env !! TOKEN_ENV_NAME = Some token -> token <> "" -> (length argv < 2)%nat ->
  (exists n : nat,
     let day := daily_transaction_report.strftime (today - 1) in
     sent (daily_transaction_report.main fuel today argv env module_dir w fs).1.2
     = sent w ++ ((fun p => daily_transaction_report.page_request
                              token day day p 1000)
                    <$> seqZ 1 (Z.of_nat n)))
  /\ (exists n : nat,
        let day := daily_amazon_report.strftime (today - 1) in
        sent (daily_amazon_report.main_for_yesterday fuel env today db w out).1.2
        = sent w ++ ((fun p => daily_amazon_report.page_request
                                 token day day p 500)
                       <$> seqZ 1 (Z.of_nat n))).
Proof.
  intros Henv Htoken Hargv.
  pose proof (get_token_present env token Henv Htoken) as Hget. split.
  - unfold daily_transaction_report.main.
    assert (daily_transaction_report.parse_range_arg today argv
            = Ok (daily_transaction_report.strftime (today - 1),
                  daily_transaction_report.strftime (today - 1), "yesterday"))
      as ->.
    { destruct argv as [| a0 [| a rest]]; [reflexivity .. |].
      cbn [length] in Hargv. lia. }
    unfold daily_transaction_report.fetch_transactions. rewrite Hget.
    destruct (daily_transaction_report.fetch_pages fuel token _ _ 1000 1 [] w)
      as [o w'] eqn:Hrun.
    destruct (transaction_fetch_pages_sent _ _ _ _ _ _ _ _ _ _ Hrun)
      as (n & _ & _ & Hs).
    exists n. cbv zeta.
    destruct o as [txs | ex | l]; [| exact Hs ..].
    destruct (daily_transaction_report.aggregate_fetched ∅ txs) as [agg | ex | l];
      [| exact Hs ..].
    destruct (print_rows (sorted_items agg) []) as [[u | ex | l] shown];
      cbn [fst]; [| exact Hs ..].
    destruct (daily_transaction_report.write_html_report _ _ _ _ agg fs)
      as [[path | ex | l] fs']; exact Hs.
  - unfold daily_amazon_report.main_for_yesterday, daily_amazon_report.main_for_date.
    unfold daily_amazon_report.fetch_amazon_report. rewrite Hget.
    destruct (daily_amazon_report.fetch_pages fuel token _ _ 500 1 [] w)
      as [o w'] eqn:Hrun.
    destruct (amazon_fetch_pages_sent _ _ _ _ _ _ _ _ _ _ Hrun)
      as (n & _ & _ & Hs).
    exists n. cbv zeta.
    destruct o as [rows | ex | l]; [| exact Hs ..].
    destruct (daily_amazon_report.aggregate_fetched db ∅ rows) as [agg | ex | l];
      [| exact Hs ..].
    destruct (print_rows (sorted_items agg) _) as [printed shown]. exact Hs.
Qed.

(** The brand table of the datafeed report is printed line by line.  When
    every brand name can be shown, the run returns with the whole table on
    the console.  When one cannot, the run ends with [UnicodeEncodeError]
    at the first such brand in the order of the table: the lines of the
    brands before it are on the console, its own line and the lines after
    it are not. *)
Theorem datafeed_table_stops_at_an_unprintable_brand
    (fuel : nat) (env : gmap string string) (day : Z) (db : database)
    (w w' : world) (out : list string) (rows : list pyval)
    (agg : gmap string stats) :
  let day_str := daily_amazon_report.strftime day in
  daily_amazon_report.fetch_amazon_report fuel env day_str day_str 500 w
  = (Ok rows, w') ->
  daily_amazon_report.aggregate_fetched db ∅ rows = Ok agg ->
  let heading :=
    out ++ ["Fetching Amazon report for " +:+ day_str +:+ " ...";
            "Total rows: " +:+ pretty (Z.of_nat (length rows));
            "Brand Report for " +:+ day_str;
            "Brand, Orders, Sales, Commission"] in
  (Forall (fun item => encodable item.1 = true) (sorted_items agg) ->
   daily_amazon_report.main_for_date fuel env day db w out
   = (Ok tt, w', heading ++ brand_lines agg))
  /\ (forall (shown : list (string * stats)) (item : string * stats)
             (rest : list (string * stats)),
        sorted_items agg = shown ++ item :: rest ->
        Forall (fun item => encodable item.1 = true) shown ->
        encodable item.1 = false ->
        daily_amazon_report.main_for_date fuel env day db w out
        = (Raise UnicodeEncodeError, w', heading ++ (brand_line <$> shown))).
Proof.
  intros day_str Hfetch Hagg heading.
  assert (Hhead : ((out ++ ["Fetching Amazon report for " +:+ day_str +:+ " ..."])
                   ++ ["Total rows: " +:+ pretty (Z.of_nat (length rows))])
                  ++ ["Brand Report for " +:+ day_str;
                      "Brand, Orders, Sales, Commission"] = heading).
  { unfold heading. rewrite <- !app_assoc. reflexivity. }
  unfold daily_amazon_report.main_for_date. fold day_str. cbv zeta.
  rewrite Hfetch, Hagg, Hhead. split.
  - intros Hall. rewrite (print_rows_all _ _ Hall). reflexivity.
  - intros shown item rest Hsplit Hall Hitem.
    rewrite Hsplit, (print_rows_stops _ _ _ _ Hall Hitem). reflexivity.
Qed.

(** The aggregations call [get] on every fetched item.  An item that is not
    an object (a string, a number, [null], a list) therefore ends the run
    with [AttributeError] once the items before it have been aggregated:
    the transaction report writes no file, and the datafeed report stops
    after the line with the number of rows. *)
Theorem item_that_is_no_object_fails_the_run (pre : list dict) (v : pyval)
    (post : list pyval) :
  (forall d, v <> PDict d) ->
  (forall (fuel : nat) (today : Z) (argv : list string) (env : gmap string string)
          (module_dir : string) (w w' : world) (fs : gmap string string)
          (b e k : string) (m0 : gmap string stats),
     daily_transaction_report.parse_range_arg today argv = Ok (b, e, k) ->
     daily_transaction_report.fetch_transactions fuel env b e 1000 w
     = (Ok ((PDict <$> pre) ++ v :: post), w') ->
     daily_transaction_report.aggregate_by_brand pre = Ok m0 ->
     daily_transaction_report.main fuel today argv env module_dir w fs
     = (Raise AttributeError, w', fs))
  /\ (forall (fuel : nat) (env : gmap string string) (day : Z) (db : database)
             (w w' : world) (out : list string) (m0 : gmap string stats),
        let day_str := daily_amazon_report.strftime day in
        daily_amazon_report.fetch_amazon_report fuel env day_str day_str 500 w
        = (Ok ((PDict <$> pre) ++ v :: post), w') ->
        daily_amazon_report.aggregate_by_brand db pre = Ok m0 ->
        daily_amazon_report.main_for_date fuel env day db w out
        = (Raise AttributeError, w',
           out ++ ["Fetching Amazon report for " +:+ day_str +:+ " ...";
                   "Total rows: "
                   +:+ pretty (Z.of_nat (length pre + S (length post)))])).
Proof.
  intros Hv. split.
  - intros fuel today argv env module_dir w w' fs b e k m0 Hparse Hfetch Hpre.
    unfold daily_transaction_report.main. rewrite Hparse, Hfetch.
    rewrite transaction_aggregate_fetched_app.
    unfold daily_transaction_report.aggregate_by_brand in Hpre. rewrite Hpre.
    cbn [bind daily_transaction_report.aggregate_fetched].
    destruct v as [| | | | | | d]; try reflexivity. destruct (Hv d eq_refl).
  - intros fuel env day db w w' out m0 day_str Hfetch Hpre.
    unfold daily_amazon_report.main_for_date. fold day_str. cbv zeta.
    rewrite Hfetch. rewrite datafeed_aggregate_fetched_app.
    unfold daily_amazon_report.aggregate_by_brand in Hpre. rewrite Hpre.
    cbn [bind daily_amazon_report.aggregate_fetched].
    rewrite length_app, length_fmap. cbn [length].
    destruct v as [| | | | | | d];
      [rewrite <- (app_assoc out); reflexivity .. | destruct (Hv d eq_refl)].
Qed.

End Runs.

Lemma default_run_asks_for_yesterday_witness :
  exists n : nat,
    sent (daily_transaction_report.main (rt := digits_runtime)
            (cal := sample_calendar) (tpl := sample_template)
            (disk := sample_disk) (con := sample_stdout) (fmt := sample_format)
            5 19844 ["report"] sample_env "/srv/app" idle ∅).1.2
    = [] ++ ((fun p => daily_transaction_report.page_request
                         "secret" "2024-04-30" "2024-04-30" p 1000)
               <$> seqZ 1 (Z.of_nat n)).
Proof.
  destruct (default_run_asks_for_yesterday (rt := digits_runtime)
              (eng := sample_engine) (cal := sample_calendar)
              (tpl := sample_template) (acal := sample_compact_calendar)
              (fmt := sample_format) (disk := sample_disk)
              (con := sample_stdout) 5 19844 ["report"] sample_env "secret"
              "/srv/app" sample_db idle ∅ [] eq_refl) as [H _];
    [discriminate | cbn [length]; lia | exact H].
Defined.

Lemma datafeed_table_stops_at_an_unprintable_brand_witness :
  exists w',
    daily_amazon_report.main_for_date (rt := digits_runtime)
      (eng := sample_engine) (cal := sample_compact_calendar)
      (fmt := sample_format) (con := sample_stdout) 5 sample_env 19844
      {| products :=
           Some [{| asin := Text "B00TEST"; brand_id := Null;
                    brand_name := Text "Acme"; title := Null;
                    country_code := Null |};
                 {| asin := Text "B00ZOE"; brand_id := Null;
                    brand_name := Text "Zoë"; title := Null;
                    country_code := Null |}] |}
      {| pending := [sample_page
                       [PDict [("asin", PStr "B00ZOE"); ("quantity", PInt 1)];
                        PDict [("asin", PStr "B00TEST"); ("quantity", PInt 2)]]
                       []];
         sent := [] |} []
    = (Raise UnicodeEncodeError, w',
       ["Fetching Amazon report for 20240501 ...";
        "Total rows: 2";
        "Brand Report for 20240501";
        "Brand, Orders, Sales, Commission";
        "Acme, 1, 0.00, 0.00"]).
Proof.
  pose (db := {| products :=
                   Some [{| asin := Text "B00TEST"; brand_id := Null;
                            brand_name := Text "Acme"; title := Null;
                            country_code := Null |};
                         {| asin := Text "B00ZOE"; brand_id := Null;
                            brand_name := Text "Zoë"; title := Null;
                            country_code := Null |}] |}).
  pose (rows := [PDict [("asin", PStr "B00ZOE"); ("quantity", PInt 1)];
                 PDict [("asin", PStr "B00TEST"); ("quantity", PInt 2)]]).
  pose (st := {| orders := 1; sales := 0%float; commission := 0%float |}).
  destruct (daily_amazon_report.aggregate_fetched (rt := digits_runtime)
              (eng := sample_engine) db ∅ rows) as [agg | |] eqn:Hagg;
    [| vm_compute in Hagg; discriminate Hagg ..].
  assert (Hsorted : sorted_items agg = [("Acme", st)] ++ ("Zoë", st) :: []).
  { vm_compute in Hagg. injection Hagg as <-. vm_compute. reflexivity. }
  eexists.
  destruct (datafeed_table_stops_at_an_unprintable_brand (rt := digits_runtime)
              (eng := sample_engine) (acal := sample_compact_calendar)
              (fmt := sample_format) (con := sample_stdout) 5 sample_env 19844
              db {| pending := [sample_page rows []]; sent := [] |}
              {| pending := [];
                 sent := [daily_amazon_report.page_request
                            "secret" "20240501" "20240501" 1 500] |}
              [] rows agg eq_refl Hagg) as [_ H].
  specialize (H [("Acme", st)] ("Zoë", st) [] Hsorted).
  etransitivity; [apply H |].
  - repeat constructor.
  - reflexivity.
  - reflexivity.
Defined.

Lemma item_that_is_no_object_fails_the_run_witness :
  exists w',
    daily_transaction_report.main (rt := digits_runtime) (cal := sample_calendar)
      (tpl := sample_template) (disk := sample_disk) (con := sample_stdout)
      (fmt := sample_format) 5 19844 ["report"; "today"] sample_env "/srv/app"
      {| pending := [sample_page ((PDict <$> sample_transactions) ++ [PNone]) []];
         sent := [] |} ∅
    = (Raise AttributeError, w', ∅).
Proof.
  destruct (daily_transaction_report.aggregate_by_brand (rt := digits_runtime)
              sample_transactions) as [m0 | |] eqn:Hm;
    [| vm_compute in Hm; discriminate Hm ..].
  destruct (item_that_is_no_object_fails_the_run (rt := digits_runtime)
              (eng := sample_engine) (cal := sample_calendar)
              (tpl := sample_template) (acal := sample_compact_calendar)
              (fmt := sample_format) (disk := sample_disk)
              (con := sample_stdout) sample_transactions PNone [])
    as [H _]; [discriminate |].
  eexists.
  eapply (H 5%nat 19844 ["report"; "today"] sample_env "/srv/app" _ _ ∅
            "2024-05-01" "2024-05-01" "today" m0).
  - reflexivity.
  - reflexivity.
  - exact Hm.
Defined.

Lemma unprintable_brand_prevents_the_report_witness :
  exists w',
    daily_transaction_report.main (rt := digits_runtime) (cal := sample_calendar)
      (tpl := sample_template) (disk := sample_disk) (con := sample_stdout)
      (fmt := sample_format) 5 19844 ["report"; "today"] sample_env "/srv/app"
      {| pending := [sample_page [PDict [("merchant_name", PStr "Zoë")]] []];
         sent := [] |} ∅
    = (Raise UnicodeEncodeError, w', ∅).
Proof.
  destruct (daily_transaction_report.aggregate_fetched (rt := digits_runtime)
              ∅ [PDict [("merchant_name", PStr "Zoë")]]) as [agg | |] eqn:Hagg;
    [| vm_compute in Hagg; discriminate Hagg ..].
  assert (Hbrand : "Zoë" ∈ dom agg).
  { vm_compute in Hagg. injection Hagg as <-. apply elem_of_dom.
    exists {| orders := 1; sales := 0%float; commission := 0%float |}.
    vm_compute. reflexivity. }
  eexists.
  eapply (unprintable_brand_prevents_the_report (rt := digits_runtime)
            (cal := sample_calendar) (tpl := sample_template)
            (disk := sample_disk) (con := sample_stdout) (fmt := sample_format)
            5%nat 19844 ["report"; "today"] sample_env "/srv/app" _ _ ∅
            "2024-05-01" "2024-05-01" "today"
            [PDict [("merchant_name", PStr "Zoë")]] agg "Zoë").
  - reflexivity.
  - reflexivity.
  - exact Hagg.
  - exact Hbrand.
  - reflexivity.
Defined.
